(** * user_management.api.serializers

    A shallow embedding of [user_management/api/serializers.py] and of the
    parts of Python, Django and Django REST framework that the serializers
    call, followed by the properties of the serializers.

    Layout:
    - [Python]      : [str.lower], [str.strip], [len] on ASCII text;
    - [Exceptions]  : the exceptions that can leave a serializer method and
                      the monads that carry them;
    - [Models]      : the account record, the user manager and the password
                      primitives of [django.contrib.auth];
    - [Framework]   : [rest_framework.serializers]: [CharField] validation,
                      [Serializer.to_internal_value], [ModelSerializer.update];
    - one module per class of the source file, named after the class;
    - [Examples]    : sample collaborators to run the serializers on;
    - the properties. *)

From Stdlib Require Import Ascii.
From stdpp Require Import base strings gmap list.

(** ** Python strings *)

Module Python.

(** Text is modelled as [string], one [ascii] per character; the functions
    below are Python's on the ASCII range.  Outside that range [str.lower]
    lowercases other letters too and can change the length of a string; the
    properties below use of [lower] that lowercasing twice is lowercasing
    once, and nothing about the length of a lowercased string. *)

Definition is_upper (c : ascii) : bool :=
  let n := nat_of_ascii c in (65 <=? n)%nat && (n <=? 90)%nat.

Definition lower_char (c : ascii) : ascii :=
  if is_upper c then ascii_of_nat (nat_of_ascii c + 32) else c.

(** [str.lower()] *)
Fixpoint lower (s : string) : string :=
  match s with
  | EmptyString => EmptyString
  | String c s' => String (lower_char c) (lower s')
  end.

(** [str.isspace()] on one character: TAB, LF, VT, FF, CR, FS, GS, RS, US
    and the space. *)
Definition is_space (c : ascii) : bool :=
  let n := nat_of_ascii c in
  ((9 <=? n)%nat && (n <=? 13)%nat) || ((28 <=? n)%nat && (n <=? 32)%nat).

Fixpoint lstrip (s : string) : string :=
  match s with
  | EmptyString => EmptyString
  | String c s' => if is_space c then lstrip s' else s
  end.

Fixpoint rstrip (s : string) : string :=
  match s with
  | EmptyString => EmptyString
  | String c s' =>
      match rstrip s' with
      | EmptyString => if is_space c then EmptyString else String c EmptyString
      | r => String c r
      end
  end.

(** [str.strip()] *)
Definition strip (s : string) : string := rstrip (lstrip s).

(** [len(s)] *)
Definition len (s : string) : nat := String.length s.

End Python.

(** ** Exceptions *)

Module Exceptions.

(** One validation message.  [Text] carries a message written in the
    source ([ugettext_lazy] is the identity under the source language);
    the other constructors are the framework's own messages, kept by
    their error code. *)
Inductive Message : Type :=
| Text (s : string)
| Required
| Blank
| MinLength (n : nat)
| MaxLength (n : nat).

(** [ValidationError.detail]: a single message, a list of messages, or a
    dictionary keyed by field name whose values are details again.  The
    constructor of [ValidationError] turns a bare message into a list of
    one message ([validation_error]) and keeps a dictionary as it is. *)
#[local] Unset Elimination Schemes.
Inductive Detail : Type :=
| DetailMsg (m : Message)
| DetailList (ms : list Message)
| DetailDict (d : gmap string Detail).
#[local] Set Elimination Schemes.

Inductive Exception : Type :=
| ValidationError (detail : Detail)
| KeyError (key : string)
| TypeError (argument : string)
| IntegrityError (key : string).

(** [serializers.ValidationError(detail)] *)
Definition validation_error (detail : Detail) : Exception :=
  match detail with
  | DetailMsg m => ValidationError (DetailList [m])
  | _ => ValidationError detail
  end.

(** A computation that returns or raises. *)
Definition result (A : Type) : Type := Exception + A.

Definition bind_result {A B} (c : result A) (k : A → result B) : result B :=
  match c with
  | inl e => inl e
  | inr a => k a
  end.

(** A method of an object of type [S]: it may mutate the object and it
    returns or raises.  The object is threaded through also when the
    method raises: whatever was mutated before the [raise] stays mutated. *)
Definition M (S A : Type) : Type := S → S * result A.

Definition ret {S A} (a : A) : M S A := λ s, (s, inr a).
Definition raise {S A} (e : Exception) : M S A := λ s, (s, inl e).
Definition bind {S A B} (c : M S A) (k : A → M S B) : M S B :=
  λ s, match c s with
       | (s', inl e) => (s', inl e)
       | (s', inr a) => k a s'
       end.
Definition get {S} : M S S := λ s, (s, inr s).
Definition modify {S} (f : S → S) : M S unit := λ s, (f s, inr tt).
Definition lift {S A} (c : result A) : M S A := λ s, (s, c).

(** [try: c except ValidationError as exc: ...]: the detail of a
    validation error is handed to the caller, any other exception goes
    on. *)
Definition catch_validation {S A} (c : M S A) : M S (Detail + A) :=
  λ s, match c s with
       | (s', inr a) => (s', inr (inr a))
       | (s', inl (ValidationError d)) => (s', inr (inl d))
       | (s', inl e) => (s', inl e)
       end.

(** [d[key]] on a dictionary: [KeyError] when the key is absent. *)
Definition getitem {V} (d : gmap string V) (key : string) : result V :=
  match d !! key with
  | Some v => inr v
  | None => inl (KeyError key)
  end.

(** [d.pop(key)]: the value and the dictionary without the key;
    [KeyError] when the key is absent. *)
Definition pop {V} (d : gmap string V) (key : string)
  : result (V * gmap string V) :=
  match d !! key with
  | Some v => inr (v, delete key d)
  | None => inl (KeyError key)
  end.

End Exceptions.

Export Exceptions.

Notation "'let*' x := c 'in' k" := (bind c (λ x, k))
  (at level 10, x binder, c at level 100, k at level 200,
   format "'[v' 'let*'  x  :=  c  'in' '/' k ']'").
Notation "c ;;; k" := (bind c (λ _, k))
  (at level 100, k at level 200, right associativity).
Notation "'let?' x := c 'in' k" := (bind_result c (λ x, k))
  (at level 10, x binder, c at level 100, k at level 200,
   format "'[v' 'let?'  x  :=  c  'in' '/' k ']'").

(** ** django.contrib.auth: the user model *)

Module Models.

(** Modelled from the spec: the user model, which [get_user_model()]
    returns and which is not part of the source file.  "Single entity:
    Account, with attributes name (text), email (text, unique, used as
    natural login key), password (stored as a salted/hashed secret),
    date_joined (timestamp) and email_verification_required (boolean
    flag)."  The timestamp is kept in its textual form. *)
Record Account : Type := mkAccount {
  name : string;
  email : string;
  password : string;
  date_joined : string;
  email_verification_required : bool;
}.

Global Instance Account_eq_dec : EqDecision Account.
Proof. solve_decision. Defined.

Definition set_name (v : string) (a : Account) : Account :=
  mkAccount v (email a) (password a) (date_joined a)
    (email_verification_required a).
Definition set_email (v : string) (a : Account) : Account :=
  mkAccount (name a) v (password a) (date_joined a)
    (email_verification_required a).
Definition set_password_field (v : string) (a : Account) : Account :=
  mkAccount (name a) (email a) v (date_joined a)
    (email_verification_required a).
Definition set_date_joined (v : string) (a : Account) : Account :=
  mkAccount (name a) (email a) (password a) v
    (email_verification_required a).
Definition set_email_verification_required (v : bool) (a : Account)
  : Account :=
  mkAccount (name a) (email a) (password a) (date_joined a) v.

Definition model_fields : list string :=
  ["name"; "email"; "password"; "date_joined";
   "email_verification_required"].

(** [setattr(instance, attr, value)] for a text value.  An attribute that
    is not a model field is not part of the account's state; the boolean
    flag takes the value's truthiness. *)
Definition setattr (a : Account) (attr value : string) : Account :=
  if decide (attr = "name") then set_name value a
  else if decide (attr = "email") then set_email value a
  else if decide (attr = "password") then set_password_field value a
  else if decide (attr = "date_joined") then set_date_joined value a
  else if decide (attr = "email_verification_required")
       then set_email_verification_required
              (bool_decide (value ≠ EmptyString)) a
  else a.

(** The table of accounts, keyed by the natural key (the email). *)
Abbreviation DB := (gmap string Account).

(** Modelled from the spec: the manager of the user model, which is not part
    of the source file, "an account-record persistence interface supporting
    lookup-by-natural-key (email), create, and field update".
    [User.objects.get_by_natural_key(key)] on the table returns the account
    stored under the key; [None] stands for [User.DoesNotExist].  How the
    manager of the package compares the letter case of a key with that of
    the stored emails is not said by the source file nor by the spec: the
    properties of the serializers are stated on what the lookup returns,
    and the methods that call the manager are given as [Lookup]s below,
    which any manager can answer. *)
Definition get_by_natural_key (db : DB) (key : string) : option Account :=
  db !! key.

(** A method that calls [User.objects.get_by_natural_key(key)]: the key it
    hands to the manager, and what it goes on to do with the account that
    the manager returns ([None] for [User.DoesNotExist]). *)
Record Lookup (A : Type) : Type := mkLookup {
  natural_key : string;
  on_account : option Account → A;
}.

Arguments mkLookup {A} _ _.
Arguments natural_key {A} _.
Arguments on_account {A} _ _.

(** The method run against a manager, given by its lookup. *)
Definition answer {A} (objects : string → option Account) (q : Lookup A)
  : A :=
  on_account q (objects (natural_key q)).

(** The model constructor called with keyword arguments [kwargs]: every
    keyword must be a field of the model. *)
Definition init (defaults : Account) (kwargs : gmap string string)
  : result Account :=
  match filter (λ k, k ∉ model_fields) (elements (dom kwargs)) with
  | [] => inr (map_fold (λ k v a, setattr a k v) defaults kwargs)
  | k :: _ => inl (TypeError k)
  end.

(** [User.objects.create] called with keyword arguments [kwargs]: build
    the row and insert it; the email column is unique. *)
Definition create (defaults : Account) (kwargs : gmap string string)
  : M DB Account :=
  let* a := lift (init defaults kwargs) in
  let* db := get in
  match db !! email a with
  | Some _ => raise (IntegrityError (email a))
  | None => modify (insert (email a) a) ;;; ret a
  end.

(** The password hashing primitives of [django.contrib.auth.hashers]. *)
Class PasswordHasher : Type := {
  make_password : string → string;
  verify_password : string → string → bool;
}.

Section Passwords.
Context `{PasswordHasher}.

(** [instance.check_password(raw)]: verify [raw] against the stored
    hash.  (Django may store an upgraded hash of [raw] when the check
    succeeds; a failed check changes nothing.) *)
Definition check_password (raw : string) : M Account bool :=
  let* instance := get in
  ret (verify_password raw (password instance)).

(** [instance.set_password(raw)]: [self.password = make_password(raw)]. *)
Definition set_password (raw : string) : M Account unit :=
  modify (set_password_field (make_password raw)).
End Passwords.

End Models.

(** ** rest_framework.serializers *)

Module Framework.
Import Python.

(** *** Fields *)

(** The options of a [CharField]; a validator returns the messages it
    raises, none when the value passes. *)
Record CharField : Type := mkCharField {
  allow_blank : bool;
  trim_whitespace : bool;
  max_length : option nat;
  min_length : option nat;
  validators : list (string → list Message);
}.

Definition MaxLengthValidator (n : nat) (value : string) : list Message :=
  if (n <? len value)%nat then [MaxLength n] else [].

Definition MinLengthValidator (n : nat) (value : string) : list Message :=
  if (len value <? n)%nat then [MinLength n] else [].

(** [CharField.__init__]: the declared validators, then the length
    validators the options ask for. *)
Definition field_validators (f : CharField) : list (string → list Message) :=
  validators f
  ++ from_option (λ n, [MaxLengthValidator n]) [] (max_length f)
  ++ from_option (λ n, [MinLengthValidator n]) [] (min_length f).

(** [Field.run_validators]: every validator runs, the messages are
    collected, and one error is raised when there is any. *)
Definition run_validators (vs : list (string → list Message))
  (value : string) : result unit :=
  match concat ((λ v, v value) <$> vs) with
  | [] => inr tt
  | errors => inl (ValidationError (DetailList errors))
  end.

(** [CharField.to_internal_value] *)
Definition char_to_internal_value (f : CharField) (data : string) : string :=
  if trim_whitespace f then strip data else data.

(** [CharField.run_validation] *)
Definition char_run_validation (f : CharField) (data : string)
  : result string :=
  if bool_decide (data = EmptyString)
     || (trim_whitespace f && bool_decide (strip data = EmptyString))
  then
    if allow_blank f then inr EmptyString
    else inl (ValidationError (DetailList [Blank]))
  else
    let value := char_to_internal_value f data in
    let? _ := run_validators (field_validators f) value in
    inr value.

(** [CharField(min_length=.., validators=..)], the other options at their
    defaults. *)
Definition char_field (min_length : option nat)
  (validators : list (string → list Message)) : CharField :=
  mkCharField false true None min_length validators.

(** A field of a serializer. *)
Record Field : Type := mkField {
  field_name : string;
  read_only : bool;
  write_only : bool;
  required : bool;
  char : CharField;
}.

(** *** Serializer *)

Section Serializer.
Context {S : Type}.
(** The serializer's fields, its [validate_<field_name>] methods, its
    [validate] method, and whether it was built with [partial=True]. *)
Variable fields : list Field.
Variable validate_method : string → option (string → M S string).
Variable validate : gmap string string → M S (gmap string string).
Variable partial : bool.

(** One field of the loop of [Serializer.to_internal_value]: the field
    validates the submitted value, the [validate_<field_name>] method,
    when there is one, validates the result, and a validation error of
    either is caught. *)
Definition run_field (f : Field) (primitive : string)
  : M S (Detail + string) :=
  catch_validation
    (let* v := lift (char_run_validation (char f) primitive) in
     match validate_method (field_name f) with
     | Some method => method v
     | None => ret v
     end).

(** The loop of [Serializer.to_internal_value] over the writable
    fields: [acc] is the dictionary of validated values, [errors] the
    dictionary of field errors.  A field absent from the data is skipped
    in a partial update, an error when it is required, and skipped
    otherwise. *)
Fixpoint to_internal_value_loop (fs : list Field)
  (data acc : gmap string string) (errors : gmap string Detail)
  : M S (gmap string string * gmap string Detail) :=
  match fs with
  | [] => ret (acc, errors)
  | f :: fs' =>
      if read_only f then to_internal_value_loop fs' data acc errors
      else
        match data !! field_name f with
        | None =>
            if partial then to_internal_value_loop fs' data acc errors
            else if required f then
              to_internal_value_loop fs' data acc
                (<[field_name f := DetailList [Required]]> errors)
            else to_internal_value_loop fs' data acc errors
        | Some primitive =>
            let* r := run_field f primitive in
            match r with
            | inr v =>
                to_internal_value_loop fs' data
                  (<[field_name f := v]> acc) errors
            | inl detail =>
                to_internal_value_loop fs' data acc
                  (<[field_name f := detail]> errors)
            end
        end
  end.

(** [Serializer.to_internal_value] *)
Definition to_internal_value (data : gmap string string)
  : M S (gmap string string) :=
  let* r := to_internal_value_loop fields data ∅ ∅ in
  if decide (r.2 = ∅) then ret r.1
  else raise (ValidationError (DetailDict r.2)).

(** [as_serializer_error]: the error of [validate] as a dictionary. *)
Definition as_serializer_error (detail : Detail) : Detail :=
  match detail with
  | DetailDict d =>
      DetailDict ((λ v, match v with
                        | DetailMsg m => DetailList [m]
                        | _ => v
                        end) <$> d)
  | DetailList ms => DetailDict {[ "non_field_errors" := DetailList ms ]}
  | DetailMsg m => DetailDict {[ "non_field_errors" := DetailList [m] ]}
  end.

(** [Serializer.run_validation]: the fields, then [validate]. *)
Definition run_validation (data : gmap string string)
  : M S (gmap string string) :=
  let* value := to_internal_value data in
  let* r := catch_validation (validate value) in
  match r with
  | inr value' => ret value'
  | inl detail => raise (ValidationError (as_serializer_error detail))
  end.

End Serializer.

(** *** ModelSerializer *)

(** [Meta] of a model serializer. *)
Record Meta : Type := mkMeta {
  meta_fields : list string;
  meta_read_only_fields : list string;
}.

(** What the model says about one of its columns: the field the
    serializer builds for it.  The validators of a column are functions of
    the submitted value alone. *)
Record Column : Type := mkColumn {
  column_editable : bool;
  column_required : bool;
  column_char : CharField;
}.

(** What the serializers need to know of the configured user model: the
    field the framework builds for each column, and the row a new account
    starts from (the defaults of the columns). *)
Class UserModel : Type := {
  columns : string → Column;
  defaults : Models.Account;
}.

(** [ModelSerializer.get_fields]: a field declared on the class is taken
    as it is; a field built from the model is read-only when the column is
    not editable or [Meta.read_only_fields] lists it.  [url] is the
    identity field of a hyperlinked serializer, read-only by
    construction. *)
Definition get_fields `{UserModel} (url : option string)
  (declared : list Field) (meta : Meta) : list Field :=
  (λ n,
     match List.find (λ f, bool_decide (field_name f = n)) declared with
     | Some f => f
     | None =>
         if bool_decide (url = Some n) then
           mkField n true false false (column_char (columns n))
         else
           let ro := negb (column_editable (columns n))
                     || bool_decide (n ∈ meta_read_only_fields meta) in
           mkField n ro false (negb ro && column_required (columns n))
             (column_char (columns n))
     end) <$> meta_fields meta.

(** [ModelSerializer.update]: every validated attribute is set on the
    instance, which is then saved and returned. *)
Definition model_update (validated_data : gmap string string)
  : M Models.Account Models.Account :=
  modify (λ instance,
            map_fold (λ attr value a, Models.setattr a attr value)
              instance validated_data) ;;;
  get.

(** [ModelSerializer.create]: the manager of the model creates the row from
    the validated data. *)
Definition model_create `{UserModel} (validated_data : gmap string string)
  : M Models.DB Models.Account :=
  Models.create defaults validated_data.

(** [serializer.is_valid()] followed by [serializer.save()]: [persist]
    (the serializer's [update], or its [create]) runs on the validated
    data, and only when validation raised nothing. *)
Definition save {S}
  (run : gmap string string → M S (gmap string string))
  (persist : gmap string string → M S Models.Account)
  (data : gmap string string) : M S Models.Account :=
  let* validated_data := run data in
  persist validated_data.

End Framework.

(** ** user_management/api/serializers.py *)

(** [user_management.utils.validators.validate_password_strength], which is
    not part of the source file: the messages it raises for a password, none
    when the password passes. *)
Class StrengthPolicy : Type :=
  validate_password_strength : string → list Message.

Module ValidateEmailMixin.
Import Python Models.

(** The method, before the manager has answered: the lookup is made on
    the lowercased value. *)
Definition validate_email_lookup (value : string) : Lookup (result string) :=
  let email := lower value in
  mkLookup email
    (λ found,
       match found with
       | None => inr email
       | Some _ =>
           let msg := Text "That email address has already been registered." in
           inl (validation_error (DetailMsg msg))
       end).

(** The method on a table of accounts. *)
Definition validate_email (db : DB) (value : string) : result string :=
  answer (get_by_natural_key db) (validate_email_lookup value).

End ValidateEmailMixin.

(** [django.core.validators.EmailValidator], the validator every
    [EmailField] carries: the messages it raises for a value, none when the
    value is an email address. *)
Class EmailPolicy : Type :=
  EmailValidator : string → list Message.

Module EmailSerializerBase.
Import Python Models Framework.

(** [EmailField(max_length=511)]: the validators in the order the
    constructors append them, the maximum length first, then the email
    validator. *)
Definition email `{EmailPolicy} : Field :=
  mkField "email" false false true
    (mkCharField false true None None
       [MaxLengthValidator 511; EmailValidator]).

Definition fields `{EmailPolicy} : list Field := [email].

End EmailSerializerBase.

Module RegistrationSerializer.
Import Python Models Framework.

Definition password `{StrengthPolicy} : Field :=
  mkField "password" false true true
    (char_field (Some 8) [validate_password_strength]).

Definition password2 : Field :=
  mkField "password2" false true true (char_field (Some 8) []).

Definition Meta : Meta :=
  mkMeta ["name"; "email"; "password"; "password2"] [].

Definition validate (attrs : gmap string string)
  : result (gmap string string) :=
  let? popped := pop attrs "password2" in
  let '(password2, attrs) := popped in
  if decide (Some password2 ≠ attrs !! "password") then
    let msg := Text "Your passwords do not match." in
    inl (validation_error (DetailDict {[ "password2" := DetailMsg msg ]}))
  else inr attrs.

Definition create `{UserModel} (validated_data : gmap string string)
  : M DB Account :=
  Models.create defaults validated_data.

(** The serializer as the framework runs it: the mixin's [validate_email]
    is the [validate_<field_name>] method of [email]. *)
Definition fields `{StrengthPolicy} `{UserModel} : list Field :=
  get_fields None [password; password2] Meta.

Definition validate_method (field : string)
  : option (string → M DB string) :=
  if decide (field = "email") then
    Some (λ value,
            let* db := get in lift (ValidateEmailMixin.validate_email db value))
  else None.

Definition run_validation `{StrengthPolicy} `{UserModel}
  (data : gmap string string) : M DB (gmap string string) :=
  Framework.run_validation fields validate_method
    (λ attrs, lift (validate attrs)) false data.

Definition save `{StrengthPolicy} `{UserModel}
  (data : gmap string string) : M DB Account :=
  Framework.save run_validation create data.

End RegistrationSerializer.

Module PasswordChangeSerializer.
Import Python Models Framework.

Definition old_password : Field :=
  mkField "old_password" false true true (char_field None []).

Definition new_password `{StrengthPolicy} : Field :=
  mkField "new_password" false true true
    (char_field (Some 8) [validate_password_strength]).

Definition new_password2 : Field :=
  mkField "new_password2" false true true (char_field (Some 8) []).

Definition Meta : Meta :=
  mkMeta ["old_password"; "new_password"; "new_password2"] [].

(** Check the old password is valid and set the new password.  The
    password is set on the instance, which is returned; the method does not
    call [instance.save()], and the table of accounts is not part of its
    state. *)
Definition update `{PasswordHasher} (validated_data : gmap string string)
  : M Account Account :=
  let* old := lift (getitem validated_data "old_password") in
  let* valid := check_password old in
  if negb valid then
    let msg := Text "Invalid password." in
    raise (validation_error (DetailDict {[ "old_password" := DetailMsg msg ]}))
  else
    let* new := lift (getitem validated_data "new_password") in
    set_password new ;;;
    get.

Definition validate (attrs : gmap string string)
  : result (gmap string string) :=
  let new_password := attrs !! "new_password" in
  let? new_password2 := getitem attrs "new_password2" in
  if decide (new_password ≠ Some new_password2) then
    let msg := Text "Your new passwords do not match." in
    inl (validation_error
           (DetailDict {[ "new_password2" := DetailMsg msg ]}))
  else inr attrs.

Definition fields `{StrengthPolicy} `{UserModel} : list Field :=
  get_fields None [old_password; new_password; new_password2] Meta.

Definition run_validation `{StrengthPolicy} `{UserModel}
  (partial : bool) (data : gmap string string)
  : M Account (gmap string string) :=
  Framework.run_validation fields (λ _, None)
    (λ attrs, lift (validate attrs)) partial data.

Definition save `{StrengthPolicy} `{UserModel} `{PasswordHasher}
  (partial : bool) (data : gmap string string) : M Account Account :=
  Framework.save (run_validation partial) update data.

End PasswordChangeSerializer.

Module PasswordResetSerializer.
Import Python Models Framework.

Definition new_password `{StrengthPolicy} : Field :=
  mkField "new_password" false true true
    (char_field (Some 8) [validate_password_strength]).

Definition new_password2 : Field :=
  mkField "new_password2" false true true (char_field (Some 8) []).

Definition Meta : Meta := mkMeta ["new_password"; "new_password2"] [].

(** Set the new password for the user.  The password is set on the
    instance, which is returned; the method does not call
    [instance.save()], and the table of accounts is not part of its
    state. *)
Definition update `{PasswordHasher} (validated_data : gmap string string)
  : M Account Account :=
  let* new := lift (getitem validated_data "new_password") in
  set_password new ;;;
  get.

Definition validate (attrs : gmap string string)
  : result (gmap string string) :=
  let new_password := attrs !! "new_password" in
  let? new_password2 := getitem attrs "new_password2" in
  if decide (new_password ≠ Some new_password2) then
    let msg := Text "Your new passwords do not match." in
    inl (validation_error
           (DetailDict {[ "new_password2" := DetailMsg msg ]}))
  else inr attrs.

Definition fields `{StrengthPolicy} `{UserModel} : list Field :=
  get_fields None [new_password; new_password2] Meta.

Definition run_validation `{StrengthPolicy} `{UserModel}
  (partial : bool) (data : gmap string string)
  : M Account (gmap string string) :=
  Framework.run_validation fields (λ _, None)
    (λ attrs, lift (validate attrs)) partial data.

Definition save `{StrengthPolicy} `{UserModel} `{PasswordHasher}
  (partial : bool) (data : gmap string string) : M Account Account :=
  Framework.save (run_validation partial) update data.

End PasswordResetSerializer.

Module PasswordResetEmailSerializer.
Import Python Models Framework.

(** The serializer has the [email] field of its base and no method of its
    own; it keeps no state. *)
Definition run_validation `{EmailPolicy}
  (partial : bool) (data : gmap string string)
  : M unit (gmap string string) :=
  Framework.run_validation EmailSerializerBase.fields (λ _, None) ret
    partial data.

End PasswordResetEmailSerializer.

Module ProfileSerializer.
Import Python Models Framework.

Definition Meta : Meta :=
  mkMeta ["name"; "email"; "date_joined"] ["email"; "date_joined"].

Definition fields `{UserModel} : list Field := get_fields None [] Meta.

Definition run_validation `{UserModel}
  (partial : bool) (data : gmap string string)
  : M Account (gmap string string) :=
  Framework.run_validation fields (λ _, None) ret partial data.

Definition save `{UserModel}
  (partial : bool) (data : gmap string string) : M Account Account :=
  Framework.save (run_validation partial) model_update data.

End ProfileSerializer.

Module ResendConfirmationEmailSerializer.
Import Python Models Framework.

(** The attributes the class sets on its instances: [user]. *)
Record Self : Type := mkSelf { user : option Account }.

(** Validate if email exists and requires a verification.
    [validate_email] will set a [user] attribute on the instance allowing
    the view to send an email confirmation.

    The method, before the manager has answered: the lookup is made on the
    email as the method receives it. *)
Definition validate_email_lookup (email : string) : Lookup (M Self string) :=
  mkLookup email
    (λ found,
       match found with
       | None =>
           let msg := Text "A user with this email address does not exist." in
           raise (validation_error (DetailMsg msg))
       | Some found =>
           modify (λ _, mkSelf (Some found)) ;;;
           if negb (email_verification_required found) then
             let msg := Text "User email address is already verified." in
             raise (validation_error (DetailMsg msg))
           else ret email
       end).

(** The method on a table of accounts. *)
Definition validate_email (db : DB) (email : string) : M Self string :=
  answer (get_by_natural_key db) (validate_email_lookup email).

(** The serializer as the framework runs it: the [email] field of the base,
    then [validate_email]. *)
Definition validate_method (db : DB) (field : string)
  : option (string → M Self string) :=
  if decide (field = "email") then Some (validate_email db) else None.

Definition run_validation `{EmailPolicy} (db : DB)
  (partial : bool) (data : gmap string string)
  : M Self (gmap string string) :=
  Framework.run_validation EmailSerializerBase.fields (validate_method db)
    ret partial data.

End ResendConfirmationEmailSerializer.

Module UserSerializer.
Import Python Models Framework.

Definition Meta : Meta :=
  mkMeta ["url"; "name"; "email"; "date_joined"] ["email"; "date_joined"].

Definition fields `{UserModel} : list Field :=
  get_fields (Some "url") [] Meta.

Definition run_validation `{UserModel}
  (partial : bool) (data : gmap string string)
  : M Account (gmap string string) :=
  Framework.run_validation fields (λ _, None) ret partial data.

Definition save `{UserModel}
  (partial : bool) (data : gmap string string) : M Account Account :=
  Framework.save (run_validation partial) model_update data.

End UserSerializer.

Module UserSerializerCreate.
Import Python Models Framework.

Definition Meta : Meta :=
  mkMeta (meta_fields UserSerializer.Meta) ["date_joined"].

Definition validate_email := ValidateEmailMixin.validate_email.

(** The serializer as the framework runs it: the fields of [UserSerializer]
    under the [Meta] above, the mixin's [validate_email], and the [create]
    of [ModelSerializer]. *)
Definition fields `{UserModel} : list Field :=
  get_fields (Some "url") [] Meta.

Definition validate_method (field : string)
  : option (string → M DB string) :=
  if decide (field = "email") then
    Some (λ value, let* db := get in lift (validate_email db value))
  else None.

Definition run_validation `{UserModel} (data : gmap string string)
  : M DB (gmap string string) :=
  Framework.run_validation fields validate_method ret false data.

Definition save `{UserModel} (data : gmap string string) : M DB Account :=
  Framework.save run_validation model_create data.

End UserSerializerCreate.

(** ** Sample collaborators

    A strength policy, a hasher, a user model and a table of accounts on
    which the serializers can be run. *)

Module Examples.
Import Python Models Framework.

Definition is_lower (c : ascii) : bool :=
  let n := nat_of_ascii c in (97 <=? n)%nat && (n <=? 122)%nat.

Definition is_digit (c : ascii) : bool :=
  let n := nat_of_ascii c in (48 <=? n)%nat && (n <=? 57)%nat.

Fixpoint any (p : ascii → bool) (s : string) : bool :=
  match s with
  | EmptyString => false
  | String c s' => p c || any p s'
  end.

(** A policy asking for an upper case letter, a lower case letter and a
    digit. *)
Definition policy : StrengthPolicy :=
  λ value,
    if any is_upper value && any is_lower value && any is_digit value
    then []
    else [Text "Password must mix upper case, lower case and digits."].

(** An email validator asking for an [@]. *)
Definition email_policy : EmailPolicy :=
  λ value,
    if any (λ c, bool_decide (c = "@"%char)) value then []
    else [Text "Enter a valid email address."].

(** An address of 520 characters. *)
Fixpoint repeat_char (c : ascii) (n : nat) : string :=
  match n with
  | O => EmptyString
  | S n' => String c (repeat_char c n')
  end.

Definition long_email : string :=
  repeat_char "a"%char 508 +:+ "@example.com".

(** A toy hasher: a hash is the reversed password behind a prefix. *)
Definition hasher : PasswordHasher :=
  {| make_password raw := "toy$" +:+ String.rev raw;
     verify_password raw encoded :=
       bool_decide (encoded = "toy$" +:+ String.rev raw) |}.

(** A user model whose [date_joined] column is not editable. *)
Definition user_model : UserModel :=
  {| columns n :=
       mkColumn (negb (bool_decide (n = "date_joined"))) true
         (mkCharField false true (Some 255) None []);
     defaults :=
       mkAccount EmptyString EmptyString EmptyString
         "2015-06-01T12:00:00Z" true |}.

Definition alice : Account :=
  mkAccount "Alice" "alice@example.com" "toy$1drowssaP"
    "2015-01-01T00:00:00Z" true.

Definition bob : Account :=
  mkAccount "Bob" "bob@example.com" "toy$2drowssaP"
    "2015-02-02T00:00:00Z" false.

Definition db : DB :=
  {[ "alice@example.com" := alice; "bob@example.com" := bob ]}.


(** Submissions: a password change by Alice, one with new passwords that
    differ, a registration by Dora, a profile update. *)
Definition change : gmap string string :=
  {[ "old_password" := "Password1"; "new_password" := "Passw0rd1";
     "new_password2" := "Passw0rd1" ]}.

Definition change_mismatch : gmap string string :=
  {[ "old_password" := "Password9"; "new_password" := "Passw0rd1";
     "new_password2" := "Passw0rd2" ]}.

Definition registration : gmap string string :=
  {[ "name" := "Dora"; "email" := "Dora@Example.com";
     "password" := "Passw0rd1"; "password2" := "Passw0rd1" ]}.

Definition dora : Account :=
  mkAccount "Dora" "dora@example.com" "Passw0rd1" "2015-06-01T12:00:00Z"
    true.

Definition profile : gmap string string :=
  {[ "name" := " Alice Liddell "; "email" := "mallory@example.com";
     "date_joined" := "1999-12-31T23:59:59Z" ]}.

End Examples.

(** * Properties *)

Import Python Models Framework.

(** The body of a [validate_email] method on a table of accounts. *)
Ltac validate_email_body :=
  cbv beta iota zeta delta
    [UserSerializerCreate.validate_email
     ValidateEmailMixin.validate_email
     ValidateEmailMixin.validate_email_lookup
     ResendConfirmationEmailSerializer.validate_email
     ResendConfirmationEmailSerializer.validate_email_lookup
     answer natural_key on_account].

(** ** Python strings *)

Lemma len_lstrip (s : string) : len (lstrip s) ≤ len s.
Proof.
  induction s as [|c s IH]; simpl; [lia|].
  destruct (is_space c); simpl in *; unfold len in *; simpl; lia.
Qed.

Lemma len_rstrip (s : string) : len (rstrip s) ≤ len s.
Proof.
  unfold len. induction s as [|c s IH]; simpl; [lia|].
  destruct (rstrip s) as [|c' r]; [destruct (is_space c)|]; simpl in *; lia.
Qed.

Lemma len_strip (s : string) : len (strip s) ≤ len s.
Proof.
  unfold strip. etrans; [apply len_rstrip | apply len_lstrip].
Qed.

(** ** Matching passwords *)

Section Registration.
Context {policy : StrengthPolicy} {model : UserModel}.

Lemma registration_validate_ok (attrs : gmap string string) (p : string) :
  attrs !! "password2" = Some p →
  attrs !! "password" = Some p →
  RegistrationSerializer.validate attrs = inr (delete "password2" attrs).
Proof.
  intros H2 H1. unfold RegistrationSerializer.validate, pop. rewrite H2.
  simpl. rewrite lookup_delete_ne by done. rewrite H1.
  case_decide; [congruence | done].
Qed.

Lemma registration_validate_returns (attrs validated : gmap string string) :
  RegistrationSerializer.validate attrs = inr validated →
  validated = delete "password2" attrs.
Proof.
  unfold RegistrationSerializer.validate, pop.
  destruct (attrs !! "password2") as [p2|]; simpl; [|done].
  case_decide; [done|]. by intros [= <-].
Qed.

Lemma registration_validate_mismatch
  (attrs : gmap string string) (p2 : string) :
  attrs !! "password2" = Some p2 →
  attrs !! "password" ≠ Some p2 →
  RegistrationSerializer.validate attrs
  = inl (ValidationError
           (DetailDict
              {[ "password2" :=
                   DetailMsg (Text "Your passwords do not match.") ]})).
Proof.
  intros H2 Hne. unfold RegistrationSerializer.validate, pop. rewrite H2.
  simpl. rewrite lookup_delete_ne by done.
  case_decide as Hd; [done | congruence].
Qed.

End Registration.

Lemma password_reset_validate_mismatch
  (attrs : gmap string string) (p2 : string) :
  attrs !! "new_password2" = Some p2 →
  attrs !! "new_password" ≠ Some p2 →
  PasswordResetSerializer.validate attrs
  = inl (ValidationError
           (DetailDict
              {[ "new_password2" :=
                   DetailMsg (Text "Your new passwords do not match.") ]})).
Proof.
  intros H2 Hne. unfold PasswordResetSerializer.validate, getitem.
  rewrite H2. simpl. by case_decide.
Qed.

Lemma password_change_validate_mismatch
  (attrs : gmap string string) (p2 : string) :
  attrs !! "new_password2" = Some p2 →
  attrs !! "new_password" ≠ Some p2 →
  PasswordChangeSerializer.validate attrs
  = inl (ValidationError
           (DetailDict
              {[ "new_password2" :=
                   DetailMsg (Text "Your new passwords do not match.") ]})).
Proof.
  intros H2 Hne. unfold PasswordChangeSerializer.validate, getitem.
  rewrite H2. simpl. by case_decide.
Qed.

Lemma new_password_match (attrs : gmap string string) (p : string) :
  attrs !! "new_password2" = Some p →
  attrs !! "new_password" = Some p →
  PasswordChangeSerializer.validate attrs = inr attrs
  ∧ PasswordResetSerializer.validate attrs = inr attrs.
Proof.
  intros H2 H1.
  unfold PasswordChangeSerializer.validate, PasswordResetSerializer.validate,
    getitem.
  rewrite H2, H1. simpl. by case_decide.
Qed.

(** ** Password change *)

Section PasswordChange.
Context {hasher : PasswordHasher}.

(** C10. When [PasswordChangeSerializer.update] raises, the instance is as
    it was before the call; in particular, when the old password does not
    verify, the invalid-password error is raised and the password hash of
    the instance is the one it had. *)
Theorem password_change_failure_keeps_instance
  (validated_data : gmap string string) (instance : Account) :
  (∀ instance' e,
     PasswordChangeSerializer.update validated_data instance
     = (instance', inl e) →
     instance' = instance)
  ∧ (∀ old,
       validated_data !! "old_password" = Some old →
       verify_password old (password instance) = false →
       ∃ e,
         PasswordChangeSerializer.update validated_data instance
         = (instance, inl e)
         ∧ password
             (PasswordChangeSerializer.update validated_data instance).1
           = password instance).
Proof.
  unfold PasswordChangeSerializer.update, getitem, lift, bind,
    check_password, set_password, modify, get, ret, raise.
  split.
  - intros instance' e.
    destruct (validated_data !! "old_password") as [old|];
      [|by intros [= <- _]].
    simpl.
    destruct (verify_password old (password instance)); simpl;
      [|by intros [= <- _]].
    destruct (validated_data !! "new_password") as [new|];
      [done | by intros [= <- _]].
  - intros old Hold Hv. rewrite Hold. simpl. rewrite Hv. simpl. eauto.
Qed.

End PasswordChange.

Lemma password_change_failure_keeps_instance_witness :
  ∃ e,
    PasswordChangeSerializer.update (H := Examples.hasher)
      {[ "old_password" := "Password9"; "new_password" := "Passw0rd1";
         "new_password2" := "Passw0rd1" ]} Examples.alice
    = (Examples.alice, inl e)
    ∧ password
        (PasswordChangeSerializer.update (H := Examples.hasher)
           {[ "old_password" := "Password9"; "new_password" := "Passw0rd1";
              "new_password2" := "Passw0rd1" ]} Examples.alice).1
      = "toy$1drowssaP".
Proof.
  apply (password_change_failure_keeps_instance (hasher := Examples.hasher)
           _ Examples.alice) with (old := "Password9").
  - vm_compute. reflexivity.
  - vm_compute. reflexivity.
Defined.

(** ** Resending the confirmation email *)

(** C6. [ResendConfirmationEmailSerializer.validate_email]: with no account
    under the email it raises the not-found error and sets no attribute;
    with an account whose [email_verification_required] is not set it raises
    the already-verified error; with an account whose
    [email_verification_required] is set it returns the email and the
    serializer's [user] attribute is that account. *)
Theorem resend_validate_email
  (db : DB) (email : string) (self : ResendConfirmationEmailSerializer.Self) :
  (get_by_natural_key db email = None →
   ResendConfirmationEmailSerializer.validate_email db email self
   = (self,
      inl (ValidationError
             (DetailList
                [Text "A user with this email address does not exist."]))))
  ∧ (∀ found,
       get_by_natural_key db email = Some found →
       email_verification_required found = false →
       ResendConfirmationEmailSerializer.validate_email db email self
       = (ResendConfirmationEmailSerializer.mkSelf (Some found),
          inl (ValidationError
                 (DetailList
                    [Text "User email address is already verified."]))))
  ∧ (∀ found,
       get_by_natural_key db email = Some found →
       email_verification_required found = true →
       ResendConfirmationEmailSerializer.validate_email db email self
       = (ResendConfirmationEmailSerializer.mkSelf (Some found), inr email)
       ∧ ResendConfirmationEmailSerializer.user
           (ResendConfirmationEmailSerializer.validate_email db email self).1
         = Some found).
Proof.
  validate_email_body.
  split; [|split].
  - intros ->. reflexivity.
  - intros found -> Hflag. unfold bind, modify, raise. simpl.
    by rewrite Hflag.
  - intros found -> Hflag. unfold bind, modify, ret. simpl.
    by rewrite Hflag.
Qed.

Lemma resend_validate_email_witness :
  ResendConfirmationEmailSerializer.validate_email Examples.db
    "carol@example.com" (ResendConfirmationEmailSerializer.mkSelf None)
  = (ResendConfirmationEmailSerializer.mkSelf None,
     inl (ValidationError
            (DetailList
               [Text "A user with this email address does not exist."])))
  ∧ ResendConfirmationEmailSerializer.validate_email Examples.db
      "bob@example.com" (ResendConfirmationEmailSerializer.mkSelf None)
    = (ResendConfirmationEmailSerializer.mkSelf (Some Examples.bob),
       inl (ValidationError
              (DetailList [Text "User email address is already verified."])))
  ∧ ResendConfirmationEmailSerializer.user
      (ResendConfirmationEmailSerializer.validate_email Examples.db
         "alice@example.com"
         (ResendConfirmationEmailSerializer.mkSelf None)).1
    = Some Examples.alice.
Proof.
  split; [|split].
  - apply (resend_validate_email Examples.db "carol@example.com").
    vm_compute. reflexivity.
  - apply (resend_validate_email Examples.db "bob@example.com" _)
      with (found := Examples.bob).
    + vm_compute. reflexivity.
    + vm_compute. reflexivity.
  - apply (resend_validate_email Examples.db "alice@example.com" _)
      with (found := Examples.alice).
    + vm_compute. reflexivity.
    + vm_compute. reflexivity.
Defined.

(** ** Field validation *)

Lemma run_validators_raises vs value e :
  run_validators vs value = inl e →
  ∃ ms, ms ≠ [] ∧ e = ValidationError (DetailList ms)
        ∧ ms = concat ((λ v, v value) <$> vs).
Proof.
  unfold run_validators.
  destruct (concat _) as [|m ms]; [done|].
  intros [= <-]. by exists (m :: ms).
Qed.

Lemma run_validators_passes vs value :
  (∀ v, v ∈ vs → v value = []) → run_validators vs value = inr tt.
Proof.
  intros Hall. unfold run_validators.
  assert (concat ((λ v, v value) <$> vs) = []) as ->; [|done].
  induction vs as [|v vs IH]; simpl; [done|].
  rewrite (Hall v) by constructor. simpl. apply IH.
  intros v' Hv'. apply Hall. by constructor.
Qed.

Lemma char_run_validation_raises f data e :
  char_run_validation f data = inl e →
  ∃ ms, ms ≠ [] ∧ e = ValidationError (DetailList ms).
Proof.
  unfold char_run_validation.
  destruct (_ || _).
  - destruct (allow_blank f); [done|]. intros [= <-]. by eexists [Blank].
  - unfold bind_result.
    destruct (run_validators _ _) as [e'|[]] eqn:Hv; [|done].
    intros [= <-]. apply run_validators_raises in Hv as (ms & ? & ? & _).
    eauto.
Qed.

(** A field that does not allow blanks and has a minimum length rejects
    every value shorter than that length, whatever its other validators
    say. *)
Lemma min_length_rejects f n data :
  allow_blank f = false → min_length f = Some n → len data < n →
  ∃ ms, char_run_validation f data = inl (ValidationError (DetailList ms))
        ∧ (Blank ∈ ms ∨ MinLength n ∈ ms).
Proof.
  intros Hblank Hmin Hlen. unfold char_run_validation. rewrite Hblank.
  destruct (_ || _).
  - eexists. split; [done|]. left. constructor.
  - set (value := char_to_internal_value f data).
    assert (len value < n) as Hvalue.
    { unfold value, char_to_internal_value.
      destruct (trim_whitespace f); [|done].
      pose proof (len_strip data). lia. }
    assert (MinLength n
            ∈ concat ((λ v, v value) <$> field_validators f)) as Hin.
    { unfold field_validators. rewrite Hmin. simpl.
      rewrite !fmap_app, !concat_app. simpl.
      unfold MinLengthValidator.
      destruct (Nat.ltb_spec (len value) n); [|lia].
      rewrite !elem_of_app. do 2 right. left. constructor. }
    unfold bind_result, run_validators.
    destruct (concat _) as [|m ms]; [by apply elem_of_nil in Hin|].
    eexists. split; [done|]. by right.
Qed.

(** A trimming field that has no maximum length accepts a value when the
    trimmed value is long enough and passes the declared validators; the
    validated value is the trimmed one. *)
Lemma char_field_accepts n vs data :
  (∀ v, v ∈ vs → v (strip data) = []) →
  from_option (λ k, k ≤ len (strip data)) True n →
  strip data ≠ EmptyString →
  char_run_validation (char_field n vs) data = inr (strip data).
Proof.
  intros Hvs Hmin Hne. unfold char_run_validation, char_field. simpl.
  assert (data ≠ EmptyString) by (intros ->; by apply Hne).
  rewrite !bool_decide_eq_false_2 by done. simpl.
  rewrite run_validators_passes; [done|].
  unfold field_validators, char_to_internal_value. simpl. intros v.
  rewrite elem_of_app. intros [Hv|Hv]; [by apply Hvs|].
  destruct n as [k|]; simpl in *; [|by apply elem_of_nil in Hv].
  apply list_elem_of_singleton in Hv as ->. unfold MinLengthValidator.
  destruct (Nat.ltb_spec (len (strip data)) k); [lia | done].
Qed.

(** ** The loop of [to_internal_value] *)

Section Loop.
Context {S : Type}.
Variable validate_method : string → option (string → M S string).
Variable partial : bool.

Local Abbreviation loop := (to_internal_value_loop validate_method partial).
Local Abbreviation step := (run_field validate_method).

Lemma run_field_accepts f primitive v s :
  validate_method (field_name f) = None →
  char_run_validation (char f) primitive = inr v →
  step f primitive s = (s, inr (inr v)).
Proof.
  intros Hm Hv. unfold run_field, catch_validation, bind, lift, ret.
  by rewrite Hm, Hv.
Qed.

Lemma run_field_rejects f primitive e s :
  char_run_validation (char f) primitive = inl e →
  ∃ ms, ms ≠ [] ∧ e = ValidationError (DetailList ms)
        ∧ step f primitive s = (s, inr (inl (DetailList ms))).
Proof.
  intros Hv. destruct (char_run_validation_raises _ _ _ Hv) as (ms & ? & ->).
  exists ms. split; [done|]. split; [done|].
  unfold run_field, catch_validation, bind, lift. by rewrite Hv.
Qed.

(** Without a [validate_<field_name>] method a field neither raises
    anything but a validation error nor touches the serializer. *)
Lemma run_field_pure f primitive s :
  validate_method (field_name f) = None →
  ∃ r, step f primitive s = (s, inr r).
Proof.
  intros Hm.
  destruct (char_run_validation (char f) primitive) as [e|v] eqn:Hv.
  - destruct (run_field_rejects f primitive e s Hv) as (ms & _ & _ & ->).
    eauto.
  - rewrite (run_field_accepts f primitive v s Hm Hv). eauto.
Qed.

(** The loop over [pre ++ post] is the loop over [pre] followed by the
    loop over [post]. *)
Lemma loop_app pre post data acc errors s :
  loop (pre ++ post) data acc errors s
  = match loop pre data acc errors s with
    | (s1, inr (acc1, errors1)) => loop post data acc1 errors1 s1
    | (s1, inl e) => (s1, inl e)
    end.
Proof.
  revert acc errors s.
  induction pre as [|f pre IH]; intros acc errors s; simpl; [done|].
  destruct (read_only f); [apply IH|].
  destruct (data !! field_name f) as [primitive|].
  - unfold bind.
    destruct (step f primitive s) as [s1 [e|[d|v]]]; [done|apply IH..].
  - destruct partial; [apply IH|]. destruct (required f); apply IH.
Qed.

(** What the loop leaves alone: the keys that name none of its fields. *)
Lemma loop_frame fs data acc errors s s' acc' errors' k :
  loop fs data acc errors s = (s', inr (acc', errors')) →
  k ∉ field_name <$> fs →
  acc' !! k = acc !! k ∧ errors' !! k = errors !! k.
Proof.
  revert acc errors s.
  induction fs as [|f fs IH]; intros acc errors s; simpl.
  { by intros [= _ <- <-]. }
  intros Hloop Hk. apply not_elem_of_cons in Hk as [Hf Hk].
  destruct (read_only f); [by eapply IH|].
  destruct (data !! field_name f) as [primitive|].
  - unfold bind in Hloop.
    destruct (step f primitive s) as [s1 [e|[d|v]]]; [done|..].
    + apply IH in Hloop as [-> ->]; [|done].
      by rewrite lookup_insert_ne.
    + apply IH in Hloop as [-> ->]; [|done].
      by rewrite lookup_insert_ne.
  - destruct partial; [by eapply IH|].
    destruct (required f); [|by eapply IH].
    apply IH in Hloop as [-> ->]; [|done]. by rewrite lookup_insert_ne.
Qed.

(** Every validated value is the value of a writable field. *)
Lemma loop_keys fs data acc errors s s' acc' errors' k :
  loop fs data acc errors s = (s', inr (acc', errors')) →
  is_Some (acc' !! k) →
  is_Some (acc !! k)
  ∨ ∃ f, f ∈ fs ∧ read_only f = false ∧ field_name f = k.
Proof.
  revert acc errors s.
  induction fs as [|f fs IH]; intros acc errors s; simpl.
  { intros [= _ <- <-]. auto. }
  intros Hloop Hk.
  assert (∀ acc0 errors0 s0,
            loop fs data acc0 errors0 s0 = (s', inr (acc', errors')) →
            (is_Some (acc0 !! k) →
             is_Some (acc !! k) ∨ (read_only f = false ∧ field_name f = k)) →
            is_Some (acc !! k)
            ∨ ∃ f', f' ∈ f :: fs ∧ read_only f' = false ∧ field_name f' = k)
    as Hrec.
  { intros acc0 errors0 s0 H0 Hacc0.
    destruct (IH _ _ _ H0 Hk) as [Hs|(f' & ? & ? & ?)].
    - destruct (Hacc0 Hs) as [?|[??]]; [by left|].
      right. exists f. split; [constructor | done].
    - right. exists f'. split; [by constructor | done]. }
  destruct (read_only f) eqn:Hro; [by eapply Hrec; eauto|].
  destruct (data !! field_name f) as [primitive|].
  - unfold bind in Hloop.
    destruct (step f primitive s) as [s1 [e|[d|v]]]; [done|..].
    + eapply Hrec; eauto.
    + eapply Hrec; [done|].
      destruct (decide (field_name f = k)) as [->|Hne]; [by right|].
      rewrite lookup_insert_ne by done. by left.
  - destruct partial; [by eapply Hrec; eauto|].
    destruct (required f); eapply Hrec; eauto.
Qed.

(** When every field returns (a value or the detail of a validation
    error) and leaves the serializer as it was, so does the loop. *)
Lemma loop_returns fs data acc errors s :
  (∀ f primitive, f ∈ fs → ∃ r, step f primitive s = (s, inr r)) →
  ∃ acc' errors', loop fs data acc errors s = (s, inr (acc', errors')).
Proof.
  revert acc errors.
  induction fs as [|f fs IH]; intros acc errors Hstep; simpl; [by eauto|].
  assert (∀ f' primitive, f' ∈ fs → ∃ r, step f' primitive s = (s, inr r))
    as Hstep'.
  { intros f' primitive ?. apply Hstep. by constructor. }
  destruct (read_only f); [by apply IH|].
  destruct (data !! field_name f) as [primitive|].
  - unfold bind.
    destruct (Hstep f primitive) as [r ->]; [constructor|].
    destruct r; by apply IH.
  - destruct partial; [by apply IH|]. destruct (required f); by apply IH.
Qed.

(** When no field has a [validate_<field_name>] method the loop returns
    and the serializer is as it was. *)
Lemma loop_pure fs data acc errors s :
  (∀ f, f ∈ fs → validate_method (field_name f) = None) →
  ∃ acc' errors', loop fs data acc errors s = (s, inr (acc', errors')).
Proof.
  intros Hm. apply loop_returns. intros f primitive Hf.
  apply run_field_pure. by apply Hm.
Qed.

(** The error of a writable field that was submitted is in the error
    dictionary under the name of the field, and validation raises that
    dictionary; [validate] is not reached. *)
Lemma run_validation_rejects validate pre f post data s primitive d :
  (∀ f' primitive', f' ∈ pre ++ f :: post →
                    ∃ r, step f' primitive' s = (s, inr r)) →
  field_name f ∉ field_name <$> post →
  read_only f = false →
  data !! field_name f = Some primitive →
  step f primitive s = (s, inr (inl d)) →
  ∃ errors,
    run_validation (pre ++ f :: post) validate_method validate partial
      data s
    = (s, inl (ValidationError (DetailDict errors)))
    ∧ errors !! field_name f = Some d.
Proof.
  intros Hstep Hpost Hro Hdata Hf.
  destruct (loop_returns pre data ∅ ∅ s) as (acc1 & errors1 & Hpre).
  { intros f' primitive' ?. apply Hstep. apply elem_of_app. by left. }
  destruct (loop_returns post data acc1 (<[field_name f := d]> errors1) s)
    as (acc2 & errors2 & Hrest).
  { intros f' primitive' ?. apply Hstep. apply elem_of_app. right.
    by constructor. }
  assert (errors2 !! field_name f = Some d) as Herr.
  { destruct (loop_frame _ _ _ _ _ _ _ _ (field_name f) Hrest Hpost)
      as [_ ->].
    apply lookup_insert_eq. }
  exists errors2. split; [|done].
  unfold run_validation, to_internal_value, bind.
  rewrite loop_app, Hpre. simpl. rewrite Hro, Hdata. unfold bind.
  rewrite Hf, Hrest. simpl.
  destruct (decide (errors2 = ∅)) as [->|]; [|done].
  by rewrite lookup_empty in Herr.
Qed.

End Loop.

(** ** Read-only fields *)

Lemma setattr_name (a : Account) (value : string) :
  email (setattr a "name" value) = email a
  ∧ date_joined (setattr a "name" value) = date_joined a
  ∧ password (setattr a "name" value) = password a
  ∧ email_verification_required (setattr a "name" value)
    = email_verification_required a.
Proof. done. Qed.

(** Setting the attributes of a dictionary that has no key but [name]
    changes no attribute but the name. *)
Lemma model_update_frame (validated_data : gmap string string) (a : Account) :
  (∀ k, is_Some (validated_data !! k) → k = "name") →
  email (map_fold (λ attr value a, setattr a attr value) a validated_data)
  = email a
  ∧ date_joined
      (map_fold (λ attr value a, setattr a attr value) a validated_data)
    = date_joined a.
Proof.
  apply (map_fold_weak_ind
           (λ r m, (∀ k, is_Some (m !! k) → k = "name") →
                   email r = email a ∧ date_joined r = date_joined a)).
  - done.
  - intros i x m r _ IH Hkeys.
    assert (i = "name") as ->.
    { apply Hkeys. rewrite lookup_insert_eq. eauto. }
    destruct (setattr_name r x) as (-> & -> & _). apply IH.
    intros k Hk. apply Hkeys.
    destruct (decide ("name" = k)) as [<-|]; [by rewrite lookup_insert_eq|].
    by rewrite lookup_insert_ne.
Qed.

(** A model serializer without methods of its own whose only writable
    field is [name] leaves the email and the date of joining of the
    instance as they are, whatever is submitted. *)
Lemma save_read_only (fields : list Field) (partial : bool)
  (data : gmap string string) (instance : Account) :
  (∀ f, f ∈ fields → read_only f = false → field_name f = "name") →
  email
    (save (run_validation fields (λ _, None) ret partial) model_update
       data instance).1
  = email instance
  ∧ date_joined
      (save (run_validation fields (λ _, None) ret partial) model_update
         data instance).1
    = date_joined instance.
Proof.
  intros Hw.
  destruct (loop_pure (λ _, None) partial fields data ∅ ∅ instance)
    as (acc & errors & Hloop); [done|].
  assert (save (run_validation fields (λ _, None) ret partial) model_update
            data instance
          = if decide (errors = ∅) then model_update acc instance
            else (instance, inl (ValidationError (DetailDict errors))))
    as ->.
  { unfold save, run_validation, to_internal_value, bind. rewrite Hloop.
    simpl. by destruct (decide (errors = ∅)). }
  destruct (decide (errors = ∅)); [|done].
  unfold bind, model_update, modify, get. simpl.
  apply model_update_frame. intros k Hk.
  destruct (loop_keys _ _ _ _ _ _ _ _ _ _ k Hloop Hk)
    as [[? Hempty]|(f & Hf & Hro & <-)].
  - by rewrite lookup_empty in Hempty.
  - by apply Hw.
Qed.

Section ReadOnly.
Context {model : UserModel}.

Lemma profile_writable f :
  f ∈ ProfileSerializer.fields → read_only f = false →
  field_name f = "name".
Proof.
  unfold ProfileSerializer.fields, get_fields. simpl.
  rewrite !elem_of_cons, elem_of_nil.
  intros [->|[->|[->|[]]]]; simpl; [done|..].
  - rewrite orb_true_r. done.
  - rewrite orb_true_r. done.
Qed.

Lemma user_writable f :
  f ∈ UserSerializer.fields → read_only f = false → field_name f = "name".
Proof.
  unfold UserSerializer.fields, get_fields. simpl.
  rewrite !elem_of_cons, elem_of_nil.
  intros [->|[->|[->|[->|[]]]]]; simpl; [done..| |].
  - rewrite orb_true_r. done.
  - rewrite orb_true_r. done.
Qed.

(** C7. [ProfileSerializer] (and [UserSerializer], which declares the same
    read-only fields): of the fields of the serializer only [name] is
    writable, and saving any submitted data, in a full or a partial
    update, leaves the email and the date of joining of the account as
    they were; the account the serializer returns has them too. *)
Theorem profile_read_only
  (partial : bool) (data : gmap string string) (instance : Account) :
  (∀ f, f ∈ ProfileSerializer.fields → read_only f = false →
        field_name f = "name")
  ∧ email (ProfileSerializer.save partial data instance).1 = email instance
  ∧ date_joined (ProfileSerializer.save partial data instance).1
    = date_joined instance
  ∧ (∀ returned,
       (ProfileSerializer.save partial data instance).2 = inr returned →
       email returned = email instance
       ∧ date_joined returned = date_joined instance)
  ∧ (∀ f, f ∈ UserSerializer.fields → read_only f = false →
          field_name f = "name")
  ∧ email (UserSerializer.save partial data instance).1 = email instance
  ∧ date_joined (UserSerializer.save partial data instance).1
    = date_joined instance.
Proof.
  pose proof (save_read_only ProfileSerializer.fields partial data instance
                profile_writable) as [He Hd].
  pose proof (save_read_only UserSerializer.fields partial data instance
                user_writable) as [He' Hd'].
  split; [exact profile_writable|].
  split; [exact He|]. split; [exact Hd|].
  split; [|split; [exact user_writable | by split]].
  intros returned Hret.
  assert ((ProfileSerializer.save partial data instance).1 = returned)
    as <-; [|by split].
  revert Hret. unfold ProfileSerializer.save, save, bind.
  destruct (ProfileSerializer.run_validation partial data instance)
    as [s [e|vd]]; [done|].
  unfold model_update, bind, modify, get. simpl. by intros [= ->].
Qed.

End ReadOnly.

(** The name is writable indeed: a submitted name, email and date replace
    the name and nothing else. *)
Example profile_save_example :
  ProfileSerializer.save (H := Examples.user_model) false
    {[ "name" := "Alice Liddell"; "email" := "mallory@example.com";
       "date_joined" := "1999-12-31T23:59:59Z" ]} Examples.alice
  = (set_name "Alice Liddell" Examples.alice,
     inr (set_name "Alice Liddell" Examples.alice)).
Proof. vm_compute. reflexivity. Qed.

(** ** Password reset *)

Section PasswordReset.
Context {policy : StrengthPolicy} {model : UserModel}
  {hasher : PasswordHasher}.

Lemma password_reset_fields :
  PasswordResetSerializer.fields
  = [PasswordResetSerializer.new_password;
     PasswordResetSerializer.new_password2].
Proof. reflexivity. Qed.

(** Two submitted passwords that their fields accept are validated to
    their trimmed values. *)
Lemma password_reset_to_internal_value
  (partial : bool) (data : gmap string string) (instance : Account)
  (p p2 : string) :
  data !! "new_password" = Some p →
  data !! "new_password2" = Some p2 →
  8 ≤ len (strip p) →
  8 ≤ len (strip p2) →
  validate_password_strength (strip p) = [] →
  to_internal_value PasswordResetSerializer.fields (λ _, None) partial data
    instance
  = (instance,
     inr (<["new_password2" := strip p2]>
            (<["new_password" := strip p]> ∅))).
Proof.
  intros H1 H2 Hlen Hlen2 Hpolicy.
  assert (∀ q, 8 ≤ len (strip q) → strip q ≠ EmptyString) as Hne.
  { intros q Hq Heq. rewrite Heq in Hq. simpl in Hq. lia. }
  unfold to_internal_value.
  rewrite password_reset_fields. simpl. rewrite H1, H2.
  unfold bind. cbv beta.
  rewrite (run_field_accepts _ _ _ (strip p)); [|done|].
  2:{ apply char_field_accepts; [|done|by apply Hne].
      intros v Hv. by apply list_elem_of_singleton in Hv as ->. }
  rewrite (run_field_accepts _ _ _ (strip p2)); [|done|].
  2:{ apply char_field_accepts; [|done|by apply Hne].
      intros v Hv. by apply elem_of_nil in Hv. }
  unfold ret. simpl. by destruct (decide (_ = _)).
Qed.

Lemma password_reset_validated
  (partial : bool) (data : gmap string string) (instance : Account)
  (p : string) :
  data !! "new_password" = Some p →
  data !! "new_password2" = Some p →
  8 ≤ len (strip p) →
  validate_password_strength (strip p) = [] →
  PasswordResetSerializer.run_validation partial data instance
  = (instance,
     inr (<["new_password2" := strip p]>
            (<["new_password" := strip p]> ∅))).
Proof.
  intros H1 H2 Hlen Hpolicy.
  unfold PasswordResetSerializer.run_validation, run_validation.
  unfold bind at 1.
  rewrite (password_reset_to_internal_value partial data instance p p)
    by done.
  unfold bind, ret, catch_validation, lift.
  edestruct new_password_match as [_ ->]; [| |done].
  - apply lookup_insert_eq.
  - rewrite lookup_insert_ne by done. apply lookup_insert_eq.
Qed.

(** The serializer compares the validated values: two accepted passwords
    that differ once trimmed are rejected with the mismatch message, in a
    list, under the key [new_password2]. *)
Lemma password_reset_mismatch_rejected
  (partial : bool) (data : gmap string string) (instance : Account)
  (p p2 : string) :
  data !! "new_password" = Some p →
  data !! "new_password2" = Some p2 →
  8 ≤ len (strip p) →
  8 ≤ len (strip p2) →
  validate_password_strength (strip p) = [] →
  strip p ≠ strip p2 →
  PasswordResetSerializer.run_validation partial data instance
  = (instance,
     inl (ValidationError
            (DetailDict
               {[ "new_password2" :=
                    DetailList
                      [Text "Your new passwords do not match."] ]}))).
Proof.
  intros H1 H2 Hlen Hlen2 Hpolicy Hne.
  unfold PasswordResetSerializer.run_validation, run_validation.
  unfold bind at 1.
  rewrite (password_reset_to_internal_value partial data instance p p2)
    by done.
  unfold bind, raise, catch_validation, lift.
  rewrite (password_reset_validate_mismatch
             (<["new_password2" := strip p2]>
                (<["new_password" := strip p]> ∅)) (strip p2)).
  - simpl. by rewrite map_fmap_singleton.
  - apply lookup_insert_eq.
  - rewrite lookup_insert_ne by done. rewrite lookup_insert_eq.
    by intros [= ?].
Qed.

(** A reset with twice the same accepted password is valid, and [update]
    returns the instance with the hash of the trimmed password. *)
Lemma password_reset_save_accepted
  (partial : bool) (data : gmap string string) (instance : Account)
  (p : string) :
  data !! "new_password" = Some p →
  data !! "new_password2" = Some p →
  8 ≤ len (strip p) →
  validate_password_strength (strip p) = [] →
  PasswordResetSerializer.save partial data instance
  = (set_password_field (make_password (strip p)) instance,
     inr (set_password_field (make_password (strip p)) instance)).
Proof.
  intros H1 H2 Hlen Hpolicy.
  unfold PasswordResetSerializer.save, save. unfold bind at 1.
  rewrite (password_reset_validated partial data instance p) by done.
  unfold PasswordResetSerializer.update, getitem.
  rewrite lookup_insert_ne by done. rewrite lookup_insert_eq.
  reflexivity.
Qed.

(** [PasswordResetSerializer.update] itself sets the password from the
    validated data and verifies nothing. *)
Lemma password_reset_update
  (validated_data : gmap string string) (instance : Account) (new : string) :
  validated_data !! "new_password" = Some new →
  PasswordResetSerializer.update validated_data instance
  = (set_password_field (make_password new) instance,
     inr (set_password_field (make_password new) instance)).
Proof.
  intros Hnew. unfold PasswordResetSerializer.update, getitem.
  by rewrite Hnew.
Qed.

End PasswordReset.

Section PasswordResetSave.
Context {policy : StrengthPolicy} {model : UserModel}.

(** C8, amended. A password reset submitted with the same [new_password]
    and [new_password2], of at least 8 characters once the surrounding
    whitespace is trimmed and passing the strength policy, is valid, and
    saving it returns the account instance with the hash of the trimmed
    [new_password] as its password and its name, email, date of joining
    and verification flag as they were.  No old password is asked for or
    verified: the outcome is the same for every password the instance held,
    for every verification function of the hasher, and whatever
    [old_password] is submitted along.  [update] sets the password on the
    instance it was given; it does not write the instance to the table. *)
Theorem password_reset_save
  (make : string → string) (partial : bool) (data : gmap string string)
  (instance : Account) (p : string) :
  data !! "new_password" = Some p →
  data !! "new_password2" = Some p →
  8 ≤ len (strip p) →
  validate_password_strength (strip p) = [] →
  ∀ (verify : string → string → bool) (submitted : option string),
    PasswordResetSerializer.save
      (H1 := {| make_password := make; verify_password := verify |})
      partial
      (from_option (λ old, <["old_password" := old]> data) data submitted)
      instance
    = (mkAccount (name instance) (email instance) (make (strip p))
         (date_joined instance) (email_verification_required instance),
       inr (mkAccount (name instance) (email instance) (make (strip p))
              (date_joined instance)
              (email_verification_required instance))).
Proof.
  intros H1 H2 Hlen Hpolicy verify submitted.
  rewrite (password_reset_save_accepted
             (hasher := {| make_password := make; verify_password := verify |})
             partial _ instance p); [done| | |done..].
  - destruct submitted as [old|]; [|done]. simpl.
    by rewrite lookup_insert_ne.
  - destruct submitted as [old|]; [|done]. simpl.
    by rewrite lookup_insert_ne.
Qed.

End PasswordResetSave.

Lemma password_reset_save_witness :
  PasswordResetSerializer.save (H := Examples.policy)
    (H0 := Examples.user_model)
    (H1 := {| make_password := make_password (PasswordHasher := Examples.hasher);
              verify_password := λ _ _, false |})
    false
    {[ "new_password" := " Passw0rd1 "; "new_password2" := " Passw0rd1 " ]}
    Examples.alice
  = (mkAccount "Alice" "alice@example.com" "toy$1dr0wssaP"
       "2015-01-01T00:00:00Z" true,
     inr (mkAccount "Alice" "alice@example.com" "toy$1dr0wssaP"
            "2015-01-01T00:00:00Z" true)).
Proof.
  refine (password_reset_save (policy := Examples.policy)
            (model := Examples.user_model)
            (make_password (PasswordHasher := Examples.hasher)) false
            {[ "new_password" := " Passw0rd1 ";
               "new_password2" := " Passw0rd1 " ]}
            Examples.alice " Passw0rd1 " _ _ _ _ (λ _ _, false) None).
  - vm_compute. reflexivity.
  - vm_compute. reflexivity.
  - vm_compute. lia.
  - vm_compute. reflexivity.
Defined.

(** C8 as it is written fails on a short password: [Ab1] is submitted twice
    and passes the sample strength policy, yet the fields ask for 8
    characters, the submission is rejected, and the password hash of the
    account is not the hash of [Ab1]. *)
Lemma password_reset_short_counterexample :
  let data : gmap string string :=
    {[ "new_password" := "Ab1"; "new_password2" := "Ab1" ]} in
  data !! "new_password" = Some "Ab1"
  ∧ data !! "new_password2" = Some "Ab1"
  ∧ Examples.policy "Ab1" = []
  ∧ (PasswordResetSerializer.save (H := Examples.policy)
       (H0 := Examples.user_model) (H1 := Examples.hasher) false data
       Examples.alice).1
    = Examples.alice
  ∧ (PasswordResetSerializer.save (H := Examples.policy)
       (H0 := Examples.user_model) (H1 := Examples.hasher) false data
       Examples.alice).2
    = inl (ValidationError
             (DetailDict
                {[ "new_password" := DetailList [MinLength 8];
                   "new_password2" := DetailList [MinLength 8] ]}))
  ∧ password Examples.alice
    ≠ make_password (PasswordHasher := Examples.hasher) "Ab1".
Proof. vm_compute. repeat split; discriminate. Qed.

(** ** Minimum length of the passwords *)

(** In any serializer, a submitted value shorter than the minimum length of
    its field makes validation raise an error dictionary that holds, under
    the name of the field, the messages of the field. *)
Lemma min_length_field_rejects {S : Type}
  (validate_method : string → option (string → M S string))
  (validate : gmap string string → M S (gmap string string))
  (partial : bool) (pre : list Field) (f : Field) (post : list Field)
  (data : gmap string string) (s : S) (value : string) (n : nat) :
  (∀ f' primitive', f' ∈ pre ++ f :: post →
                    ∃ r, run_field validate_method f' primitive' s
                         = (s, inr r)) →
  field_name f ∉ field_name <$> post →
  read_only f = false →
  allow_blank (char f) = false →
  min_length (char f) = Some n →
  data !! field_name f = Some value →
  len value < n →
  ∃ errors ms,
    run_validation (pre ++ f :: post) validate_method validate partial data s
    = (s, inl (ValidationError (DetailDict errors)))
    ∧ errors !! field_name f = Some (DetailList ms)
    ∧ (Blank ∈ ms ∨ MinLength n ∈ ms).
Proof.
  intros Hstep Hpost Hro Hblank Hmin Hdata Hlen.
  destruct (min_length_rejects (char f) n value Hblank Hmin Hlen)
    as (ms & Hfield & Hms).
  destruct (run_field_rejects validate_method f value _ s Hfield)
    as (ms' & _ & [= <-] & Hf).
  destruct (run_validation_rejects validate_method partial validate
              pre f post data s value (DetailList ms))
    as (errors & Hrun & Herr); [done..|].
  by exists errors, ms.
Qed.

Section MinLength.
Context {policy : StrengthPolicy} {model : UserModel}.

(** The mixin's [validate_email] raises validation errors only and the
    table of accounts is only read. *)
Lemma registration_field_returns f primitive db :
  ∃ r, run_field RegistrationSerializer.validate_method f primitive db
       = (db, inr r).
Proof.
  unfold RegistrationSerializer.validate_method.
  destruct (decide (field_name f = "email")) as [He|He].
  - unfold run_field, catch_validation, bind, lift, get.
    rewrite decide_True by done.
    destruct (char_run_validation (char f) primitive) as [e|v] eqn:Hv.
    + apply char_run_validation_raises in Hv as (ms & _ & ->). eauto.
    + validate_email_body.
      destruct (get_by_natural_key db (lower v)); simpl; eauto.
  - apply run_field_pure. by rewrite decide_False.
Qed.

(** C9. Each of the password fields of the registration, password-change
    and password-reset serializers ([password], [password2],
    [new_password], [new_password2]) rejects a value shorter than 8
    characters with a validation error of its own (the blank message for
    a value that is empty once trimmed, the minimum-length message
    otherwise), whatever the strength policy is; and the serializer that
    receives such a value raises an error dictionary that holds these
    messages under the name of the field. *)
Theorem password_min_length (value : string) :
  len value < 8 →
  (∀ f,
     f ∈ [RegistrationSerializer.password;
          RegistrationSerializer.password2;
          PasswordChangeSerializer.new_password;
          PasswordChangeSerializer.new_password2;
          PasswordResetSerializer.new_password;
          PasswordResetSerializer.new_password2] →
     ∃ ms,
       char_run_validation (char f) value
       = inl (ValidationError (DetailList ms))
       ∧ (Blank ∈ ms ∨ MinLength 8 ∈ ms))
  ∧ (∀ k data db,
       k ∈ ["password"; "password2"] →
       data !! k = Some value →
       ∃ errors ms,
         RegistrationSerializer.run_validation data db
         = (db, inl (ValidationError (DetailDict errors)))
         ∧ errors !! k = Some (DetailList ms)
         ∧ (Blank ∈ ms ∨ MinLength 8 ∈ ms))
  ∧ (∀ k partial data instance,
       k ∈ ["new_password"; "new_password2"] →
       data !! k = Some value →
       ∃ errors ms,
         PasswordChangeSerializer.run_validation partial data instance
         = (instance, inl (ValidationError (DetailDict errors)))
         ∧ errors !! k = Some (DetailList ms)
         ∧ (Blank ∈ ms ∨ MinLength 8 ∈ ms))
  ∧ (∀ k partial data instance,
       k ∈ ["new_password"; "new_password2"] →
       data !! k = Some value →
       ∃ errors ms,
         PasswordResetSerializer.run_validation partial data instance
         = (instance, inl (ValidationError (DetailDict errors)))
         ∧ errors !! k = Some (DetailList ms)
         ∧ (Blank ∈ ms ∨ MinLength 8 ∈ ms)).
Proof.
  intros Hlen. split; [|split; [|split]].
  - intros f Hf. apply min_length_rejects; [| |done];
      repeat (apply elem_of_cons in Hf as [->|Hf]; [done|]);
      by apply elem_of_nil in Hf.
  - intros k data db Hk Hdata.
    unfold RegistrationSerializer.run_validation.
    apply elem_of_cons in Hk as [->|Hk];
      [|apply list_elem_of_singleton in Hk as ->].
    + apply (min_length_field_rejects _ _ _
               [_; _] RegistrationSerializer.password
               [RegistrationSerializer.password2] _ _ value 8);
        try done.
      * intros f' primitive' _. apply registration_field_returns.
      * by intros ?%list_elem_of_singleton.
    + apply (min_length_field_rejects _ _ _
               [_; _; _] RegistrationSerializer.password2 [] _ _ value 8);
        try done.
      * intros f' primitive' _. apply registration_field_returns.
      * by intros ?%elem_of_nil.
  - intros k partial data instance Hk Hdata.
    unfold PasswordChangeSerializer.run_validation.
    apply elem_of_cons in Hk as [->|Hk];
      [|apply list_elem_of_singleton in Hk as ->].
    + apply (min_length_field_rejects _ _ _
               [_] PasswordChangeSerializer.new_password
               [PasswordChangeSerializer.new_password2] _ _ value 8);
        try done.
      * intros f' primitive' _. by apply run_field_pure.
      * by intros ?%list_elem_of_singleton.
    + apply (min_length_field_rejects _ _ _
               [_; _] PasswordChangeSerializer.new_password2 []
               _ _ value 8);
        try done.
      * intros f' primitive' _. by apply run_field_pure.
      * by intros ?%elem_of_nil.
  - intros k partial data instance Hk Hdata.
    unfold PasswordResetSerializer.run_validation.
    apply elem_of_cons in Hk as [->|Hk];
      [|apply list_elem_of_singleton in Hk as ->].
    + apply (min_length_field_rejects _ _ _
               [] PasswordResetSerializer.new_password
               [PasswordResetSerializer.new_password2] _ _ value 8);
        try done.
      * intros f' primitive' _. by apply run_field_pure.
      * by intros ?%list_elem_of_singleton.
    + apply (min_length_field_rejects _ _ _
               [_] PasswordResetSerializer.new_password2 [] _ _ value 8);
        try done.
      * intros f' primitive' _. by apply run_field_pure.
      * by intros ?%elem_of_nil.
Qed.

End MinLength.

Lemma password_min_length_witness :
  ∃ ms,
    char_run_validation
      (char (RegistrationSerializer.password (H := Examples.policy))) "Ab1"
    = inl (ValidationError (DetailList ms))
    ∧ (Blank ∈ ms ∨ MinLength 8 ∈ ms).
Proof.
  apply (proj1 (password_min_length (policy := Examples.policy)
                  (model := Examples.user_model) "Ab1"
                  ltac:(vm_compute; lia))).
  constructor.
Defined.

(** ** Email uniqueness *)

Section EmailUniqueness.
Context {policy : StrengthPolicy} {model : UserModel}.

Lemma registration_fields :
  RegistrationSerializer.fields
  = [mkField "name" (negb (column_editable (columns "name")) || false) false
       (negb (negb (column_editable (columns "name")) || false)
        && column_required (columns "name"))
       (column_char (columns "name"))]
    ++ mkField "email" (negb (column_editable (columns "email")) || false)
         false
         (negb (negb (column_editable (columns "email")) || false)
          && column_required (columns "email"))
         (column_char (columns "email"))
    :: [RegistrationSerializer.password; RegistrationSerializer.password2].
Proof. reflexivity. Qed.

(** C1. [ValidateEmailMixin.validate_email], the [validate_email] method
    of the registration serializer: when an account exists under the
    lowercased email the method raises the duplicate-email validation
    error, whatever the letter case of the email it is given; when none
    exists it returns the lowercased email.  A registration whose email
    the email field of the model accepts and under whose lowercased email
    an account exists is therefore rejected with that error under the key
    [email], and the table of accounts is as it was. *)
Theorem validate_email_unique (db : DB) (E : string) :
  (is_Some (get_by_natural_key db (lower E)) →
   ValidateEmailMixin.validate_email db E
   = inl (ValidationError
            (DetailList
               [Text "That email address has already been registered."])))
  ∧ (get_by_natural_key db (lower E) = None →
     ValidateEmailMixin.validate_email db E = inr (lower E))
  ∧ (∀ data value,
       column_editable (columns "email") = true →
       data !! "email" = Some E →
       char_run_validation (column_char (columns "email")) E = inr value →
       is_Some (get_by_natural_key db (lower value)) →
       ∃ errors,
         RegistrationSerializer.save data db
         = (db, inl (ValidationError (DetailDict errors)))
         ∧ errors !! "email"
           = Some (DetailList
                     [Text
                        "That email address has already been registered."])).
Proof.
  split; [|split].
  - validate_email_body. intros [a Ha]. by rewrite Ha.
  - validate_email_body. intros Hnone.
    by rewrite Hnone.
  - intros data value Hedit Hdata Hvalue [a Ha].
    unfold RegistrationSerializer.save, save, bind.
    unfold RegistrationSerializer.run_validation.
    rewrite registration_fields.
    set (msg := Text "That email address has already been registered.").
    lazymatch goal with
    | |- context [run_validation (?pre ++ ?f :: ?post) ?hooks ?validate] =>
        destruct (run_validation_rejects hooks false validate pre f post
                    data db E (DetailList [msg]))
          as (errors & Hrun & Herr); last (rewrite Hrun; by eauto)
    end.
    + intros f' primitive' _. apply registration_field_returns.
    + simpl. repeat (apply not_elem_of_cons; split; [done|]).
      apply not_elem_of_nil.
    + simpl. by rewrite Hedit.
    + exact Hdata.
    + unfold run_field, catch_validation. simpl.
      unfold bind, lift, get. rewrite Hvalue.
      validate_email_body. by rewrite Ha.
Qed.

End EmailUniqueness.

Lemma validate_email_unique_witness :
  ValidateEmailMixin.validate_email Examples.db "Alice@Example.COM"
  = inl (ValidationError
           (DetailList
              [Text "That email address has already been registered."]))
  ∧ ValidateEmailMixin.validate_email Examples.db "Carol@Example.com"
    = inr "carol@example.com"
  ∧ ∃ errors,
      RegistrationSerializer.save (H := Examples.policy)
        (H0 := Examples.user_model)
        {[ "name" := "Alice"; "email" := "Alice@Example.COM";
           "password" := "Passw0rd1"; "password2" := "Passw0rd1" ]}
        Examples.db
      = (Examples.db, inl (ValidationError (DetailDict errors)))
      ∧ errors !! "email"
        = Some (DetailList
                  [Text "That email address has already been registered."]).
Proof.
  split; [|split].
  - apply (validate_email_unique (policy := Examples.policy)
             (model := Examples.user_model) Examples.db "Alice@Example.COM").
    vm_compute. eauto.
  - apply (validate_email_unique (policy := Examples.policy)
             (model := Examples.user_model) Examples.db "Carol@Example.com").
    vm_compute. reflexivity.
  - apply (validate_email_unique (policy := Examples.policy)
             (model := Examples.user_model) Examples.db "Alice@Example.COM")
      with (value := "Alice@Example.COM").
    + vm_compute. reflexivity.
    + vm_compute. reflexivity.
    + vm_compute. reflexivity.
    + vm_compute. eauto.
Defined.

(** * Further properties *)

(** ** Lowercasing *)

Lemma lower_char_idempotent (c : ascii) :
  lower_char (lower_char c) = lower_char c.
Proof.
  destruct c as [[] [] [] [] [] [] [] []]; reflexivity.
Qed.

Lemma lower_idempotent (s : string) : lower (lower s) = lower s.
Proof.
  induction s as [|c s IH]; simpl; [done|].
  by rewrite lower_char_idempotent, IH.
Qed.

(** X1. [ValidateEmailMixin.validate_email] does not see letter case: two
    emails with the same lowercase form get the same outcome, the email it
    returns is the lowercase form of the one it was given, lowercasing it
    again changes nothing, and validating the returned email again returns
    it unchanged. *)
Theorem validate_email_case_insensitive (db : DB) (E1 E2 : string) :
  lower E1 = lower E2 →
  ValidateEmailMixin.validate_email db E1
  = ValidateEmailMixin.validate_email db E2
  ∧ (∀ v,
       ValidateEmailMixin.validate_email db E1 = inr v →
       v = lower E1 ∧ lower v = v
       ∧ ValidateEmailMixin.validate_email db v = inr v).
Proof.
  intros Heq. validate_email_body. rewrite <- Heq.
  split; [done|].
  intros v.
  destruct (get_by_natural_key db (lower E1)) eqn:Hk; [done|].
  intros [= <-]. rewrite lower_idempotent, Hk. done.
Qed.

Lemma validate_email_case_insensitive_witness :
  ValidateEmailMixin.validate_email Examples.db "CAROL@example.com"
  = ValidateEmailMixin.validate_email Examples.db "carol@EXAMPLE.com"
  ∧ "carol@example.com" = lower "CAROL@example.com"
  ∧ lower "carol@example.com" = "carol@example.com"
  ∧ ValidateEmailMixin.validate_email Examples.db "carol@example.com"
    = inr "carol@example.com".
Proof.
  split.
  - apply (validate_email_case_insensitive Examples.db
             "CAROL@example.com" "carol@EXAMPLE.com").
    vm_compute. reflexivity.
  - refine (proj2 (validate_email_case_insensitive Examples.db
                     "CAROL@example.com" "carol@EXAMPLE.com" _)
              "carol@example.com" _).
    + vm_compute. reflexivity.
    + vm_compute. reflexivity.
Defined.

(** ** Field validation, read backwards *)

Lemma run_validators_passes_inv vs value :
  run_validators vs value = inr tt → ∀ v, v ∈ vs → v value = [].
Proof.
  unfold run_validators.
  destruct (concat _) as [|m ms] eqn:Hc; [|done]. intros _.
  induction vs as [|v0 vs IH]; intros v Hv; [by apply elem_of_nil in Hv|].
  simpl in Hc. apply app_eq_nil in Hc as [H0 Hrest].
  apply elem_of_cons in Hv as [->|Hv]; [done | by apply IH].
Qed.

(** What a field with the default options has accepted is the trimmed
    submitted value, which is not empty, passes the declared validators and
    has the minimum length. *)
Lemma char_field_accepts_inv n vs data v :
  char_run_validation (char_field n vs) data = inr v →
  v = strip data
  ∧ strip data ≠ EmptyString
  ∧ (∀ validator, validator ∈ vs → validator (strip data) = [])
  ∧ from_option (λ k, k ≤ len (strip data)) True n.
Proof.
  unfold char_run_validation, char_field, char_to_internal_value. simpl.
  destruct (bool_decide (data = EmptyString)) eqn:Hd; [done|]. simpl.
  destruct (bool_decide (strip data = EmptyString)) eqn:Hs; [done|].
  apply bool_decide_eq_false in Hs.
  unfold bind_result.
  destruct (run_validators _ _) as [e|[]] eqn:Hv; [done|].
  intros [= <-]. split; [done|]. split; [done|].
  pose proof (run_validators_passes_inv _ _ Hv) as Hall.
  unfold field_validators in Hall. simpl in Hall. split.
  - intros validator Hin. apply Hall. apply elem_of_app. by left.
  - destruct n as [k|]; simpl; [|done].
    specialize (Hall (MinLengthValidator k)).
    unfold MinLengthValidator in Hall.
    destruct (Nat.ltb_spec (len (strip data)) k) as [Hlt|]; [|done].
    exfalso. assert ([MinLength k] = []) as Habs; [|done].
    apply Hall. apply elem_of_app. right. constructor.
Qed.

Section LoopInversion.
Context {S : Type}.
Variable validate_method : string → option (string → M S string).
Variable partial : bool.

Local Abbreviation loop := (to_internal_value_loop validate_method partial).
Local Abbreviation step := (run_field validate_method).

(** A field without a [validate_<field_name>] method returns the value its
    [CharField] has accepted. *)
Lemma run_field_accepts_inv f primitive v s s' :
  validate_method (field_name f) = None →
  step f primitive s = (s', inr (inr v)) →
  char_run_validation (char f) primitive = inr v ∧ s' = s.
Proof.
  intros Hm. unfold run_field, catch_validation, bind, lift, ret.
  rewrite Hm.
  destruct (char_run_validation (char f) primitive) as [[]|v']; try done.
  by intros [= <- <-].
Qed.

(** Every validated value was in the dictionary before or is what a
    writable field of that name returned for the submitted value. *)
Lemma loop_values fs data acc errors s s' acc' errors' k v :
  loop fs data acc errors s = (s', inr (acc', errors')) →
  acc' !! k = Some v →
  acc !! k = Some v
  ∨ ∃ f primitive s0 s1,
      f ∈ fs ∧ read_only f = false ∧ field_name f = k
      ∧ data !! k = Some primitive
      ∧ step f primitive s0 = (s1, inr (inr v)).
Proof.
  revert acc errors s.
  induction fs as [|f fs IH]; intros acc errors s; simpl.
  { intros [= _ <- <-]. auto. }
  intros Hloop Hk.
  assert (∀ acc0 errors0 s0,
            loop fs data acc0 errors0 s0 = (s', inr (acc', errors')) →
            (acc0 !! k = Some v →
             acc !! k = Some v
             ∨ ∃ primitive s1 s2,
                 read_only f = false ∧ field_name f = k
                 ∧ data !! k = Some primitive
                 ∧ step f primitive s1 = (s2, inr (inr v))) →
            acc !! k = Some v
            ∨ ∃ f' primitive s1 s2,
                f' ∈ f :: fs ∧ read_only f' = false ∧ field_name f' = k
                ∧ data !! k = Some primitive
                ∧ step f' primitive s1 = (s2, inr (inr v)))
    as Hrec.
  { intros acc0 errors0 s0 H0 Hacc0.
    destruct (IH _ _ _ H0 Hk) as [Hs|(f' & p & s1 & s2 & ? & ?)].
    - destruct (Hacc0 Hs) as [?|(p & s1 & s2 & ?)]; [by left|].
      right. exists f, p, s1, s2. split; [constructor | done].
    - right. exists f', p, s1, s2. split; [by constructor | done]. }
  destruct (read_only f) eqn:Hro; [by eapply Hrec; eauto|].
  destruct (data !! field_name f) as [primitive|] eqn:Hdata.
  - unfold bind in Hloop.
    destruct (step f primitive s) as [s1 [e|[d|v']]] eqn:Hstep; [done|..].
    + eapply Hrec; eauto.
    + eapply Hrec; [done|].
      destruct (decide (field_name f = k)) as [<-|Hne].
      * rewrite lookup_insert_eq. intros [= ->]. right.
        by exists primitive, s, s1.
      * rewrite lookup_insert_ne by done. by left.
  - destruct partial; [by eapply Hrec; eauto|].
    destruct (required f); eapply Hrec; eauto.
Qed.

(** The errors of the loop only grow. *)
Lemma loop_errors_grow fs data acc errors s s' acc' errors' k :
  loop fs data acc errors s = (s', inr (acc', errors')) →
  is_Some (errors !! k) → is_Some (errors' !! k).
Proof.
  revert acc errors s.
  induction fs as [|f fs IH]; intros acc errors s; simpl.
  { by intros [= _ <- <-]. }
  intros Hloop Hk.
  assert (∀ d, is_Some (<[field_name f := d]> errors !! k)) as Hins.
  { intros d. destruct (decide (field_name f = k)) as [<-|].
    - rewrite lookup_insert_eq. eauto.
    - by rewrite lookup_insert_ne. }
  destruct (read_only f); [by eapply IH|].
  destruct (data !! field_name f) as [primitive|].
  - unfold bind in Hloop.
    destruct (step f primitive s) as [s1 [e|[d|v']]]; [done|..];
      by eapply IH.
  - destruct partial; [by eapply IH|].
    destruct (required f); by eapply IH.
Qed.

(** When the loop ends without an error, every writable field that was
    submitted, and in a full update every required writable field, has a
    validated value. *)
Lemma loop_success_field fs data acc s s' acc' f :
  loop fs data acc ∅ s = (s', inr (acc', ∅)) →
  f ∈ fs → read_only f = false →
  is_Some (data !! field_name f) ∨ (partial = false ∧ required f = true) →
  is_Some (acc' !! field_name f) ∧ is_Some (data !! field_name f).
Proof.
  assert (∀ fs data acc errors s s' acc' k,
            loop fs data acc errors s = (s', inr (acc', ∅)) →
            errors !! k = None) as Hnone.
  { intros fs0 data0 acc0 errors0 s0 s0' acc0' k Hl.
    destruct (errors0 !! k) eqn:He; [|done].
    destruct (loop_errors_grow _ _ _ _ _ _ _ _ k Hl) as [? Habs]; [eauto|].
    by rewrite lookup_empty in Habs. }
  assert (∀ fs data acc errors s s' acc' errors' k,
            loop fs data acc errors s = (s', inr (acc', errors')) →
            is_Some (acc !! k) → is_Some (acc' !! k)) as Hgrow.
  { clear. intros fs data acc errors s s' acc' errors' k.
    revert acc errors s.
    induction fs as [|f fs IH]; intros acc errors s; simpl.
    { by intros [= _ <- <-]. }
    intros Hloop Hk.
    destruct (read_only f); [by eapply IH|].
    destruct (data !! field_name f) as [primitive|].
    - unfold bind in Hloop.
      destruct (step f primitive s) as [s1 [e|[d|v']]]; [done|..].
      + by eapply IH.
      + eapply IH; [done|].
        destruct (decide (field_name f = k)) as [<-|].
        * rewrite lookup_insert_eq. eauto.
        * by rewrite lookup_insert_ne.
    - destruct partial; [by eapply IH|].
      destruct (required f); by eapply IH. }
  revert acc s.
  induction fs as [|f0 fs IH]; intros acc s Hloop Hf Hro Hcase.
  { by apply elem_of_nil in Hf. }
  simpl in Hloop.
  apply elem_of_cons in Hf as [->|Hf].
  - rewrite Hro in Hloop.
    destruct (data !! field_name f0) as [primitive|] eqn:Hdata.
    + unfold bind in Hloop.
      destruct (step f0 primitive s) as [s1 [e|[d|v']]]; [done|..].
      * apply Hnone with (k := field_name f0) in Hloop.
        by rewrite lookup_insert_eq in Hloop.
      * split; [|eauto]. eapply Hgrow; [done|].
        rewrite lookup_insert_eq. eauto.
    + destruct Hcase as [[? ?]|[-> Hreq]]; [done|].
      rewrite Hreq in Hloop.
      apply Hnone with (k := field_name f0) in Hloop.
      by rewrite lookup_insert_eq in Hloop.
  - destruct (read_only f0); [by eapply IH|].
    destruct (data !! field_name f0) as [primitive|].
    + unfold bind in Hloop.
      destruct (step f0 primitive s) as [s1 [e|[d|v']]]; [done|..].
      * apply Hnone with (k := field_name f0) in Hloop.
        by rewrite lookup_insert_eq in Hloop.
      * by eapply IH.
    + destruct partial eqn:Hp; [by eapply IH|].
      destruct (required f0); [|by eapply IH].
      apply Hnone with (k := field_name f0) in Hloop.
      by rewrite lookup_insert_eq in Hloop.
Qed.

End LoopInversion.

(** ** Validation of a whole serializer *)

(** When the fields and [validate] leave the serializer as it was, so does
    validation; and validated data are what [validate] returned for the
    values the loop collected without an error. *)
Lemma run_validation_cases {S : Type}
  (fields : list Field)
  (validate_method : string → option (string → M S string))
  (validate : gmap string string → M S (gmap string string))
  (partial : bool) (data : gmap string string) (s : S) :
  (∀ f primitive, f ∈ fields →
                  ∃ r, run_field validate_method f primitive s = (s, inr r)) →
  (∀ attrs, ∃ r, validate attrs s = (s, r)) →
  ∃ r,
    run_validation fields validate_method validate partial data s = (s, r)
    ∧ ∀ validated,
        r = inr validated →
        ∃ acc,
          validate acc s = (s, inr validated)
          ∧ to_internal_value_loop validate_method partial fields data ∅ ∅ s
            = (s, inr (acc, ∅)).
Proof.
  intros Hstep Hvalidate.
  destruct (loop_returns validate_method partial fields data ∅ ∅ s Hstep)
    as (acc & errors & Hloop).
  unfold run_validation, to_internal_value, bind. rewrite Hloop. simpl.
  destruct (decide (errors = ∅)) as [->|].
  2:{ eexists. split; [reflexivity|]. by intros ? [=]. }
  unfold ret, catch_validation.
  destruct (Hvalidate acc) as [r Hr]. rewrite Hr.
  destruct r as [[d| | |]|validated];
    try (eexists; split; [reflexivity|]; by intros ? [=]).
  eexists. split; [reflexivity|]. intros ? [= <-]. eauto.
Qed.

(** ** Password change and reset through the serializer *)

Lemma password_change_validate_inv (attrs validated : gmap string string) :
  PasswordChangeSerializer.validate attrs = inr validated →
  validated = attrs
  ∧ ∃ q, attrs !! "new_password2" = Some q ∧ attrs !! "new_password" = Some q.
Proof.
  unfold PasswordChangeSerializer.validate, getitem.
  destruct (attrs !! "new_password2") as [q|]; [|done]. simpl.
  case_decide as Hd; [done|]. intros [= <-]. eauto.
Qed.

Lemma password_reset_validate_inv (attrs validated : gmap string string) :
  PasswordResetSerializer.validate attrs = inr validated →
  validated = attrs
  ∧ ∃ q, attrs !! "new_password2" = Some q ∧ attrs !! "new_password" = Some q.
Proof.
  unfold PasswordResetSerializer.validate, getitem.
  destruct (attrs !! "new_password2") as [q|]; [|done]. simpl.
  case_decide as Hd; [done|]. intros [= <-]. eauto.
Qed.

Section PasswordSerializers.
Context {policy : StrengthPolicy} {model : UserModel}
  {hasher : PasswordHasher}.

Lemma password_change_fields :
  PasswordChangeSerializer.fields
  = [PasswordChangeSerializer.old_password;
     PasswordChangeSerializer.new_password;
     PasswordChangeSerializer.new_password2].
Proof. reflexivity. Qed.

Lemma password_change_update_cases
  (validated_data : gmap string string) (instance : Account) :
  (∃ e,
     PasswordChangeSerializer.update validated_data instance
     = (instance, inl e))
  ∨ (∃ old new,
       validated_data !! "old_password" = Some old
       ∧ verify_password old (password instance) = true
       ∧ validated_data !! "new_password" = Some new
       ∧ PasswordChangeSerializer.update validated_data instance
         = (set_password_field (make_password new) instance,
            inr (set_password_field (make_password new) instance))).
Proof.
  unfold PasswordChangeSerializer.update, getitem, lift, bind,
    check_password, set_password, modify, get, ret, raise.
  destruct (validated_data !! "old_password") as [old|]; [|by eauto].
  simpl.
  destruct (verify_password old (password instance)) eqn:Hv; simpl;
    [|by eauto].
  destruct (validated_data !! "new_password") as [new|] eqn:Hn;
    [|by eauto].
  right. by exists old, new.
Qed.

Lemma password_reset_update_cases
  (validated_data : gmap string string) (instance : Account) :
  (∃ e,
     PasswordResetSerializer.update validated_data instance
     = (instance, inl e))
  ∨ (∃ new,
       validated_data !! "new_password" = Some new
       ∧ PasswordResetSerializer.update validated_data instance
         = (set_password_field (make_password new) instance,
            inr (set_password_field (make_password new) instance))).
Proof.
  unfold PasswordResetSerializer.update, getitem, lift, bind,
    set_password, modify, get.
  destruct (validated_data !! "new_password") as [new|]; [|by eauto].
  right. by exists new.
Qed.

(** What validation of a password change or reset comes to: the instance
    is not touched, and validated data are the values the fields accepted,
    with equal [new_password] and [new_password2]. *)
Lemma password_change_run_validation_cases
  (partial : bool) (data : gmap string string) (instance : Account) :
  ∃ r,
    PasswordChangeSerializer.run_validation partial data instance
    = (instance, r)
    ∧ ∀ validated,
        r = inr validated →
        (∃ q, validated !! "new_password2" = Some q
              ∧ validated !! "new_password" = Some q)
        ∧ to_internal_value_loop (λ _, None) partial
            PasswordChangeSerializer.fields data ∅ ∅ instance
          = (instance, inr (validated, ∅)).
Proof.
  destruct (run_validation_cases PasswordChangeSerializer.fields
              (λ _, None)
              (λ attrs, lift (PasswordChangeSerializer.validate attrs))
              partial data instance) as (r & Hrun & Hr).
  - intros f primitive _. by apply run_field_pure.
  - intros attrs. unfold lift. eauto.
  - exists r. split; [exact Hrun|]. intros validated ->.
    destruct (Hr validated eq_refl) as (acc & Hv & Hloop).
    unfold lift in Hv. injection Hv as Hv.
    apply password_change_validate_inv in Hv as [-> ?]. by split.
Qed.

Lemma password_reset_run_validation_cases
  (partial : bool) (data : gmap string string) (instance : Account) :
  ∃ r,
    PasswordResetSerializer.run_validation partial data instance
    = (instance, r)
    ∧ ∀ validated,
        r = inr validated →
        (∃ q, validated !! "new_password2" = Some q
              ∧ validated !! "new_password" = Some q)
        ∧ to_internal_value_loop (λ _, None) partial
            PasswordResetSerializer.fields data ∅ ∅ instance
          = (instance, inr (validated, ∅)).
Proof.
  destruct (run_validation_cases PasswordResetSerializer.fields
              (λ _, None)
              (λ attrs, lift (PasswordResetSerializer.validate attrs))
              partial data instance) as (r & Hrun & Hr).
  - intros f primitive _. by apply run_field_pure.
  - intros attrs. unfold lift. eauto.
  - exists r. split; [exact Hrun|]. intros validated ->.
    destruct (Hr validated eq_refl) as (acc & Hv & Hloop).
    unfold lift in Hv. injection Hv as Hv.
    apply password_reset_validate_inv in Hv as [-> ?]. by split.
Qed.

(** X2. Saving a password change or a password reset that fails, at any
    stage (a field, the comparison of the new passwords, the old password),
    leaves the account as it was. *)
Theorem password_save_failure_keeps_instance
  (partial : bool) (data : gmap string string)
  (instance instance' : Account) (e : Exception) :
  (PasswordChangeSerializer.save partial data instance = (instance', inl e) →
   instance' = instance)
  ∧ (PasswordResetSerializer.save partial data instance = (instance', inl e) →
     instance' = instance).
Proof.
  split.
  - unfold PasswordChangeSerializer.save, save, bind.
    destruct (password_change_run_validation_cases partial data instance)
      as (r & -> & _).
    destruct r as [e'|validated]; [by intros [= <- _]|].
    destruct (password_change_update_cases validated instance)
      as [[e' ->]|(old & new & _ & _ & _ & ->)]; [by intros [= <- _] | done].
  - unfold PasswordResetSerializer.save, save, bind.
    destruct (password_reset_run_validation_cases partial data instance)
      as (r & -> & _).
    destruct r as [e'|validated]; [by intros [= <- _]|].
    destruct (password_reset_update_cases validated instance)
      as [[e' ->]|(new & _ & ->)]; [by intros [= <- _] | done].
Qed.

Lemma reset_field_of_name f :
  f ∈ PasswordResetSerializer.fields →
  (field_name f = "new_password" → f = PasswordResetSerializer.new_password)
  ∧ (field_name f = "new_password2" →
     f = PasswordResetSerializer.new_password2).
Proof.
  rewrite password_reset_fields.
  intros [->|[->|[]%elem_of_nil]%elem_of_cons]%elem_of_cons; by split.
Qed.

(** X3. A password reset is saved only when [new_password] and
    [new_password2] were both submitted, are equal once trimmed, have at
    least 8 characters and pass the strength policy; the account then
    differs from what it was in its password hash alone, which is the hash
    of the trimmed [new_password]. *)
Theorem password_reset_save_only_if
  (partial : bool) (data : gmap string string)
  (instance instance' returned : Account) :
  PasswordResetSerializer.save partial data instance
  = (instance', inr returned) →
  ∃ p p2,
    data !! "new_password" = Some p
    ∧ data !! "new_password2" = Some p2
    ∧ strip p = strip p2
    ∧ 8 ≤ len (strip p)
    ∧ validate_password_strength (strip p) = []
    ∧ instance' = set_password_field (make_password (strip p)) instance
    ∧ returned = instance'.
Proof.
  unfold PasswordResetSerializer.save, save, bind.
  destruct (password_reset_run_validation_cases partial data instance)
    as (r & -> & Hr).
  destruct r as [e'|validated]; [done|].
  destruct (Hr validated eq_refl) as ((q & Hq2 & Hq1) & Hloop).
  destruct (password_reset_update_cases validated instance)
    as [[e' ->]|(new & Hnew & ->)]; [done|].
  intros [= <- <-]. rewrite Hq1 in Hnew. injection Hnew as <-.
  destruct (loop_values _ _ _ _ _ _ _ _ _ _ "new_password" q Hloop Hq1)
    as [Habs|(f & p & s0 & s1 & Hf & _ & Hname & Hp & Hstep)];
    [by rewrite lookup_empty in Habs|].
  destruct (loop_values _ _ _ _ _ _ _ _ _ _ "new_password2" q Hloop Hq2)
    as [Habs|(f2 & p2 & s2 & s3 & Hf2 & _ & Hname2 & Hp2 & Hstep2)];
    [by rewrite lookup_empty in Habs|].
  apply reset_field_of_name in Hf as [Hf _]. specialize (Hf Hname) as ->.
  apply reset_field_of_name in Hf2 as [_ Hf2]. specialize (Hf2 Hname2) as ->.
  apply run_field_accepts_inv in Hstep as [Hstep _]; [|done].
  apply run_field_accepts_inv in Hstep2 as [Hstep2 _]; [|done].
  apply char_field_accepts_inv in Hstep as (-> & _ & Hvs & Hlen).
  apply char_field_accepts_inv in Hstep2 as (Heq & _).
  exists p, p2. repeat split; try done.
  apply Hvs. constructor.
Qed.

End PasswordSerializers.

Lemma password_save_failure_keeps_instance_witness :
  PasswordChangeSerializer.save (H := Examples.policy)
    (H0 := Examples.user_model) (H1 := Examples.hasher) false
    {[ "old_password" := "Password9"; "new_password" := "Passw0rd1";
       "new_password2" := "Passw0rd1" ]} Examples.alice
  = (Examples.alice,
     inl (ValidationError
            (DetailDict
               {[ "old_password" := DetailMsg (Text "Invalid password.") ]})))
  ∧ Examples.alice = Examples.alice.
Proof.
  split; [vm_compute; reflexivity|].
  apply (proj1 (password_save_failure_keeps_instance
                  (policy := Examples.policy) (model := Examples.user_model)
                  (hasher := Examples.hasher) false
                  {[ "old_password" := "Password9";
                     "new_password" := "Passw0rd1";
                     "new_password2" := "Passw0rd1" ]}
                  Examples.alice Examples.alice
                  (ValidationError
                     (DetailDict
                        {[ "old_password" :=
                             DetailMsg (Text "Invalid password.") ]})))).
  vm_compute. reflexivity.
Defined.

Lemma password_reset_save_only_if_witness :
  ∃ p p2,
    ({[ "new_password" := " Passw0rd1"; "new_password2" := "Passw0rd1 " ]}
       : gmap string string) !! "new_password" = Some p
    ∧ ({[ "new_password" := " Passw0rd1"; "new_password2" := "Passw0rd1 " ]}
         : gmap string string) !! "new_password2" = Some p2
    ∧ strip p = strip p2
    ∧ 8 ≤ len (strip p)
    ∧ Examples.policy (strip p) = []
    ∧ set_password_field "toy$1dr0wssaP" Examples.alice
      = set_password_field
          (make_password (PasswordHasher := Examples.hasher) (strip p))
          Examples.alice
    ∧ set_password_field "toy$1dr0wssaP" Examples.alice
      = set_password_field "toy$1dr0wssaP" Examples.alice.
Proof.
  apply (password_reset_save_only_if (policy := Examples.policy)
           (model := Examples.user_model) (hasher := Examples.hasher) false
           {[ "new_password" := " Passw0rd1"; "new_password2" := "Passw0rd1 " ]}
           Examples.alice
           (set_password_field "toy$1dr0wssaP" Examples.alice)
           (set_password_field "toy$1dr0wssaP" Examples.alice)).
  vm_compute. reflexivity.
Defined.

(** ** One field of the loop at a time *)

Section LoopSteps.
Context {S : Type}.
Variable validate_method : string → option (string → M S string).
Variable partial : bool.

Local Abbreviation loop := (to_internal_value_loop validate_method partial).
Local Abbreviation step := (run_field validate_method).

Lemma loop_cons_read_only f fs data acc errors s :
  read_only f = true →
  loop (f :: fs) data acc errors s = loop fs data acc errors s.
Proof. intros Hro. simpl. by rewrite Hro. Qed.

Lemma loop_cons_accepted f fs data acc errors s primitive v :
  read_only f = false →
  data !! field_name f = Some primitive →
  step f primitive s = (s, inr (inr v)) →
  loop (f :: fs) data acc errors s
  = loop fs data (<[field_name f := v]> acc) errors s.
Proof.
  intros Hro Hdata Hstep. simpl. rewrite Hro, Hdata. unfold bind.
  by rewrite Hstep.
Qed.

Lemma loop_cons_rejected f fs data acc errors s primitive d :
  read_only f = false →
  data !! field_name f = Some primitive →
  step f primitive s = (s, inr (inl d)) →
  loop (f :: fs) data acc errors s
  = loop fs data acc (<[field_name f := d]> errors) s.
Proof.
  intros Hro Hdata Hstep. simpl. rewrite Hro, Hdata. unfold bind.
  by rewrite Hstep.
Qed.

Lemma loop_cons_missing f fs data acc errors s :
  read_only f = false →
  data !! field_name f = None →
  loop (f :: fs) data acc errors s
  = if partial then loop fs data acc errors s
    else if required f
         then loop fs data acc
                (<[field_name f := DetailList [Required]]> errors) s
         else loop fs data acc errors s.
Proof.
  intros Hro Hdata. simpl. rewrite Hro, Hdata.
  destruct partial; [done|]. by destruct (required f).
Qed.

Lemma loop_nil data acc errors s :
  loop [] data acc errors s = (s, inr (acc, errors)).
Proof. reflexivity. Qed.

(** A serializer of one writable field that was submitted: what the field
    made of the serializer stays, its value or its error is all the loop
    collects. *)
Lemma loop_singleton f data s primitive :
  read_only f = false →
  data !! field_name f = Some primitive →
  loop [f] data ∅ ∅ s
  = match step f primitive s with
    | (s', inl e) => (s', inl e)
    | (s', inr (inr v)) => (s', inr ({[ field_name f := v ]}, ∅))
    | (s', inr (inl d)) => (s', inr (∅, {[ field_name f := d ]}))
    end.
Proof.
  intros Hro Hdata. simpl. rewrite Hro, Hdata. unfold bind.
  by destruct (step f primitive s) as [s' [e|[d|v]]].
Qed.

End LoopSteps.

Section PasswordChangePipeline.
Context {policy : StrengthPolicy} {model : UserModel}
  {hasher : PasswordHasher}.

(** Three submitted passwords that their fields accept are validated to
    their trimmed values; the old password only has not to be blank. *)
Lemma password_change_to_internal_value
  (partial : bool) (data : gmap string string) (instance : Account)
  (o p p2 : string) :
  data !! "old_password" = Some o →
  data !! "new_password" = Some p →
  data !! "new_password2" = Some p2 →
  strip o ≠ EmptyString →
  8 ≤ len (strip p) →
  8 ≤ len (strip p2) →
  validate_password_strength (strip p) = [] →
  to_internal_value_loop (λ _, None) partial
    PasswordChangeSerializer.fields data ∅ ∅ instance
  = (instance,
     inr (<["new_password2" := strip p2]>
            (<["new_password" := strip p]>
               (<["old_password" := strip o]> ∅)), ∅)).
Proof.
  intros Ho H1 H2 Hone Hlen Hlen2 Hpolicy.
  assert (∀ q, 8 ≤ len (strip q) → strip q ≠ EmptyString) as Hne.
  { intros q Hq Heq. rewrite Heq in Hq. simpl in Hq. lia. }
  rewrite password_change_fields.
  rewrite (loop_cons_accepted _ _ _ _ _ _ _ _ o (strip o)); [|done..|].
  2:{ apply run_field_accepts; [done|].
      apply char_field_accepts; [|done..].
      intros v Hv. by apply elem_of_nil in Hv. }
  rewrite (loop_cons_accepted _ _ _ _ _ _ _ _ p (strip p)); [|done..|].
  2:{ apply run_field_accepts; [done|].
      apply char_field_accepts; [|done|by apply Hne].
      intros v Hv. by apply list_elem_of_singleton in Hv as ->. }
  rewrite (loop_cons_accepted _ _ _ _ _ _ _ _ p2 (strip p2)); [|done..|].
  2:{ apply run_field_accepts; [done|].
      apply char_field_accepts; [|done|by apply Hne].
      intros v Hv. by apply elem_of_nil in Hv. }
  apply loop_nil.
Qed.

Lemma password_change_validated
  (partial : bool) (data : gmap string string) (instance : Account)
  (o p p2 : string) :
  data !! "old_password" = Some o →
  data !! "new_password" = Some p →
  data !! "new_password2" = Some p2 →
  strip o ≠ EmptyString →
  8 ≤ len (strip p) →
  8 ≤ len (strip p2) →
  validate_password_strength (strip p) = [] →
  PasswordChangeSerializer.run_validation partial data instance
  = (instance,
     match
       PasswordChangeSerializer.validate
         (<["new_password2" := strip p2]>
            (<["new_password" := strip p]>
               (<["old_password" := strip o]> ∅)))
     with
     | inl (ValidationError d) => inl (ValidationError (as_serializer_error d))
     | r => r
     end).
Proof.
  intros Ho H1 H2 Hone Hlen Hlen2 Hpolicy.
  unfold PasswordChangeSerializer.run_validation, run_validation,
    to_internal_value, bind.
  rewrite (password_change_to_internal_value partial data instance o p p2)
    by done.
  simpl. destruct (decide (_ = _)); [|done].
  unfold ret, catch_validation, lift, raise.
  by destruct (PasswordChangeSerializer.validate _) as [[]|].
Qed.

(** Without an [old_password], a partial update validates the two new
    passwords alone. *)
Lemma password_change_to_internal_value_partial
  (data : gmap string string) (instance : Account) (p p2 : string) :
  data !! "old_password" = None →
  data !! "new_password" = Some p →
  data !! "new_password2" = Some p2 →
  8 ≤ len (strip p) →
  8 ≤ len (strip p2) →
  validate_password_strength (strip p) = [] →
  to_internal_value_loop (λ _, None) true
    PasswordChangeSerializer.fields data ∅ ∅ instance
  = (instance,
     inr (<["new_password2" := strip p2]>
            (<["new_password" := strip p]> ∅), ∅)).
Proof.
  intros Ho H1 H2 Hlen Hlen2 Hpolicy.
  assert (∀ q, 8 ≤ len (strip q) → strip q ≠ EmptyString) as Hne.
  { intros q Hq Heq. rewrite Heq in Hq. simpl in Hq. lia. }
  rewrite password_change_fields.
  rewrite loop_cons_missing by done.
  rewrite (loop_cons_accepted _ _ _ _ _ _ _ _ p (strip p)); [|done..|].
  2:{ apply run_field_accepts; [done|].
      apply char_field_accepts; [|done|by apply Hne].
      intros v Hv. by apply list_elem_of_singleton in Hv as ->. }
  rewrite (loop_cons_accepted _ _ _ _ _ _ _ _ p2 (strip p2)); [|done..|].
  2:{ apply run_field_accepts; [done|].
      apply char_field_accepts; [|done|by apply Hne].
      intros v Hv. by apply elem_of_nil in Hv. }
  apply loop_nil.
Qed.

(** Once the fields have been accepted, validation is what [validate]
    makes of their values. *)
Lemma password_change_run_validation_of_loop
  (partial : bool) (data : gmap string string) (instance : Account)
  (acc : gmap string string) :
  to_internal_value_loop (λ _, None) partial
    PasswordChangeSerializer.fields data ∅ ∅ instance
  = (instance, inr (acc, ∅)) →
  PasswordChangeSerializer.run_validation partial data instance
  = (instance,
     match PasswordChangeSerializer.validate acc with
     | inl (ValidationError d) => inl (ValidationError (as_serializer_error d))
     | r => r
     end).
Proof.
  intros Hloop.
  unfold PasswordChangeSerializer.run_validation, run_validation,
    to_internal_value, bind.
  rewrite Hloop. cbn [fst snd]. rewrite decide_True by reflexivity.
  unfold ret, catch_validation, lift, raise.
  by destruct (PasswordChangeSerializer.validate acc) as [[]|].
Qed.

(** C5, amended. A password change or a password reset whose fields are
    accepted (new passwords of at least 8 characters once trimmed, the
    first passing the strength policy; for a change, an old password that
    is not blank, or none at all in a partial update) and whose
    [new_password] and [new_password2] differ once trimmed fails
    validation with the mismatch message under the key [new_password2];
    the account instance is as it was. *)
Theorem new_password_mismatch
  (partial : bool) (data : gmap string string) (instance : Account)
  (p p2 : string) :
  data !! "new_password" = Some p →
  data !! "new_password2" = Some p2 →
  8 ≤ len (strip p) →
  8 ≤ len (strip p2) →
  validate_password_strength (strip p) = [] →
  strip p ≠ strip p2 →
  ((∃ o, data !! "old_password" = Some o ∧ strip o ≠ EmptyString)
   ∨ (partial = true ∧ data !! "old_password" = None) →
   PasswordChangeSerializer.run_validation partial data instance
   = (instance,
      inl (ValidationError
             (DetailDict
                {[ "new_password2" :=
                     DetailList
                       [Text "Your new passwords do not match."] ]}))))
  ∧ PasswordResetSerializer.run_validation partial data instance
    = (instance,
       inl (ValidationError
              (DetailDict
                 {[ "new_password2" :=
                      DetailList
                        [Text "Your new passwords do not match."] ]}))).
Proof.
  intros H1 H2 Hlen Hlen2 Hpolicy Hne.
  split; [|by apply password_reset_mismatch_rejected with p p2].
  intros [(o & Ho & Hone)|[-> Ho]].
  - rewrite (password_change_run_validation_of_loop partial data instance
               (<["new_password2" := strip p2]>
                  (<["new_password" := strip p]>
                     (<["old_password" := strip o]> ∅)))).
    2:{ by apply password_change_to_internal_value. }
    rewrite (password_change_validate_mismatch _ (strip p2)).
    + simpl. by rewrite map_fmap_singleton.
    + apply lookup_insert_eq.
    + rewrite lookup_insert_ne by done. rewrite lookup_insert_eq.
      by intros [= ?].
  - rewrite (password_change_run_validation_of_loop true data instance
               (<["new_password2" := strip p2]>
                  (<["new_password" := strip p]> ∅))).
    2:{ by apply password_change_to_internal_value_partial. }
    rewrite (password_change_validate_mismatch _ (strip p2)).
    + simpl. by rewrite map_fmap_singleton.
    + apply lookup_insert_eq.
    + rewrite lookup_insert_ne by done. rewrite lookup_insert_eq.
      by intros [= ?].
Qed.

(** C4, amended. A password change whose three fields are accepted (an old
    password that is not blank, new passwords of at least 8 characters once
    trimmed, the first passing the strength policy) and whose new passwords
    are equal once trimmed: when the trimmed [old_password] does not verify
    against the password hash of the account instance, saving fails with
    the invalid-password error under the key [old_password] and the
    instance is as it was; when it verifies, saving returns the instance
    with the hash of the trimmed [new_password] as its password and its
    name, email, date of joining and verification flag as they were.
    [update] sets the password on the instance it was given; it does not
    write the instance to the table. *)
Theorem password_change_update
  (partial : bool) (data : gmap string string) (instance : Account)
  (o p p2 : string) :
  data !! "old_password" = Some o →
  data !! "new_password" = Some p →
  data !! "new_password2" = Some p2 →
  strip o ≠ EmptyString →
  8 ≤ len (strip p) →
  validate_password_strength (strip p) = [] →
  strip p = strip p2 →
  (verify_password (strip o) (password instance) = false →
   PasswordChangeSerializer.save partial data instance
   = (instance,
      inl (ValidationError
             (DetailDict
                {[ "old_password" :=
                     DetailMsg (Text "Invalid password.") ]}))))
  ∧ (verify_password (strip o) (password instance) = true →
     PasswordChangeSerializer.save partial data instance
     = (mkAccount (name instance) (email instance)
          (make_password (strip p)) (date_joined instance)
          (email_verification_required instance),
        inr (mkAccount (name instance) (email instance)
               (make_password (strip p)) (date_joined instance)
               (email_verification_required instance)))).
Proof.
  intros Ho H1 H2 Hone Hlen Hpolicy Heq.
  assert (PasswordChangeSerializer.run_validation partial data instance
          = (instance,
             inr (<["new_password2" := strip p2]>
                    (<["new_password" := strip p]>
                       (<["old_password" := strip o]> ∅))))) as Hrun.
  { rewrite (password_change_run_validation_of_loop partial data instance
               (<["new_password2" := strip p2]>
                  (<["new_password" := strip p]>
                     (<["old_password" := strip o]> ∅)))).
    2:{ apply password_change_to_internal_value; try done.
        by rewrite <- Heq. }
    destruct (new_password_match
                (<["new_password2" := strip p2]>
                   (<["new_password" := strip p]>
                      (<["old_password" := strip o]> ∅))) (strip p2))
      as [-> _]; [| |done].
    - apply lookup_insert_eq.
    - rewrite lookup_insert_ne by done. rewrite lookup_insert_eq.
      by rewrite Heq. }
  unfold PasswordChangeSerializer.save, save, bind. rewrite Hrun.
  unfold PasswordChangeSerializer.update, getitem, lift, bind,
    check_password, set_password, modify, get, ret, raise.
  rewrite !lookup_insert_ne by done. rewrite lookup_insert_eq. simpl.
  destruct (verify_password (strip o) (password instance)); simpl;
    [|by split].
  rewrite lookup_insert_ne by done. rewrite lookup_insert_eq.
  by split.
Qed.

(** X4. A password change whose three fields are accepted (an old password
    that is not blank, new passwords of at least 8 characters, the first
    passing the strength policy) and whose new passwords are equal once
    trimmed is decided by the old password alone, trimmed like the others:
    when it verifies against the password hash of the instance, the
    instance is returned with the hash of the trimmed [new_password] in
    the place of that hash; when it does not, the invalid-password error is
    raised and the instance is as it was.  The instance is the account
    object the serializer was given: [update] does not write it to the
    table. *)
Theorem password_change_save
  (partial : bool) (data : gmap string string) (instance : Account)
  (o p p2 : string) :
  data !! "old_password" = Some o →
  data !! "new_password" = Some p →
  data !! "new_password2" = Some p2 →
  strip o ≠ EmptyString →
  8 ≤ len (strip p) →
  validate_password_strength (strip p) = [] →
  strip p = strip p2 →
  PasswordChangeSerializer.save partial data instance
  = if verify_password (strip o) (password instance)
    then (set_password_field (make_password (strip p)) instance,
          inr (set_password_field (make_password (strip p)) instance))
    else (instance,
          inl (ValidationError
                 (DetailDict
                    {[ "old_password" :=
                         DetailMsg (Text "Invalid password.") ]}))).
Proof.
  intros Ho H1 H2 Hone Hlen Hpolicy Heq.
  unfold PasswordChangeSerializer.save, save, bind.
  rewrite (password_change_validated partial data instance o p p2);
    [|done..|by rewrite <- Heq|done].
  assert (PasswordChangeSerializer.validate
            (<["new_password2" := strip p2]>
               (<["new_password" := strip p]>
                  (<["old_password" := strip o]> ∅)))
          = inr (<["new_password2" := strip p2]>
                   (<["new_password" := strip p]>
                      (<["old_password" := strip o]> ∅)))) as ->.
  { apply (new_password_match _ (strip p2)).
    - apply lookup_insert_eq.
    - rewrite lookup_insert_ne by done. rewrite lookup_insert_eq.
      by rewrite Heq. }
  unfold PasswordChangeSerializer.update, getitem, lift, bind,
    check_password, set_password, modify, get, ret, raise.
  rewrite !lookup_insert_ne by done. rewrite lookup_insert_eq. simpl.
  destruct (verify_password (strip o) (password instance)); simpl; [|done].
  rewrite lookup_insert_ne by done. by rewrite lookup_insert_eq.
Qed.

(** X5. The new passwords are compared before the old password is looked
    at: a password change whose fields are accepted but whose new passwords
    differ once trimmed is rejected with the mismatch message under
    [new_password2], whether the old password verifies or not, and the
    account is as it was. *)
Theorem password_change_mismatch_first
  (partial : bool) (data : gmap string string) (instance : Account)
  (o p p2 : string) :
  data !! "old_password" = Some o →
  data !! "new_password" = Some p →
  data !! "new_password2" = Some p2 →
  strip o ≠ EmptyString →
  8 ≤ len (strip p) →
  8 ≤ len (strip p2) →
  validate_password_strength (strip p) = [] →
  strip p ≠ strip p2 →
  PasswordChangeSerializer.save partial data instance
  = (instance,
     inl (ValidationError
            (DetailDict
               {[ "new_password2" :=
                    DetailList
                      [Text "Your new passwords do not match."] ]}))).
Proof.
  intros Ho H1 H2 Hone Hlen Hlen2 Hpolicy Hne.
  unfold PasswordChangeSerializer.save, save, bind.
  rewrite (password_change_validated partial data instance o p p2) by done.
  unfold PasswordChangeSerializer.validate, getitem.
  rewrite lookup_insert_eq. simpl.
  rewrite lookup_insert_ne by done. rewrite lookup_insert_eq.
  case_decide as Hd; [|congruence].
  simpl. by rewrite map_fmap_singleton.
Qed.

Lemma change_field_of_name f :
  f ∈ PasswordChangeSerializer.fields →
  (field_name f = "old_password" → f = PasswordChangeSerializer.old_password)
  ∧ (field_name f = "new_password" →
     f = PasswordChangeSerializer.new_password)
  ∧ (field_name f = "new_password2" →
     f = PasswordChangeSerializer.new_password2).
Proof.
  rewrite password_change_fields.
  intros [->|[->|[->|[]%elem_of_nil]%elem_of_cons]%elem_of_cons]%elem_of_cons;
    by repeat split.
Qed.

(** X6. A password change is saved only when the three passwords were
    submitted, the old one, trimmed, verifies against the stored hash, and
    the new ones are equal once trimmed, have at least 8 characters and
    pass the strength policy; in particular leaving [old_password] out of a
    partial update never changes the password.  The account then differs
    from what it was in its password hash alone. *)
Theorem password_change_save_only_if
  (partial : bool) (data : gmap string string)
  (instance instance' returned : Account) :
  PasswordChangeSerializer.save partial data instance
  = (instance', inr returned) →
  ∃ o p p2,
    data !! "old_password" = Some o
    ∧ data !! "new_password" = Some p
    ∧ data !! "new_password2" = Some p2
    ∧ verify_password (strip o) (password instance) = true
    ∧ strip p = strip p2
    ∧ 8 ≤ len (strip p)
    ∧ validate_password_strength (strip p) = []
    ∧ instance' = set_password_field (make_password (strip p)) instance
    ∧ returned = instance'.
Proof.
  unfold PasswordChangeSerializer.save, save, bind.
  destruct (password_change_run_validation_cases partial data instance)
    as (r & -> & Hr).
  destruct r as [e'|validated]; [done|].
  destruct (Hr validated eq_refl) as ((q & Hq2 & Hq1) & Hloop).
  destruct (password_change_update_cases validated instance)
    as [[e' ->]|(old & new & Hold & Hverify & Hnew & ->)]; [done|].
  intros [= <- <-]. rewrite Hq1 in Hnew. injection Hnew as <-.
  destruct (loop_values _ _ _ _ _ _ _ _ _ _ "old_password" old Hloop Hold)
    as [Habs|(f0 & o & s4 & s5 & Hf0 & _ & Hname0 & Ho & Hstep0)];
    [by rewrite lookup_empty in Habs|].
  destruct (loop_values _ _ _ _ _ _ _ _ _ _ "new_password" q Hloop Hq1)
    as [Habs|(f & p & s0 & s1 & Hf & _ & Hname & Hp & Hstep)];
    [by rewrite lookup_empty in Habs|].
  destruct (loop_values _ _ _ _ _ _ _ _ _ _ "new_password2" q Hloop Hq2)
    as [Habs|(f2 & p2 & s2 & s3 & Hf2 & _ & Hname2 & Hp2 & Hstep2)];
    [by rewrite lookup_empty in Habs|].
  apply change_field_of_name in Hf0 as (Hf0 & _ & _).
  specialize (Hf0 Hname0) as ->.
  apply change_field_of_name in Hf as (_ & Hf & _).
  specialize (Hf Hname) as ->.
  apply change_field_of_name in Hf2 as (_ & _ & Hf2).
  specialize (Hf2 Hname2) as ->.
  apply run_field_accepts_inv in Hstep0 as [Hstep0 _]; [|done].
  apply run_field_accepts_inv in Hstep as [Hstep _]; [|done].
  apply run_field_accepts_inv in Hstep2 as [Hstep2 _]; [|done].
  apply char_field_accepts_inv in Hstep0 as (-> & _).
  apply char_field_accepts_inv in Hstep as (-> & _ & Hvs & Hlen).
  apply char_field_accepts_inv in Hstep2 as (Heq & _).
  exists o, p, p2. repeat split; try done.
  apply Hvs. constructor.
Qed.

End PasswordChangePipeline.

Lemma new_password_mismatch_witness :
  PasswordChangeSerializer.run_validation (H := Examples.policy)
    (H0 := Examples.user_model) false Examples.change_mismatch
    Examples.alice
  = (Examples.alice,
     inl (ValidationError
            (DetailDict
               {[ "new_password2" :=
                    DetailList
                      [Text "Your new passwords do not match."] ]})))
  ∧ PasswordResetSerializer.run_validation (H := Examples.policy)
      (H0 := Examples.user_model) false Examples.change_mismatch
      Examples.alice
    = (Examples.alice,
       inl (ValidationError
              (DetailDict
                 {[ "new_password2" :=
                      DetailList
                        [Text "Your new passwords do not match."] ]}))).
Proof.
  assert (Examples.change_mismatch !! "new_password" = Some "Passw0rd1")
    as H1 by (vm_compute; reflexivity).
  assert (Examples.change_mismatch !! "new_password2" = Some "Passw0rd2")
    as H2 by (vm_compute; reflexivity).
  assert (8 ≤ len (strip "Passw0rd1")) as Hlen by (vm_compute; lia).
  assert (8 ≤ len (strip "Passw0rd2")) as Hlen2 by (vm_compute; lia).
  assert (Examples.policy (strip "Passw0rd1") = [])
    as Hpolicy by (vm_compute; reflexivity).
  assert (strip "Passw0rd1" ≠ strip "Passw0rd2")
    as Hne by (vm_compute; discriminate).
  split.
  - apply (proj1 (new_password_mismatch (policy := Examples.policy)
                    (model := Examples.user_model) false
                    Examples.change_mismatch Examples.alice
                    "Passw0rd1" "Passw0rd2" H1 H2 Hlen Hlen2 Hpolicy Hne)).
    left. exists "Password9". split; [vm_compute; reflexivity|].
    vm_compute. discriminate.
  - apply (proj2 (new_password_mismatch (policy := Examples.policy)
                    (model := Examples.user_model) false
                    Examples.change_mismatch Examples.alice
                    "Passw0rd1" "Passw0rd2" H1 H2 Hlen Hlen2 Hpolicy Hne)).
Defined.

Lemma password_change_update_witness :
  PasswordChangeSerializer.save (H := Examples.policy)
    (H0 := Examples.user_model) (H1 := Examples.hasher) false
    {[ "old_password" := " Password9"; "new_password" := "Passw0rd1";
       "new_password2" := "Passw0rd1 " ]} Examples.alice
  = (Examples.alice,
     inl (ValidationError
            (DetailDict
               {[ "old_password" := DetailMsg (Text "Invalid password.") ]})))
  ∧ PasswordChangeSerializer.save (H := Examples.policy)
      (H0 := Examples.user_model) (H1 := Examples.hasher) false
      {[ "old_password" := " Password1"; "new_password" := "Passw0rd1";
         "new_password2" := "Passw0rd1 " ]} Examples.alice
    = (mkAccount "Alice" "alice@example.com" "toy$1dr0wssaP"
         "2015-01-01T00:00:00Z" true,
       inr (mkAccount "Alice" "alice@example.com" "toy$1dr0wssaP"
              "2015-01-01T00:00:00Z" true)).
Proof.
  split.
  - refine (proj1 (password_change_update (policy := Examples.policy)
                     (model := Examples.user_model)
                     (hasher := Examples.hasher) false
                     {[ "old_password" := " Password9";
                        "new_password" := "Passw0rd1";
                        "new_password2" := "Passw0rd1 " ]} Examples.alice
                     " Password9" "Passw0rd1" "Passw0rd1 " _ _ _ _ _ _ _) _).
    + vm_compute. reflexivity.
    + vm_compute. reflexivity.
    + vm_compute. reflexivity.
    + vm_compute. discriminate.
    + vm_compute. lia.
    + vm_compute. reflexivity.
    + vm_compute. reflexivity.
    + vm_compute. reflexivity.
  - refine (proj2 (password_change_update (policy := Examples.policy)
                     (model := Examples.user_model)
                     (hasher := Examples.hasher) false
                     {[ "old_password" := " Password1";
                        "new_password" := "Passw0rd1";
                        "new_password2" := "Passw0rd1 " ]} Examples.alice
                     " Password1" "Passw0rd1" "Passw0rd1 " _ _ _ _ _ _ _) _).
    + vm_compute. reflexivity.
    + vm_compute. reflexivity.
    + vm_compute. reflexivity.
    + vm_compute. discriminate.
    + vm_compute. lia.
    + vm_compute. reflexivity.
    + vm_compute. reflexivity.
    + vm_compute. reflexivity.
Defined.

(** C4 as it is written fails when the new passwords differ, and when
    they are too short.  Alice submits an old password that does not
    verify together with two new passwords that differ: the answer is the
    mismatch error under [new_password2] and nothing under [old_password].
    She submits her old password, which verifies, with [Ab1] twice: the
    fields reject the new passwords and her password hash stays. *)
Lemma password_change_counterexample :
  let short : gmap string string :=
    {[ "old_password" := "Password1"; "new_password" := "Ab1";
       "new_password2" := "Ab1" ]} in
  Examples.change_mismatch !! "old_password" = Some "Password9"
  ∧ verify_password (PasswordHasher := Examples.hasher) "Password9"
      (password Examples.alice) = false
  ∧ PasswordChangeSerializer.save (H := Examples.policy)
      (H0 := Examples.user_model) (H1 := Examples.hasher) false
      Examples.change_mismatch Examples.alice
    = (Examples.alice,
       inl (ValidationError
              (DetailDict
                 {[ "new_password2" :=
                      DetailList
                        [Text "Your new passwords do not match."] ]})))
  ∧ short !! "old_password" = Some "Password1"
  ∧ verify_password (PasswordHasher := Examples.hasher) "Password1"
      (password Examples.alice) = true
  ∧ PasswordChangeSerializer.save (H := Examples.policy)
      (H0 := Examples.user_model) (H1 := Examples.hasher) false
      short Examples.alice
    = (Examples.alice,
       inl (ValidationError
              (DetailDict
                 {[ "new_password" := DetailList [MinLength 8];
                    "new_password2" := DetailList [MinLength 8] ]})))
  ∧ password Examples.alice
    ≠ make_password (PasswordHasher := Examples.hasher) "Ab1".
Proof.
  cbv zeta. split; [vm_compute; reflexivity|].
  split; [vm_compute; reflexivity|].
  split; [vm_compute; reflexivity|].
  split; [vm_compute; reflexivity|].
  split; [vm_compute; reflexivity|].
  split; [vm_compute; reflexivity|].
  vm_compute. discriminate.
Qed.

(** C5 as it is written fails on surrounding whitespace and on a field
    error.  [Passw0rd1] behind a space and [Passw0rd1] followed by a space
    differ, yet each field trims its value before [validate] compares
    them, and both serializers accept the submission.  [Ab1] and
    [Passw0rd1] differ, yet the field of [new_password] rejects the first,
    [validate] is not reached and the error dictionary holds nothing under
    [new_password2]. *)
Lemma new_password_counterexample :
  let trimmed : gmap string string :=
    {[ "old_password" := "Password1"; "new_password" := " Passw0rd1";
       "new_password2" := "Passw0rd1 " ]} in
  let short : gmap string string :=
    {[ "old_password" := "Password1"; "new_password" := "Ab1";
       "new_password2" := "Passw0rd1" ]} in
  trimmed !! "new_password" ≠ trimmed !! "new_password2"
  ∧ PasswordChangeSerializer.run_validation (H := Examples.policy)
      (H0 := Examples.user_model) false trimmed Examples.alice
    = (Examples.alice,
       inr {[ "old_password" := "Password1"; "new_password" := "Passw0rd1";
              "new_password2" := "Passw0rd1" ]})
  ∧ PasswordResetSerializer.run_validation (H := Examples.policy)
      (H0 := Examples.user_model) false trimmed Examples.alice
    = (Examples.alice,
       inr {[ "new_password" := "Passw0rd1";
              "new_password2" := "Passw0rd1" ]})
  ∧ short !! "new_password" ≠ short !! "new_password2"
  ∧ PasswordChangeSerializer.run_validation (H := Examples.policy)
      (H0 := Examples.user_model) false short Examples.alice
    = (Examples.alice,
       inl (ValidationError
              (DetailDict {[ "new_password" := DetailList [MinLength 8] ]})))
  ∧ PasswordResetSerializer.run_validation (H := Examples.policy)
      (H0 := Examples.user_model) false short Examples.alice
    = (Examples.alice,
       inl (ValidationError
              (DetailDict {[ "new_password" := DetailList [MinLength 8] ]}))).
Proof.
  cbv zeta. split; [vm_compute; discriminate|].
  split; [vm_compute; reflexivity|].
  split; [vm_compute; reflexivity|].
  split; [vm_compute; discriminate|].
  split; [vm_compute; reflexivity|].
  vm_compute. reflexivity.
Qed.

Lemma password_change_save_witness :
  PasswordChangeSerializer.save (H := Examples.policy)
    (H0 := Examples.user_model) (H1 := Examples.hasher) false
    Examples.change Examples.alice
  = if verify_password (PasswordHasher := Examples.hasher)
         (strip "Password1") (password Examples.alice)
    then (set_password_field
            (make_password (PasswordHasher := Examples.hasher)
               (strip "Passw0rd1")) Examples.alice,
          inr (set_password_field
                 (make_password (PasswordHasher := Examples.hasher)
                    (strip "Passw0rd1")) Examples.alice))
    else (Examples.alice,
          inl (ValidationError
                 (DetailDict
                    {[ "old_password" :=
                         DetailMsg (Text "Invalid password.") ]}))).
Proof.
  apply (password_change_save (policy := Examples.policy)
           (model := Examples.user_model) (hasher := Examples.hasher)
           false Examples.change Examples.alice
           "Password1" "Passw0rd1" "Passw0rd1").
  - vm_compute. reflexivity.
  - vm_compute. reflexivity.
  - vm_compute. reflexivity.
  - vm_compute. discriminate.
  - vm_compute. lia.
  - vm_compute. reflexivity.
  - reflexivity.
Defined.

Lemma password_change_mismatch_first_witness :
  PasswordChangeSerializer.save (H := Examples.policy)
    (H0 := Examples.user_model) (H1 := Examples.hasher) false
    Examples.change_mismatch Examples.alice
  = (Examples.alice,
     inl (ValidationError
            (DetailDict
               {[ "new_password2" :=
                    DetailList
                      [Text "Your new passwords do not match."] ]}))).
Proof.
  apply (password_change_mismatch_first (policy := Examples.policy)
           (model := Examples.user_model) (hasher := Examples.hasher)
           false Examples.change_mismatch Examples.alice
           "Password9" "Passw0rd1" "Passw0rd2").
  - vm_compute. reflexivity.
  - vm_compute. reflexivity.
  - vm_compute. reflexivity.
  - vm_compute. discriminate.
  - vm_compute. lia.
  - vm_compute. lia.
  - vm_compute. reflexivity.
  - vm_compute. discriminate.
Defined.

Lemma password_change_save_only_if_witness :
  ∃ o p p2,
    Examples.change !! "old_password" = Some o
    ∧ Examples.change !! "new_password" = Some p
    ∧ Examples.change !! "new_password2" = Some p2
    ∧ verify_password (PasswordHasher := Examples.hasher) (strip o)
        (password Examples.alice) = true
    ∧ strip p = strip p2
    ∧ 8 ≤ len (strip p)
    ∧ Examples.policy (strip p) = []
    ∧ set_password_field "toy$1dr0wssaP" Examples.alice
      = set_password_field
          (make_password (PasswordHasher := Examples.hasher) (strip p))
          Examples.alice
    ∧ set_password_field "toy$1dr0wssaP" Examples.alice
      = set_password_field "toy$1dr0wssaP" Examples.alice.
Proof.
  apply (password_change_save_only_if (policy := Examples.policy)
           (model := Examples.user_model) (hasher := Examples.hasher) false
           Examples.change Examples.alice
           (set_password_field "toy$1dr0wssaP" Examples.alice)
           (set_password_field "toy$1dr0wssaP" Examples.alice)).
  vm_compute. reflexivity.
Defined.

(** ** A field that is left out *)

(** In a full update, a required writable field that is not submitted puts
    the required message under its name in the error dictionary, and
    validation raises that dictionary. *)
Lemma run_validation_required {S : Type}
  (validate_method : string → option (string → M S string))
  (validate : gmap string string → M S (gmap string string))
  (pre : list Field) (f : Field) (post : list Field)
  (data : gmap string string) (s : S) :
  (∀ f' primitive', f' ∈ pre ++ f :: post →
                    ∃ r, run_field validate_method f' primitive' s
                         = (s, inr r)) →
  field_name f ∉ field_name <$> post →
  read_only f = false →
  required f = true →
  data !! field_name f = None →
  ∃ errors,
    run_validation (pre ++ f :: post) validate_method validate false data s
    = (s, inl (ValidationError (DetailDict errors)))
    ∧ errors !! field_name f = Some (DetailList [Required]).
Proof.
  intros Hstep Hpost Hro Hreq Hdata.
  destruct (loop_returns validate_method false pre data ∅ ∅ s)
    as (acc1 & errors1 & Hpre).
  { intros f' primitive' ?. apply Hstep. apply elem_of_app. by left. }
  destruct (loop_returns validate_method false post data acc1
              (<[field_name f := DetailList [Required]]> errors1) s)
    as (acc2 & errors2 & Hrest).
  { intros f' primitive' ?. apply Hstep. apply elem_of_app. right.
    by constructor. }
  assert (errors2 !! field_name f = Some (DetailList [Required])) as Herr.
  { destruct (loop_frame _ _ _ _ _ _ _ _ _ _ (field_name f) Hrest Hpost)
      as [_ ->].
    apply lookup_insert_eq. }
  exists errors2. split; [|done].
  unfold run_validation, to_internal_value, bind.
  rewrite loop_app, Hpre.
  rewrite loop_cons_missing by done. rewrite Hreq, Hrest. simpl.
  destruct (decide (errors2 = ∅)) as [->|]; [|done].
  by rewrite lookup_empty in Herr.
Qed.

Section MissingRepeat.
Context {policy : StrengthPolicy} {model : UserModel}
  {hasher : PasswordHasher}.

(** X7. A password reset submitted without [new_password2]: in a full
    update validation raises the required message under [new_password2];
    in a partial update the field is skipped, so that [validate] reads a
    key that is not there and a [KeyError], not a validation error, leaves
    the serializer, whether [new_password] was left out too or was
    accepted.  The account is as it was in both cases. *)
Theorem password_reset_missing_repeat
  (data : gmap string string) (instance : Account) :
  data !! "new_password2" = None →
  (∃ errors,
     PasswordResetSerializer.save false data instance
     = (instance, inl (ValidationError (DetailDict errors)))
     ∧ errors !! "new_password2" = Some (DetailList [Required]))
  ∧ (data !! "new_password" = None
     ∨ (∃ p, data !! "new_password" = Some p
             ∧ 8 ≤ len (strip p)
             ∧ validate_password_strength (strip p) = []) →
     PasswordResetSerializer.save true data instance
     = (instance, inl (KeyError "new_password2"))).
Proof.
  intros H2. split.
  - unfold PasswordResetSerializer.save, save, bind.
    unfold PasswordResetSerializer.run_validation.
    rewrite password_reset_fields.
    destruct (run_validation_required (λ _, None)
                (λ attrs, lift (PasswordResetSerializer.validate attrs))
                [PasswordResetSerializer.new_password]
                PasswordResetSerializer.new_password2 [] data instance)
      as (errors & Hrun & Herr); try done.
    + intros f' primitive' _. by apply run_field_pure.
    + by intros ?%elem_of_nil.
    + simpl in Hrun. rewrite Hrun. eauto.
  - intros Hcase.
    unfold PasswordResetSerializer.save, save.
    unfold PasswordResetSerializer.run_validation, run_validation,
      to_internal_value.
    rewrite password_reset_fields.
    assert (∃ acc,
              acc !! "new_password2" = None
              ∧ to_internal_value_loop (λ _, None) true
                  [PasswordResetSerializer.new_password;
                   PasswordResetSerializer.new_password2] data ∅ ∅ instance
                = (instance, inr (acc, ∅))) as (acc & Hacc & Hloop).
    { destruct Hcase as [H1|(p & H1 & Hlen & Hpolicy)].
      - exists ∅. split; [done|].
        rewrite loop_cons_missing by done.
        rewrite loop_cons_missing by done. apply loop_nil.
      - exists (<["new_password" := strip p]> ∅). split; [done|].
        rewrite (loop_cons_accepted _ _ _ _ _ _ _ _ p (strip p));
          [|done..|].
        2:{ apply run_field_accepts; [done|].
            apply char_field_accepts; [|done|].
            - intros v Hv. by apply list_elem_of_singleton in Hv as ->.
            - intros Heq. rewrite Heq in Hlen. simpl in Hlen. lia. }
        rewrite loop_cons_missing by done. apply loop_nil. }
    unfold bind. rewrite Hloop. simpl.
    destruct (decide (_ = _)); [|done].
    unfold ret, catch_validation, lift,
      PasswordResetSerializer.validate, getitem.
    by rewrite Hacc.
Qed.

End MissingRepeat.

Lemma password_reset_missing_repeat_witness :
  PasswordResetSerializer.save (H := Examples.policy)
    (H0 := Examples.user_model) (H1 := Examples.hasher) true
    {[ "new_password" := "Passw0rd1" ]} Examples.alice
  = (Examples.alice, inl (KeyError "new_password2")).
Proof.
  apply (password_reset_missing_repeat (policy := Examples.policy)
           (model := Examples.user_model) (hasher := Examples.hasher)
           {[ "new_password" := "Passw0rd1" ]} Examples.alice).
  - vm_compute. reflexivity.
  - right. exists "Passw0rd1". split; [vm_compute; reflexivity|].
    split; [vm_compute; lia | vm_compute; reflexivity].
Defined.

(** ** Profile updates *)

(** A model serializer without methods of its own whose only writable
    field is [name], with the [CharField] [cf]: saving either raises and
    leaves the account as it was, or had no name to set and returns the
    account as it was, or sets the name to what [cf] accepted of the
    submitted name and changes nothing else. *)
Lemma name_only_save (fields : list Field) (cf : CharField)
  (partial : bool) (data : gmap string string) (instance : Account) :
  (∀ f, f ∈ fields → read_only f = false →
        field_name f = "name" ∧ char f = cf) →
  (∃ e,
     save (run_validation fields (λ _, None) ret partial) model_update
       data instance
     = (instance, inl e))
  ∨ (data !! "name" = None ∨ (∀ f, f ∈ fields → read_only f = true))
    ∧ save (run_validation fields (λ _, None) ret partial) model_update
        data instance
      = (instance, inr instance)
  ∨ (∃ n v,
       data !! "name" = Some n
       ∧ char_run_validation cf n = inr v
       ∧ save (run_validation fields (λ _, None) ret partial) model_update
           data instance
         = (set_name v instance, inr (set_name v instance))).
Proof.
  intros Hw. unfold save, bind.
  destruct (run_validation_cases fields (λ _, None) ret partial data instance)
    as (r & -> & Hr).
  { intros f primitive _. by apply run_field_pure. }
  { intros attrs. unfold ret. eauto. }
  destruct r as [e|validated]; [by left; eauto|]. right.
  destruct (Hr validated eq_refl) as (acc & [= <-] & Hloop).
  assert (∀ k, is_Some (acc !! k) → k = "name") as Hkeys.
  { intros k Hk.
    destruct (loop_keys _ _ _ _ _ _ _ _ _ _ k Hloop Hk)
      as [[? Habs]|(f & Hf & Hro & <-)];
      [by rewrite lookup_empty in Habs|].
    by apply Hw. }
  unfold model_update, bind, modify, get.
  destruct (acc !! "name") as [v|] eqn:Hname.
  - right.
    destruct (loop_values _ _ _ _ _ _ _ _ _ _ "name" v Hloop Hname)
      as [Habs|(f & n & s0 & s1 & Hf & Hro & Hfn & Hn & Hstep)];
      [by rewrite lookup_empty in Habs|].
    apply run_field_accepts_inv in Hstep as [Hstep _]; [|done].
    destruct (Hw f Hf Hro) as [_ <-].
    exists n, v. split; [done|]. split; [done|].
    assert (acc = {[ "name" := v ]}) as ->.
    { apply map_eq. intros k.
      destruct (decide (k = "name")) as [->|Hne].
      - by rewrite lookup_singleton_eq.
      - rewrite lookup_singleton_ne by done.
        destruct (acc !! k) eqn:Hk; [|done].
        exfalso. apply Hne, Hkeys. eauto. }
    by rewrite map_fold_singleton.
  - left.
    assert (acc = ∅) as Hempty.
    { apply map_eq. intros k. rewrite lookup_empty.
      destruct (acc !! k) eqn:Hk; [|done].
      assert (k = "name") as -> by (apply Hkeys; eauto). congruence. }
    subst acc. split; [|by rewrite map_fold_empty].
    destruct (data !! "name") as [n|] eqn:Hn; [|by left]. right.
    intros f Hf. destruct (read_only f) eqn:Hro; [done|].
    destruct (Hw f Hf Hro) as [Hfn _].
    destruct (loop_success_field (λ _, None) partial fields data ∅
                instance instance ∅ f Hloop Hf Hro) as [[? Habs] _].
    { left. rewrite Hfn, Hn. eauto. }
    by rewrite lookup_empty in Habs.
Qed.

Section ProfileUpdates.
Context {model : UserModel}.

(** The fields of the two serializers, as [get_fields] builds them. *)
Lemma profile_fields :
  ProfileSerializer.fields
  = [mkField "name" (negb (column_editable (columns "name")) || false) false
       (negb (negb (column_editable (columns "name")) || false)
        && column_required (columns "name"))
       (column_char (columns "name"));
     mkField "email" (negb (column_editable (columns "email")) || true) false
       (negb (negb (column_editable (columns "email")) || true)
        && column_required (columns "email"))
       (column_char (columns "email"));
     mkField "date_joined"
       (negb (column_editable (columns "date_joined")) || true) false
       (negb (negb (column_editable (columns "date_joined")) || true)
        && column_required (columns "date_joined"))
       (column_char (columns "date_joined"))].
Proof. reflexivity. Qed.

Lemma user_fields :
  UserSerializer.fields
  = mkField "url" true false false (column_char (columns "url"))
    :: ProfileSerializer.fields.
Proof. reflexivity. Qed.

Lemma profile_writable_char f :
  f ∈ ProfileSerializer.fields → read_only f = false →
  field_name f = "name" ∧ char f = column_char (columns "name").
Proof.
  rewrite profile_fields. rewrite !elem_of_cons, elem_of_nil.
  intros [->|[->|[->|[]]]]; simpl; [done|..].
  - by rewrite orb_true_r.
  - by rewrite orb_true_r.
Qed.

Lemma user_writable_char f :
  f ∈ UserSerializer.fields → read_only f = false →
  field_name f = "name" ∧ char f = column_char (columns "name").
Proof.
  rewrite user_fields. intros [->|Hf]%elem_of_cons; [done|].
  by apply profile_writable_char.
Qed.

(** X8. All a profile update can do is rename: whatever is submitted, in a
    full or a partial update, saving through [ProfileSerializer] (or
    [UserSerializer]) either raises and leaves the account as it was, or
    returns the account as it was, or replaces the name by what the name
    field of the model accepted of the submitted name and leaves every
    other attribute, the password hash and the verification flag
    included, as it was. *)
Theorem profile_save_only_renames
  (partial : bool) (data : gmap string string) (instance : Account) :
  ((∃ e, ProfileSerializer.save partial data instance = (instance, inl e))
   ∨ ProfileSerializer.save partial data instance = (instance, inr instance)
   ∨ (∃ n v,
        data !! "name" = Some n
        ∧ char_run_validation (column_char (columns "name")) n = inr v
        ∧ ProfileSerializer.save partial data instance
          = (set_name v instance, inr (set_name v instance))))
  ∧ ((∃ e, UserSerializer.save partial data instance = (instance, inl e))
     ∨ UserSerializer.save partial data instance = (instance, inr instance)
     ∨ (∃ n v,
          data !! "name" = Some n
          ∧ char_run_validation (column_char (columns "name")) n = inr v
          ∧ UserSerializer.save partial data instance
            = (set_name v instance, inr (set_name v instance)))).
Proof.
  split.
  - destruct (name_only_save ProfileSerializer.fields
                (column_char (columns "name")) partial data instance
                profile_writable_char) as [?|[[_ ?]|?]]; auto.
  - destruct (name_only_save UserSerializer.fields
                (column_char (columns "name")) partial data instance
                user_writable_char) as [?|[[_ ?]|?]]; auto.
Qed.

Lemma profile_loop_name (partial : bool) (data : gmap string string)
  (instance : Account) (n v : string) :
  column_editable (columns "name") = true →
  data !! "name" = Some n →
  char_run_validation (column_char (columns "name")) n = inr v →
  to_internal_value_loop (λ _, None) partial ProfileSerializer.fields
    data ∅ ∅ instance
  = (instance, inr ({[ "name" := v ]}, ∅)).
Proof.
  intros Hedit Hn Hv. rewrite profile_fields.
  rewrite (loop_cons_accepted _ _ _ _ _ _ _ _ n v); [| |done|].
  2:{ simpl. by rewrite Hedit. }
  2:{ by apply run_field_accepts. }
  rewrite loop_cons_read_only by (simpl; by rewrite orb_true_r).
  rewrite loop_cons_read_only by (simpl; by rewrite orb_true_r).
  apply loop_nil.
Qed.

(** X9. When the name column of the model is editable and its field
    accepts the submitted name, a profile update through
    [ProfileSerializer] or [UserSerializer] sets the name to the accepted
    value and returns the account; an email, a date of joining, a url or
    anything else submitted beside it has no effect. *)
Theorem profile_save_sets_name
  (partial : bool) (data : gmap string string) (instance : Account)
  (n v : string) :
  column_editable (columns "name") = true →
  data !! "name" = Some n →
  char_run_validation (column_char (columns "name")) n = inr v →
  ProfileSerializer.save partial data instance
  = (set_name v instance, inr (set_name v instance))
  ∧ UserSerializer.save partial data instance
    = (set_name v instance, inr (set_name v instance)).
Proof.
  intros Hedit Hn Hv.
  assert (∀ fields,
            to_internal_value_loop (λ _, None) partial fields data ∅ ∅
              instance
            = (instance, inr ({[ "name" := v ]}, ∅)) →
            save (run_validation fields (λ _, None) ret partial)
              model_update data instance
            = (set_name v instance, inr (set_name v instance))) as Hsave.
  { intros fields Hloop.
    unfold save, run_validation, to_internal_value, bind.
    rewrite Hloop. simpl. destruct (decide (_ = _)); [|done].
    unfold ret, catch_validation, model_update, bind, modify, get.
    by rewrite map_fold_singleton. }
  split; apply Hsave.
  - by apply profile_loop_name with n.
  - rewrite user_fields. rewrite loop_cons_read_only by done.
    by apply profile_loop_name with n.
Qed.

(** X10. A partial profile update that submits no name changes nothing and
    returns the account as it is; a full update that submits no name,
    when the name column is editable and required, is rejected with the
    required message under [name]. *)
Theorem profile_save_without_name
  (data : gmap string string) (instance : Account) :
  data !! "name" = None →
  ProfileSerializer.save true data instance = (instance, inr instance)
  ∧ (column_editable (columns "name") = true →
     column_required (columns "name") = true →
     ∃ errors,
       ProfileSerializer.save false data instance
       = (instance, inl (ValidationError (DetailDict errors)))
       ∧ errors !! "name" = Some (DetailList [Required])).
Proof.
  intros Hn. split.
  - unfold ProfileSerializer.save, save, ProfileSerializer.run_validation,
      run_validation, to_internal_value, bind.
    assert (to_internal_value_loop (λ _, None) true ProfileSerializer.fields
              data ∅ ∅ instance
            = (instance, inr (∅, ∅))) as ->.
    { rewrite profile_fields.
      destruct (column_editable (columns "name")).
      - rewrite loop_cons_missing by done.
        rewrite loop_cons_read_only by (simpl; by rewrite orb_true_r).
        rewrite loop_cons_read_only by (simpl; by rewrite orb_true_r).
        apply loop_nil.
      - rewrite loop_cons_read_only by done.
        rewrite loop_cons_read_only by (simpl; by rewrite orb_true_r).
        rewrite loop_cons_read_only by (simpl; by rewrite orb_true_r).
        apply loop_nil. }
    simpl. destruct (decide (_ = _)); [|done].
    unfold ret, catch_validation, model_update, bind, modify, get.
    by rewrite map_fold_empty.
  - intros Hedit Hreq.
    unfold ProfileSerializer.save, save, ProfileSerializer.run_validation,
      bind.
    rewrite profile_fields.
    lazymatch goal with
    | |- context [run_validation (?f :: ?post) ?hooks ?validate] =>
        destruct (run_validation_required hooks validate [] f post
                    data instance)
          as (errors & Hrun & Herr)
    end.
    + intros f' primitive' _. by apply run_field_pure.
    + simpl. repeat (apply not_elem_of_cons; split; [done|]).
      apply not_elem_of_nil.
    + simpl. by rewrite Hedit.
    + simpl. by rewrite Hedit, Hreq.
    + exact Hn.
    + simpl in Hrun. rewrite Hrun. eauto.
Qed.

End ProfileUpdates.

Lemma profile_save_sets_name_witness :
  ProfileSerializer.save (H := Examples.user_model) false Examples.profile
    Examples.alice
  = (set_name "Alice Liddell" Examples.alice,
     inr (set_name "Alice Liddell" Examples.alice))
  ∧ UserSerializer.save (H := Examples.user_model) false Examples.profile
      Examples.alice
    = (set_name "Alice Liddell" Examples.alice,
       inr (set_name "Alice Liddell" Examples.alice)).
Proof.
  apply (profile_save_sets_name (model := Examples.user_model) false
           Examples.profile Examples.alice " Alice Liddell "
           "Alice Liddell").
  - vm_compute. reflexivity.
  - vm_compute. reflexivity.
  - vm_compute. reflexivity.
Defined.

Lemma profile_save_without_name_witness :
  ProfileSerializer.save (H := Examples.user_model) true
    {[ "email" := "mallory@example.com" ]} Examples.alice
  = (Examples.alice, inr Examples.alice).
Proof.
  apply (profile_save_without_name (model := Examples.user_model)
           {[ "email" := "mallory@example.com" ]} Examples.alice).
  vm_compute. reflexivity.
Defined.

(** ** Creating accounts *)

(** The attributes of an account built by setting the attributes of a
    dictionary one after the other: each text attribute is the value under
    its name, or the attribute it had. *)
Lemma setattr_fold_attrs (kwargs : gmap string string) (start : Account) :
  name (map_fold (λ k v a, setattr a k v) start kwargs)
  = from_option id (name start) (kwargs !! "name")
  ∧ email (map_fold (λ k v a, setattr a k v) start kwargs)
    = from_option id (email start) (kwargs !! "email")
  ∧ password (map_fold (λ k v a, setattr a k v) start kwargs)
    = from_option id (password start) (kwargs !! "password")
  ∧ date_joined (map_fold (λ k v a, setattr a k v) start kwargs)
    = from_option id (date_joined start) (kwargs !! "date_joined")
  ∧ (kwargs !! "email_verification_required" = None →
     email_verification_required
       (map_fold (λ k v a, setattr a k v) start kwargs)
     = email_verification_required start).
Proof.
  apply (map_fold_weak_ind
           (λ r m,
              name r = from_option id (name start) (m !! "name")
              ∧ email r = from_option id (email start) (m !! "email")
              ∧ password r = from_option id (password start) (m !! "password")
              ∧ date_joined r
                = from_option id (date_joined start) (m !! "date_joined")
              ∧ (m !! "email_verification_required" = None →
                 email_verification_required r
                 = email_verification_required start))).
  - by rewrite !lookup_empty.
  - intros i x m r Hi (Hn & He & Hp & Hd & Hf). unfold setattr.
    repeat case_decide; subst; simpl;
      rewrite ?lookup_insert_eq; rewrite ?lookup_insert_ne by done;
      repeat split; done.
Qed.

Lemma init_cases (start : Account) (kwargs : gmap string string) :
  (∀ k, is_Some (kwargs !! k) → k ∈ model_fields) →
  init start kwargs = inr (map_fold (λ k v a, setattr a k v) start kwargs).
Proof.
  intros Hkeys. unfold init.
  destruct (filter _ _) as [|k l] eqn:Hfilter; [done|].
  assert (k ∈ filter (λ k, k ∉ model_fields) (elements (dom kwargs)))
    as Hk by (rewrite Hfilter; constructor).
  apply list_elem_of_filter in Hk as [Hnot Hk].
  apply elem_of_elements, elem_of_dom in Hk. exfalso. by apply Hnot, Hkeys.
Qed.

Lemma init_inv (start : Account) (kwargs : gmap string string) a :
  init start kwargs = inr a →
  a = map_fold (λ k v a, setattr a k v) start kwargs.
Proof.
  unfold init. destruct (filter _ _); [|done]. by intros [= <-].
Qed.

(** [User.objects.create] either raises and leaves the table as it was, or
    adds the account it returns under the account's email, which was
    free. *)
Lemma create_cases (start : Account) (kwargs : gmap string string)
  (db : DB) :
  (∃ e, Models.create start kwargs db = (db, inl e))
  ∨ (∃ a,
       init start kwargs = inr a
       ∧ db !! email a = None
       ∧ Models.create start kwargs db = (<[email a := a]> db, inr a)).
Proof.
  unfold Models.create, bind, lift, get, modify, raise, ret.
  destruct (init start kwargs) as [e|a]; [by left; eauto|].
  destruct (db !! email a) eqn:Hdb; [by left; eauto|].
  right. by exists a.
Qed.

(** ** Registration through the serializer *)

Section RegistrationPipeline.
Context {policy : StrengthPolicy} {model : UserModel}.

Lemma registration_field_names f :
  f ∈ RegistrationSerializer.fields →
  field_name f ∈ ["name"; "email"; "password"; "password2"].
Proof.
  rewrite registration_fields. simpl.
  rewrite !elem_of_cons, elem_of_nil.
  intros [->|[->|[->|[->|[]]]]]; simpl; auto.
Qed.

(** What the email field of the registration serializer returns went
    through the mixin: it is the lowercase form of what the field of the
    model accepted, and there was no account under it. *)
Lemma registration_email_step_inv f primitive v db db' :
  field_name f = "email" →
  run_field RegistrationSerializer.validate_method f primitive db
  = (db', inr (inr v)) →
  db' = db
  ∧ get_by_natural_key db v = None
  ∧ ∃ v0, char_run_validation (char f) primitive = inr v0 ∧ v = lower v0.
Proof.
  intros Hf. unfold run_field, catch_validation, bind, lift, get.
  unfold RegistrationSerializer.validate_method. rewrite Hf.
  rewrite decide_True by done.
  destruct (char_run_validation (char f) primitive) as [[]|v0];
    try (by intros [=]).
  validate_email_body. unfold bind, lift, get.
  cbv beta zeta.
  destruct (get_by_natural_key db (lower v0)) eqn:Hk; simpl;
    [by intros [=]|].
  intros [= <- <-]. eauto.
Qed.

Lemma registration_email_step f primitive v0 db :
  field_name f = "email" →
  char_run_validation (char f) primitive = inr v0 →
  get_by_natural_key db (lower v0) = None →
  run_field RegistrationSerializer.validate_method f primitive db
  = (db, inr (inr (lower v0))).
Proof.
  intros Hf Hv Hk. unfold run_field, catch_validation, bind, lift, get.
  unfold RegistrationSerializer.validate_method. rewrite Hf.
  rewrite decide_True by done. rewrite Hv.
  validate_email_body. unfold bind, lift, get.
  cbv beta zeta. by rewrite Hk.
Qed.

Lemma registration_run_validation_cases (data : gmap string string)
  (db : DB) :
  ∃ r,
    RegistrationSerializer.run_validation data db = (db, r)
    ∧ ∀ validated,
        r = inr validated →
        ∃ acc,
          validated = delete "password2" acc
          ∧ to_internal_value_loop RegistrationSerializer.validate_method
              false RegistrationSerializer.fields data ∅ ∅ db
            = (db, inr (acc, ∅)).
Proof.
  destruct (run_validation_cases RegistrationSerializer.fields
              RegistrationSerializer.validate_method
              (λ attrs, lift (RegistrationSerializer.validate attrs))
              false data db) as (r & Hrun & Hr).
  - intros f primitive _. apply registration_field_returns.
  - intros attrs. unfold lift. eauto.
  - exists r. split; [exact Hrun|]. intros validated ->.
    destruct (Hr validated eq_refl) as (acc & Hv & Hloop).
    unfold lift in Hv. injection Hv as Hv.
    apply registration_validate_returns in Hv. eauto.
Qed.

(** A registration that is saved: the validated data are the values the
    loop collected, less [password2]; the account was built from them and
    from the defaults of the model and added to the table under its email,
    which was free. *)
Lemma registration_save_inv (data : gmap string string) (db db' : DB)
  (a : Account) :
  RegistrationSerializer.save data db = (db', inr a) →
  ∃ acc,
    to_internal_value_loop RegistrationSerializer.validate_method
      false RegistrationSerializer.fields data ∅ ∅ db
    = (db, inr (acc, ∅))
    ∧ a = map_fold (λ k v a, setattr a k v) defaults
            (delete "password2" acc)
    ∧ db !! email a = None
    ∧ db' = <[email a := a]> db.
Proof.
  unfold RegistrationSerializer.save, save, bind.
  destruct (registration_run_validation_cases data db) as (r & -> & Hr).
  destruct r as [e|validated]; [done|].
  destruct (Hr validated eq_refl) as (acc & -> & Hloop).
  unfold RegistrationSerializer.create.
  destruct (create_cases defaults (delete "password2" acc) db)
    as [[e ->]|(a' & Hinit & Hfree & ->)]; [done|].
  intros [= <- <-]. exists acc. split; [done|].
  split; [by apply init_inv|]. by split.
Qed.

(** X11. A registration never changes or removes an account that is
    already in the table: when saving raises, at whatever stage, the table
    is as it was; when it returns the new account, the table is the old
    one with that account added under its own email, a key that was
    free. *)
Theorem registration_keeps_accounts
  (data : gmap string string) (db db' : DB) (r : result Account) :
  RegistrationSerializer.save data db = (db', r) →
  (∀ k account, db !! k = Some account → db' !! k = Some account)
  ∧ (∀ e, r = inl e → db' = db)
  ∧ (∀ a, r = inr a →
          db !! email a = None ∧ db' = <[email a := a]> db
          ∧ db' !! email a = Some a).
Proof.
  intros Hsave.
  assert (db' = db ∧ (∃ e, r = inl e)
          ∨ ∃ a, r = inr a ∧ db !! email a = None
                 ∧ db' = <[email a := a]> db) as Hcases.
  { destruct r as [e|a].
    - left. split; [|by eauto]. revert Hsave.
      unfold RegistrationSerializer.save, save, bind.
      destruct (registration_run_validation_cases data db) as (r & -> & _).
      destruct r as [e'|validated]; [by intros [= <- _]|].
      unfold RegistrationSerializer.create.
      destruct (create_cases defaults validated db)
        as [[e' ->]|(a' & _ & _ & ->)]; [by intros [= <- _] | done].
    - right. exists a.
      apply registration_save_inv in Hsave as (acc & _ & _ & ? & ?).
      done. }
  destruct Hcases as [[-> [e ->]]|(a & -> & Hfree & ->)].
  - split; [done|]. split; [done|]. by intros a [=].
  - split; [|split; [by intros e [=]|]].
    + intros k account Hk. rewrite lookup_insert_ne; [done|].
      intros <-. congruence.
    + intros a' [= <-]. split; [done|]. split; [done|].
      apply lookup_insert_eq.
Qed.

End RegistrationPipeline.

Section RegistrationOutcomes.
Context {policy : StrengthPolicy} {model : UserModel}.

(** X12. A registration whose name and email the fields of the model
    accept, whose two passwords are equal, of at least 8 characters once
    trimmed and pass the strength policy, and under whose lowercased email
    there is no account, creates the account: its name is the accepted
    name, its email the lowercase form of the accepted email, its password
    attribute the trimmed password as it was submitted, its date of
    joining and verification flag those the model starts an account with;
    the table holds it under the lowercase email. *)
Theorem registration_creates_account
  (data : gmap string string) (db : DB) (n n' E e' p : string) :
  column_editable (columns "name") = true →
  column_editable (columns "email") = true →
  data !! "name" = Some n →
  char_run_validation (column_char (columns "name")) n = inr n' →
  data !! "email" = Some E →
  char_run_validation (column_char (columns "email")) E = inr e' →
  data !! "password" = Some p →
  data !! "password2" = Some p →
  8 ≤ len (strip p) →
  validate_password_strength (strip p) = [] →
  get_by_natural_key db (lower e') = None →
  RegistrationSerializer.save data db
  = (<[lower e' :=
         mkAccount n' (lower e') (strip p) (date_joined defaults)
           (email_verification_required defaults)]> db,
     inr (mkAccount n' (lower e') (strip p) (date_joined defaults)
            (email_verification_required defaults))).
Proof.
  intros Hen Hee Hn Hn' HE He' Hp Hp2 Hlen Hpolicy Hfree.
  assert (strip p ≠ EmptyString) as Hne.
  { intros Heq. rewrite Heq in Hlen. simpl in Hlen. lia. }
  set (acc := <["password2" := strip p]>
                (<["password" := strip p]>
                   (<["email" := lower e']> (<["name" := n']> ∅)))
              : gmap string string).
  assert (to_internal_value_loop RegistrationSerializer.validate_method
            false RegistrationSerializer.fields data ∅ ∅ db
          = (db, inr (acc, ∅))) as Hloop.
  { rewrite registration_fields. cbn [app].
    rewrite (loop_cons_accepted _ _ _ _ _ _ _ _ n n'); [| |done|].
    2:{ simpl. by rewrite Hen. }
    2:{ by apply run_field_accepts. }
    rewrite (loop_cons_accepted _ _ _ _ _ _ _ _ E (lower e')); [| |done|].
    2:{ simpl. by rewrite Hee. }
    2:{ by apply registration_email_step. }
    rewrite (loop_cons_accepted _ _ _ _ _ _ _ _ p (strip p)); [|done..|].
    2:{ apply run_field_accepts; [done|].
        apply char_field_accepts; [|done..].
        intros v Hv. by apply list_elem_of_singleton in Hv as ->. }
    rewrite (loop_cons_accepted _ _ _ _ _ _ _ _ p (strip p)); [|done..|].
    2:{ apply run_field_accepts; [done|].
        apply char_field_accepts; [|done..].
        intros v Hv. by apply elem_of_nil in Hv. }
    apply loop_nil. }
  set (kwargs := <["password" := strip p]>
                   (<["email" := lower e']> (<["name" := n']> ∅))
                 : gmap string string).
  assert (delete "password2" acc = kwargs) as Hkwargs.
  { unfold acc. by rewrite delete_insert_id. }
  set (a := mkAccount n' (lower e') (strip p) (date_joined defaults)
              (email_verification_required defaults)).
  assert (init defaults kwargs = inr a) as Hinit.
  { rewrite init_cases.
    - reflexivity.
    - intros k. unfold kwargs, model_fields.
      rewrite !lookup_insert_is_Some', lookup_empty.
      rewrite !elem_of_cons.
      intros [<-|[<-|[<-|[? Habs]]]]; [auto..|done]. }
  assert (RegistrationSerializer.validate acc = inr kwargs) as Hvalidate.
  { rewrite (registration_validate_ok acc (strip p)).
    - by rewrite Hkwargs.
    - apply lookup_insert_eq.
    - unfold acc. rewrite lookup_insert_ne by done. apply lookup_insert_eq. }
  assert (email a = lower e') as Hemail by reflexivity.
  clearbody acc kwargs a.
  unfold RegistrationSerializer.save, save, bind.
  unfold RegistrationSerializer.run_validation, run_validation,
    to_internal_value, bind.
  rewrite Hloop. cbn [fst snd]. rewrite decide_True by reflexivity.
  unfold ret, catch_validation, lift. cbv beta iota.
  rewrite Hvalidate.
  unfold RegistrationSerializer.create, Models.create, bind, lift, get,
    modify, ret.
  rewrite Hinit. cbv beta iota. unfold get_by_natural_key in Hfree.
  rewrite Hemail. by rewrite Hfree.
Qed.

(** X13. An email is registered once, whatever its letter case: after a
    registration has been saved, a second registration whose email, as the
    email field of the model accepts it, has the lowercase form of the
    stored email of the first is rejected with the duplicate message under
    [email], and the table is as the first registration left it. *)
Theorem registration_twice_rejected
  (data data2 : gmap string string) (db db' : DB) (a : Account)
  (E2 v2 : string) :
  RegistrationSerializer.save data db = (db', inr a) →
  column_editable (columns "email") = true →
  data2 !! "email" = Some E2 →
  char_run_validation (column_char (columns "email")) E2 = inr v2 →
  lower v2 = email a →
  ∃ errors,
    RegistrationSerializer.save data2 db'
    = (db', inl (ValidationError (DetailDict errors)))
    ∧ errors !! "email"
      = Some (DetailList
                [Text "That email address has already been registered."]).
Proof.
  intros Hsave Hedit Hdata Hvalue Hlower.
  apply registration_save_inv in Hsave as (_ & _ & _ & _ & ->).
  unfold RegistrationSerializer.save, save, bind.
  unfold RegistrationSerializer.run_validation.
  rewrite registration_fields.
  set (msg := Text "That email address has already been registered.").
  lazymatch goal with
  | |- context [run_validation (?pre ++ ?f :: ?post) ?hooks ?validate] =>
      destruct (run_validation_rejects hooks false validate pre f post
                  data2 (<[email a := a]> db) E2 (DetailList [msg]))
        as (errors & Hrun & Herr); last (rewrite Hrun; by eauto)
  end.
  - intros f' primitive' _. apply registration_field_returns.
  - simpl. repeat (apply not_elem_of_cons; split; [done|]).
    apply not_elem_of_nil.
  - simpl. by rewrite Hedit.
  - exact Hdata.
  - unfold run_field, catch_validation. simpl.
    unfold bind, lift, get. rewrite Hvalue.
    validate_email_body. unfold get_by_natural_key.
    cbv beta zeta. rewrite Hlower. by rewrite lookup_insert_eq.
Qed.

(** Four submitted values that their fields accept, the email through the
    mixin, are validated to the accepted name, the lowercased email and the
    trimmed passwords. *)
Lemma registration_to_internal_value
  (data : gmap string string) (db : DB) (n n' E e' p p2 : string) :
  column_editable (columns "name") = true →
  column_editable (columns "email") = true →
  data !! "name" = Some n →
  char_run_validation (column_char (columns "name")) n = inr n' →
  data !! "email" = Some E →
  char_run_validation (column_char (columns "email")) E = inr e' →
  data !! "password" = Some p →
  data !! "password2" = Some p2 →
  8 ≤ len (strip p) →
  8 ≤ len (strip p2) →
  validate_password_strength (strip p) = [] →
  get_by_natural_key db (lower e') = None →
  to_internal_value_loop RegistrationSerializer.validate_method
    false RegistrationSerializer.fields data ∅ ∅ db
  = (db,
     inr (<["password2" := strip p2]>
            (<["password" := strip p]>
               (<["email" := lower e']> (<["name" := n']> ∅))), ∅)).
Proof.
  intros Hen Hee Hn Hn' HE He' Hp Hp2 Hlen Hlen2 Hpolicy Hfree.
  assert (∀ q, 8 ≤ len (strip q) → strip q ≠ EmptyString) as Hne.
  { intros q Hq Heq. rewrite Heq in Hq. simpl in Hq. lia. }
  rewrite registration_fields. cbn [app].
  rewrite (loop_cons_accepted _ _ _ _ _ _ _ _ n n'); [| |done|].
  2:{ simpl. by rewrite Hen. }
  2:{ by apply run_field_accepts. }
  rewrite (loop_cons_accepted _ _ _ _ _ _ _ _ E (lower e')); [| |done|].
  2:{ simpl. by rewrite Hee. }
  2:{ by apply registration_email_step. }
  rewrite (loop_cons_accepted _ _ _ _ _ _ _ _ p (strip p)); [|done..|].
  2:{ apply run_field_accepts; [done|].
      apply char_field_accepts; [|done|by apply Hne].
      intros v Hv. by apply list_elem_of_singleton in Hv as ->. }
  rewrite (loop_cons_accepted _ _ _ _ _ _ _ _ p2 (strip p2)); [|done..|].
  2:{ apply run_field_accepts; [done|].
      apply char_field_accepts; [|done|by apply Hne].
      intros v Hv. by apply elem_of_nil in Hv. }
  apply loop_nil.
Qed.

(** Once the fields have been accepted, validation is what [validate]
    makes of their values. *)
Lemma registration_run_validation_of_loop
  (data : gmap string string) (db : DB) (acc : gmap string string) :
  to_internal_value_loop RegistrationSerializer.validate_method
    false RegistrationSerializer.fields data ∅ ∅ db
  = (db, inr (acc, ∅)) →
  RegistrationSerializer.run_validation data db
  = (db,
     match RegistrationSerializer.validate acc with
     | inl (ValidationError d) => inl (ValidationError (as_serializer_error d))
     | r => r
     end).
Proof.
  intros Hloop.
  unfold RegistrationSerializer.run_validation, run_validation,
    to_internal_value, bind.
  rewrite Hloop. cbn [fst snd]. rewrite decide_True by reflexivity.
  unfold ret, catch_validation, lift, raise.
  by destruct (RegistrationSerializer.validate acc) as [[]|].
Qed.

(** C3, amended. A registration whose four fields are accepted (a name and
    an email the fields of the model accept, no account under the
    lowercased email, passwords of at least 8 characters once trimmed, the
    first passing the strength policy): when [password] and [password2]
    differ once trimmed, validation fails with the mismatch message under
    the key [password2] and the table of accounts is as it was; when they
    are equal once trimmed, validation returns the name, the lowercased
    email and the trimmed password, without [password2], and these are the
    data the account is created from. *)
Theorem registration_password_mismatch
  (data : gmap string string) (db : DB) (n n' E e' p p2 : string) :
  column_editable (columns "name") = true →
  column_editable (columns "email") = true →
  data !! "name" = Some n →
  char_run_validation (column_char (columns "name")) n = inr n' →
  data !! "email" = Some E →
  char_run_validation (column_char (columns "email")) E = inr e' →
  data !! "password" = Some p →
  data !! "password2" = Some p2 →
  8 ≤ len (strip p) →
  8 ≤ len (strip p2) →
  validate_password_strength (strip p) = [] →
  get_by_natural_key db (lower e') = None →
  (strip p ≠ strip p2 →
   RegistrationSerializer.run_validation data db
   = (db,
      inl (ValidationError
             (DetailDict
                {[ "password2" :=
                     DetailList [Text "Your passwords do not match."] ]}))))
  ∧ (strip p = strip p2 →
     RegistrationSerializer.run_validation data db
     = (db,
        inr (<["password" := strip p]>
               (<["email" := lower e']> (<["name" := n']> ∅))))
     ∧ (<["password" := strip p]>
          (<["email" := lower e']> (<["name" := n']> ∅)) : gmap string string)
       !! "password2" = None
     ∧ RegistrationSerializer.save data db
       = RegistrationSerializer.create
           (<["password" := strip p]>
              (<["email" := lower e']> (<["name" := n']> ∅))) db).
Proof.
  intros Hen Hee Hn Hn' HE He' Hp Hp2 Hlen Hlen2 Hpolicy Hfree.
  pose proof (registration_to_internal_value data db n n' E e' p p2
                Hen Hee Hn Hn' HE He' Hp Hp2 Hlen Hlen2 Hpolicy Hfree)
    as Hloop.
  apply registration_run_validation_of_loop in Hloop.
  split.
  - intros Hne. rewrite Hloop.
    rewrite (registration_validate_mismatch _ (strip p2)).
    + simpl. by rewrite map_fmap_singleton.
    + apply lookup_insert_eq.
    + rewrite lookup_insert_ne by done. rewrite lookup_insert_eq.
      by intros [= ?].
  - intros Heq.
    assert (RegistrationSerializer.run_validation data db
            = (db,
               inr (<["password" := strip p]>
                      (<["email" := lower e']> (<["name" := n']> ∅)))))
      as Hrun.
    { rewrite Hloop.
      rewrite (registration_validate_ok _ (strip p2)).
      - by rewrite delete_insert_id.
      - apply lookup_insert_eq.
      - rewrite lookup_insert_ne by done. rewrite lookup_insert_eq.
        by rewrite Heq. }
    split; [exact Hrun|]. split; [done|].
    unfold RegistrationSerializer.save, save, bind. by rewrite Hrun.
Qed.

End RegistrationOutcomes.

Lemma registration_password_mismatch_witness :
  RegistrationSerializer.run_validation (H := Examples.policy)
    (H0 := Examples.user_model)
    {[ "name" := "Dora"; "email" := "Dora@Example.com";
       "password" := "Passw0rd1"; "password2" := "Passw0rd2" ]}
    Examples.db
  = (Examples.db,
     inl (ValidationError
            (DetailDict
               {[ "password2" :=
                    DetailList [Text "Your passwords do not match."] ]})))
  ∧ RegistrationSerializer.run_validation (H := Examples.policy)
      (H0 := Examples.user_model) Examples.registration Examples.db
    = (Examples.db,
       inr {[ "name" := "Dora"; "email" := "dora@example.com";
              "password" := "Passw0rd1" ]}).
Proof.
  split.
  - refine (proj1 (registration_password_mismatch (policy := Examples.policy)
                     (model := Examples.user_model)
                     {[ "name" := "Dora"; "email" := "Dora@Example.com";
                        "password" := "Passw0rd1";
                        "password2" := "Passw0rd2" ]}
                     Examples.db "Dora" "Dora" "Dora@Example.com"
                     "Dora@Example.com" "Passw0rd1" "Passw0rd2"
                     _ _ _ _ _ _ _ _ _ _ _ _) _).
    + vm_compute. reflexivity.
    + vm_compute. reflexivity.
    + vm_compute. reflexivity.
    + vm_compute. reflexivity.
    + vm_compute. reflexivity.
    + vm_compute. reflexivity.
    + vm_compute. reflexivity.
    + vm_compute. reflexivity.
    + vm_compute. lia.
    + vm_compute. lia.
    + vm_compute. reflexivity.
    + vm_compute. reflexivity.
    + vm_compute. discriminate.
  - refine (proj1 (proj2 (registration_password_mismatch
                            (policy := Examples.policy)
                            (model := Examples.user_model)
                            Examples.registration
                            Examples.db "Dora" "Dora" "Dora@Example.com"
                            "Dora@Example.com" "Passw0rd1" "Passw0rd1"
                            _ _ _ _ _ _ _ _ _ _ _ _) _)).
    + vm_compute. reflexivity.
    + vm_compute. reflexivity.
    + vm_compute. reflexivity.
    + vm_compute. reflexivity.
    + vm_compute. reflexivity.
    + vm_compute. reflexivity.
    + vm_compute. reflexivity.
    + vm_compute. reflexivity.
    + vm_compute. lia.
    + vm_compute. lia.
    + vm_compute. reflexivity.
    + vm_compute. reflexivity.
    + vm_compute. reflexivity.
Defined.

(** C3 as it is written fails on surrounding whitespace and on a field
    error.  [Passw0rd1] followed by a space and [Passw0rd1] behind a space
    differ, yet each field trims its value before [validate] compares
    them, and the account is created.  [Ab1] and [Passw0rd1] differ, yet
    the password field, which asks for 8 characters, rejects the first,
    [validate] is not reached and the error dictionary holds nothing under
    [password2]. *)
Lemma registration_password_counterexample :
  let trimmed : gmap string string :=
    {[ "name" := "Dora"; "email" := "Dora@Example.com";
       "password" := "Passw0rd1 "; "password2" := " Passw0rd1" ]} in
  let short : gmap string string :=
    {[ "name" := "Dora"; "email" := "Dora@Example.com";
       "password" := "Ab1"; "password2" := "Passw0rd1" ]} in
  trimmed !! "password" ≠ trimmed !! "password2"
  ∧ RegistrationSerializer.save (H := Examples.policy)
      (H0 := Examples.user_model) trimmed Examples.db
    = (<["dora@example.com" := Examples.dora]> Examples.db,
       inr Examples.dora)
  ∧ short !! "password" ≠ short !! "password2"
  ∧ RegistrationSerializer.run_validation (H := Examples.policy)
      (H0 := Examples.user_model) short Examples.db
    = (Examples.db,
       inl (ValidationError
              (DetailDict {[ "password" := DetailList [MinLength 8] ]}))).
Proof.
  cbv zeta. split; [vm_compute; discriminate|].
  split; [vm_compute; reflexivity|].
  split; [vm_compute; discriminate|].
  vm_compute. reflexivity.
Qed.

Lemma registration_keeps_accounts_witness :
  (<["dora@example.com" := Examples.dora]> Examples.db)
    !! "alice@example.com"
  = Some Examples.alice.
Proof.
  refine (proj1 (registration_keeps_accounts (policy := Examples.policy)
                   (model := Examples.user_model) Examples.registration
                   Examples.db
                   (<["dora@example.com" := Examples.dora]> Examples.db)
                   (inr Examples.dora) _)
            "alice@example.com" Examples.alice _).
  - vm_compute. reflexivity.
  - vm_compute. reflexivity.
Defined.

Lemma registration_creates_account_witness :
  RegistrationSerializer.save (H := Examples.policy)
    (H0 := Examples.user_model) Examples.registration Examples.db
  = (<["dora@example.com" := Examples.dora]> Examples.db,
     inr Examples.dora).
Proof.
  apply (registration_creates_account (policy := Examples.policy)
           (model := Examples.user_model) Examples.registration Examples.db
           "Dora" "Dora" "Dora@Example.com" "Dora@Example.com" "Passw0rd1").
  - vm_compute. reflexivity.
  - vm_compute. reflexivity.
  - vm_compute. reflexivity.
  - vm_compute. reflexivity.
  - vm_compute. reflexivity.
  - vm_compute. reflexivity.
  - vm_compute. reflexivity.
  - vm_compute. reflexivity.
  - vm_compute. lia.
  - vm_compute. reflexivity.
  - vm_compute. reflexivity.
Defined.

Lemma registration_twice_rejected_witness :
  ∃ errors,
    RegistrationSerializer.save (H := Examples.policy)
      (H0 := Examples.user_model)
      {[ "name" := "Dora Again"; "email" := "DORA@example.COM";
         "password" := "Passw0rd2"; "password2" := "Passw0rd2" ]}
      (<["dora@example.com" := Examples.dora]> Examples.db)
    = (<["dora@example.com" := Examples.dora]> Examples.db,
       inl (ValidationError (DetailDict errors)))
    ∧ errors !! "email"
      = Some (DetailList
                [Text "That email address has already been registered."]).
Proof.
  apply (registration_twice_rejected (policy := Examples.policy)
           (model := Examples.user_model) Examples.registration
           {[ "name" := "Dora Again"; "email" := "DORA@example.COM";
              "password" := "Passw0rd2"; "password2" := "Passw0rd2" ]}
           Examples.db
           (<["dora@example.com" := Examples.dora]> Examples.db)
           Examples.dora "DORA@example.COM" "DORA@example.COM").
  - vm_compute. reflexivity.
  - vm_compute. reflexivity.
  - vm_compute. reflexivity.
  - vm_compute. reflexivity.
  - vm_compute. reflexivity.
Defined.

Section RegistrationInvariants.
Context {policy : StrengthPolicy} {model : UserModel}.

(** The validated data of a registration hold nothing but a name, an
    email and a password. *)
Lemma registration_kwargs_keys (data : gmap string string) (db db1 : DB)
  (acc : gmap string string) (k : string) :
  to_internal_value_loop RegistrationSerializer.validate_method
    false RegistrationSerializer.fields data ∅ ∅ db
  = (db1, inr (acc, ∅)) →
  is_Some (delete "password2" acc !! k) →
  k ∈ ["name"; "email"; "password"].
Proof.
  intros Hloop [Hne Hk]%lookup_delete_is_Some.
  destruct (loop_keys _ _ _ _ _ _ _ _ _ _ k Hloop Hk)
    as [[? Habs]|(f & Hf & _ & <-)]; [by rewrite lookup_empty in Habs|].
  apply registration_field_names in Hf.
  revert Hf. rewrite !elem_of_cons, !elem_of_nil.
  intros [?|[?|[?|[?|[]]]]]; auto; congruence.
Qed.

(** X14. The account a registration has created can ask for its
    confirmation email: when the model starts an account with its email
    still to be verified, resending to the stored email of the new
    account finds that account, returns the email and exposes the account
    as the serializer's [user]. *)
Theorem registration_then_resend
  (data : gmap string string) (db db' : DB) (a : Account)
  (self : ResendConfirmationEmailSerializer.Self) :
  RegistrationSerializer.save data db = (db', inr a) →
  email_verification_required defaults = true →
  ResendConfirmationEmailSerializer.validate_email db' (email a) self
  = (ResendConfirmationEmailSerializer.mkSelf (Some a), inr (email a)).
Proof.
  intros Hsave Hflag.
  apply registration_save_inv in Hsave as (acc & Hloop & Ha & _ & ->).
  assert (email_verification_required a = true) as Hrequired.
  { rewrite Ha.
    destruct (setattr_fold_attrs (delete "password2" acc) defaults)
      as (_ & _ & _ & _ & Hf).
    rewrite Hf; [done|].
    destruct (delete "password2" acc !! "email_verification_required")
      eqn:Hk; [|done].
    assert ("email_verification_required" ∈ ["name"; "email"; "password"])
      as Hin by (eapply registration_kwargs_keys; eauto).
    revert Hin. rewrite !elem_of_cons, elem_of_nil.
    by intros [?|[?|[?|[]]]]. }
  validate_email_body. unfold get_by_natural_key.
  rewrite lookup_insert_eq. unfold bind, modify, ret.
  by rewrite Hrequired.
Qed.

(** X15. Registration keeps the table of accounts normalised: if every
    account is stored under its own email and every stored email is in
    lowercase, then, with an email column that is editable and required,
    the same holds after any registration, saved or rejected. *)
Theorem registration_keeps_table_normalized
  (data : gmap string string) (db db' : DB) (r : result Account) :
  (∀ k account, db !! k = Some account → email account = k ∧ lower k = k) →
  column_editable (columns "email") = true →
  column_required (columns "email") = true →
  RegistrationSerializer.save data db = (db', r) →
  ∀ k account, db' !! k = Some account → email account = k ∧ lower k = k.
Proof.
  intros Hdb Hedit Hreq Hsave.
  destruct r as [e|a].
  - assert (db' = db) as ->; [|done]. revert Hsave.
    unfold RegistrationSerializer.save, save, bind.
    destruct (registration_run_validation_cases data db) as (r & -> & _).
    destruct r as [e'|validated]; [by intros [= <- _]|].
    unfold RegistrationSerializer.create.
    destruct (create_cases defaults validated db)
      as [[e' ->]|(a' & _ & _ & ->)]; [by intros [= <- _] | done].
  - apply registration_save_inv in Hsave as (acc & Hloop & Ha & _ & ->).
    assert (lower (email a) = email a) as Hlower.
    { destruct (loop_success_field RegistrationSerializer.validate_method
                  false RegistrationSerializer.fields data ∅ db db acc
                  (mkField "email"
                     (negb (column_editable (columns "email")) || false)
                     false
                     (negb (negb (column_editable (columns "email")) || false)
                      && column_required (columns "email"))
                     (column_char (columns "email"))) Hloop)
        as [[v Hv] _].
      { rewrite registration_fields. apply elem_of_app. right. constructor. }
      { simpl. by rewrite Hedit. }
      { right. split; [done|]. simpl. by rewrite Hedit, Hreq. }
      simpl in Hv.
      destruct (loop_values _ _ _ _ _ _ _ _ _ _ "email" v Hloop Hv)
        as [Habs|(f & E & s0 & s1 & _ & _ & Hname & _ & Hstep)];
        [by rewrite lookup_empty in Habs|].
      apply registration_email_step_inv in Hstep
        as (_ & _ & v0 & _ & ->); [|done].
      rewrite Ha.
      destruct (setattr_fold_attrs (delete "password2" acc) defaults)
        as (_ & -> & _).
      rewrite lookup_delete_ne by done. rewrite Hv. simpl.
      apply lower_idempotent. }
    intros k account.
    destruct (decide (email a = k)) as [<-|Hne].
    + rewrite lookup_insert_eq. by intros [= <-].
    + rewrite lookup_insert_ne by done. apply Hdb.
Qed.

End RegistrationInvariants.

Lemma registration_then_resend_witness :
  ResendConfirmationEmailSerializer.validate_email
    (<["dora@example.com" := Examples.dora]> Examples.db)
    (email Examples.dora) (ResendConfirmationEmailSerializer.mkSelf None)
  = (ResendConfirmationEmailSerializer.mkSelf (Some Examples.dora),
     inr (email Examples.dora)).
Proof.
  apply (registration_then_resend (policy := Examples.policy)
           (model := Examples.user_model) Examples.registration Examples.db
           (<["dora@example.com" := Examples.dora]> Examples.db)
           Examples.dora (ResendConfirmationEmailSerializer.mkSelf None)).
  - vm_compute. reflexivity.
  - vm_compute. reflexivity.
Defined.

Lemma registration_keeps_table_normalized_witness :
  email Examples.dora = "dora@example.com"
  ∧ lower "dora@example.com" = "dora@example.com".
Proof.
  refine (registration_keeps_table_normalized (policy := Examples.policy)
            (model := Examples.user_model) Examples.registration ∅
            {[ "dora@example.com" := Examples.dora ]} (inr Examples.dora)
            _ _ _ _ "dora@example.com" Examples.dora _).
  - intros k account Habs. by rewrite lookup_empty in Habs.
  - vm_compute. reflexivity.
  - vm_compute. reflexivity.
  - vm_compute. reflexivity.
  - vm_compute. reflexivity.
Defined.

(** ** The serializers of an email address *)

Section EmailSerializers.
Context {email_policy : EmailPolicy}.

(** The email field accepts a value exactly when, once trimmed, it is not
    empty, has at most 511 characters and is an email address for the
    email validator; the validated value is the trimmed one. *)
Lemma email_field_accepts (e : string) :
  strip e ≠ EmptyString →
  len (strip e) ≤ 511 →
  EmailValidator (strip e) = [] →
  char_run_validation (char EmailSerializerBase.email) e = inr (strip e).
Proof.
  intros Hne Hlen Hvalid.
  apply (char_field_accepts None [MaxLengthValidator 511; EmailValidator]);
    [|done..].
  intros v [->|[->|[]%elem_of_nil]%elem_of_cons]%elem_of_cons; [|done].
  unfold MaxLengthValidator.
  destruct (Nat.ltb_spec 511 (len (strip e))); [lia | done].
Qed.

Lemma email_field_accepts_inv (e v : string) :
  char_run_validation (char EmailSerializerBase.email) e = inr v →
  v = strip e ∧ strip e ≠ EmptyString ∧ len (strip e) ≤ 511
  ∧ EmailValidator (strip e) = [].
Proof.
  intros Hv.
  apply (char_field_accepts_inv None [MaxLengthValidator 511; EmailValidator])
    in Hv as (-> & Hne & Hvs & _).
  split; [done|]. split; [done|]. split.
  - specialize (Hvs (MaxLengthValidator 511)).
    unfold MaxLengthValidator in Hvs.
    destruct (Nat.ltb_spec 511 (len (strip e))) as [Hlt|]; [|done].
    exfalso. assert ([MaxLength 511] = []) as Habs; [|done].
    apply Hvs. constructor.
  - apply Hvs. apply elem_of_cons. right. constructor.
Qed.

(** An email of more than 511 characters once trimmed is rejected by the
    field with the maximum-length message, whatever the email validator
    says of it. *)
Lemma email_field_too_long (e : string) :
  511 < len (strip e) →
  ∃ ms,
    char_run_validation (char EmailSerializerBase.email) e
    = inl (ValidationError (DetailList ms))
    ∧ MaxLength 511 ∈ ms.
Proof.
  intros Hlen.
  unfold char_run_validation, EmailSerializerBase.email,
    char_to_internal_value. simpl.
  assert (strip e ≠ EmptyString) as Hne.
  { intros Heq. rewrite Heq in Hlen. simpl in Hlen. lia. }
  assert (e ≠ EmptyString) by (intros ->; by apply Hne).
  rewrite !bool_decide_eq_false_2 by done. simpl.
  unfold run_validators, field_validators. simpl.
  unfold MaxLengthValidator at 1.
  destruct (Nat.ltb_spec 511 (len (strip e))); [|lia]. simpl.
  eexists. split; [done|]. constructor.
Qed.

(** X16. An email address of more than 511 characters (once trimmed) is
    rejected by both email serializers with the maximum-length message
    under [email], whatever the email validator says of it; the
    resend-confirmation serializer does so before any lookup, for every
    table of accounts, and its [user] attribute is left as it was. *)
Theorem email_too_long_rejected
  (db : DB) (partial : bool) (data : gmap string string) (e : string)
  (self : ResendConfirmationEmailSerializer.Self) :
  data !! "email" = Some e →
  511 < len (strip e) →
  (∃ errors ms,
     ResendConfirmationEmailSerializer.run_validation db partial data self
     = (self, inl (ValidationError (DetailDict errors)))
     ∧ errors !! "email" = Some (DetailList ms)
     ∧ MaxLength 511 ∈ ms)
  ∧ (∃ errors ms,
       PasswordResetEmailSerializer.run_validation partial data tt
       = (tt, inl (ValidationError (DetailDict errors)))
       ∧ errors !! "email" = Some (DetailList ms)
       ∧ MaxLength 511 ∈ ms).
Proof.
  intros Hdata Hlen.
  destruct (email_field_too_long e Hlen) as (ms & Hfield & Hms).
  split.
  - destruct (run_field_rejects
                (ResendConfirmationEmailSerializer.validate_method db)
                EmailSerializerBase.email e _ self Hfield)
      as (ms' & _ & [= <-] & Hstep).
    unfold ResendConfirmationEmailSerializer.run_validation,
      EmailSerializerBase.fields, run_validation, to_internal_value, bind.
    rewrite (loop_cons_rejected _ _ _ _ _ _ _ _ e (DetailList ms))
      by done.
    rewrite loop_nil. cbn [fst snd].
    rewrite decide_False by apply insert_non_empty.
    exists (<["email" := DetailList ms]> ∅), ms.
    split; [done|]. split; [apply lookup_insert_eq | done].
  - destruct (run_field_rejects (λ _, None)
                EmailSerializerBase.email e _ tt Hfield)
      as (ms' & _ & [= <-] & Hstep).
    unfold PasswordResetEmailSerializer.run_validation,
      EmailSerializerBase.fields, run_validation, to_internal_value, bind.
    rewrite (loop_cons_rejected _ _ _ _ _ _ _ _ e (DetailList ms))
      by done.
    rewrite loop_nil. cbn [fst snd].
    rewrite decide_False by apply insert_non_empty.
    exists (<["email" := DetailList ms]> ∅), ms.
    split; [done|]. split; [apply lookup_insert_eq | done].
Qed.

(** X17. The resend-confirmation serializer run on an email address its
    field accepts looks the account up under the trimmed address, in the
    letter case it was submitted in: with no account there validation
    raises the not-found message under [email]; with an account whose
    email is verified it raises the already-verified message under
    [email], and [user] is that account all the same; with an account
    whose email is still to be verified the validated data hold the
    trimmed address and [user] is that account. *)
Theorem resend_run_validation
  (db : DB) (partial : bool) (data : gmap string string) (e : string)
  (self : ResendConfirmationEmailSerializer.Self) :
  data !! "email" = Some e →
  strip e ≠ EmptyString →
  len (strip e) ≤ 511 →
  EmailValidator (strip e) = [] →
  ResendConfirmationEmailSerializer.run_validation db partial data self
  = match get_by_natural_key db (strip e) with
    | None =>
        (self,
         inl (ValidationError
                (DetailDict
                   {[ "email" :=
                        DetailList
                          [Text
                             "A user with this email address does not exist."
                          ] ]})))
    | Some found =>
        (ResendConfirmationEmailSerializer.mkSelf (Some found),
         if email_verification_required found
         then inr {[ "email" := strip e ]}
         else
           inl (ValidationError
                  (DetailDict
                     {[ "email" :=
                          DetailList
                            [Text "User email address is already verified."]
                     ]})))
    end.
Proof.
  intros Hdata Hne Hlen Hvalid.
  pose proof (email_field_accepts e Hne Hlen Hvalid) as Hfield.
  unfold ResendConfirmationEmailSerializer.run_validation,
    EmailSerializerBase.fields, run_validation, to_internal_value.
  unfold bind at 1 2.
  rewrite (loop_singleton _ _ _ _ _ e) by done.
  unfold run_field, catch_validation, bind at 1, lift. rewrite Hfield.
  change (ResendConfirmationEmailSerializer.validate_method db
            (field_name EmailSerializerBase.email))
    with (Some (ResendConfirmationEmailSerializer.validate_email db)).
  validate_email_body.
  destruct (get_by_natural_key db (strip e)) as [found|].
  - unfold bind, modify, raise, ret.
    destruct (email_verification_required found); cbn.
    + by rewrite decide_True by done.
    + by rewrite decide_False by apply insert_non_empty.
  - unfold raise. cbn.
    by rewrite decide_False by apply insert_non_empty.
Qed.

(** X18. The password-reset-email serializer validates an address by its
    field alone: the validated data are the address trimmed, in the letter
    case it was submitted in, exactly when the trimmed address is not
    empty, has at most 511 characters and is an email address for the
    email validator; nothing is looked up and nothing is lowercased. *)
Theorem password_reset_email_validated
  (partial : bool) (data : gmap string string) (e : string) :
  data !! "email" = Some e →
  (strip e ≠ EmptyString →
   len (strip e) ≤ 511 →
   EmailValidator (strip e) = [] →
   PasswordResetEmailSerializer.run_validation partial data tt
   = (tt, inr {[ "email" := strip e ]}))
  ∧ (∀ validated,
       PasswordResetEmailSerializer.run_validation partial data tt
       = (tt, inr validated) →
       validated = {[ "email" := strip e ]}
       ∧ strip e ≠ EmptyString
       ∧ len (strip e) ≤ 511
       ∧ EmailValidator (strip e) = []).
Proof.
  intros Hdata.
  assert (PasswordResetEmailSerializer.run_validation partial data tt
          = match char_run_validation (char EmailSerializerBase.email) e with
            | inr v => (tt, inr {[ "email" := v ]})
            | inl (ValidationError d) =>
                (tt, inl (ValidationError (DetailDict {[ "email" := d ]})))
            | inl err => (tt, inl err)
            end) as ->.
  { unfold PasswordResetEmailSerializer.run_validation,
      EmailSerializerBase.fields, run_validation, to_internal_value.
    unfold bind at 1 2.
    rewrite (loop_singleton _ _ _ _ _ e) by done.
    unfold run_field, catch_validation, bind, lift, ret.
    destruct (char_run_validation (char EmailSerializerBase.email) e)
      as [[d| | |]|v]; cbn; done. }
  split.
  - intros Hne Hlen Hvalid. by rewrite email_field_accepts.
  - intros validated.
    destruct (char_run_validation (char EmailSerializerBase.email) e)
      as [[d| | |]|v] eqn:Hfield; try done.
    intros [= <-]. by apply email_field_accepts_inv in Hfield as (-> & ?).
Qed.

End EmailSerializers.

Lemma email_too_long_rejected_witness :
  ∃ errors ms,
    PasswordResetEmailSerializer.run_validation (H := Examples.email_policy)
      false {[ "email" := Examples.long_email ]} tt
    = (tt, inl (ValidationError (DetailDict errors)))
    ∧ errors !! "email" = Some (DetailList ms)
    ∧ MaxLength 511 ∈ ms.
Proof.
  refine (proj2 (email_too_long_rejected
                   (email_policy := Examples.email_policy) Examples.db false
                   {[ "email" := Examples.long_email ]} Examples.long_email
                   (ResendConfirmationEmailSerializer.mkSelf None) _ _)).
  - vm_compute. reflexivity.
  - vm_compute. lia.
Defined.

Lemma resend_run_validation_witness :
  ResendConfirmationEmailSerializer.run_validation
    (H := Examples.email_policy) Examples.db false
    {[ "email" := " alice@example.com " ]}
    (ResendConfirmationEmailSerializer.mkSelf None)
  = match get_by_natural_key Examples.db (strip " alice@example.com ") with
    | None =>
        (ResendConfirmationEmailSerializer.mkSelf None,
         inl (ValidationError
                (DetailDict
                   {[ "email" :=
                        DetailList
                          [Text
                             "A user with this email address does not exist."
                          ] ]})))
    | Some found =>
        (ResendConfirmationEmailSerializer.mkSelf (Some found),
         if email_verification_required found
         then inr {[ "email" := strip " alice@example.com " ]}
         else
           inl (ValidationError
                  (DetailDict
                     {[ "email" :=
                          DetailList
                            [Text "User email address is already verified."]
                     ]})))
    end.
Proof.
  apply (resend_run_validation (email_policy := Examples.email_policy)
           Examples.db false {[ "email" := " alice@example.com " ]}
           " alice@example.com "
           (ResendConfirmationEmailSerializer.mkSelf None)).
  - vm_compute. reflexivity.
  - vm_compute. discriminate.
  - vm_compute. lia.
  - vm_compute. reflexivity.
Defined.

Lemma password_reset_email_validated_witness :
  PasswordResetEmailSerializer.run_validation (H := Examples.email_policy)
    false {[ "email" := " Alice@Example.com " ]} tt
  = (tt, inr {[ "email" := strip " Alice@Example.com " ]}).
Proof.
  refine (proj1 (password_reset_email_validated
                   (email_policy := Examples.email_policy) false
                   {[ "email" := " Alice@Example.com " ]}
                   " Alice@Example.com " _) _ _ _).
  - vm_compute. reflexivity.
  - vm_compute. discriminate.
  - vm_compute. lia.
  - vm_compute. reflexivity.
Defined.

(** ** Creating a user through [UserSerializerCreate] *)

Section UserCreate.
Context {model : UserModel}.

Lemma user_create_fields :
  UserSerializerCreate.fields
  = [mkField "url" true false false (column_char (columns "url"));
     mkField "name" (negb (column_editable (columns "name")) || false) false
       (negb (negb (column_editable (columns "name")) || false)
        && column_required (columns "name"))
       (column_char (columns "name"));
     mkField "email" (negb (column_editable (columns "email")) || false)
       false
       (negb (negb (column_editable (columns "email")) || false)
        && column_required (columns "email"))
       (column_char (columns "email"));
     mkField "date_joined"
       (negb (column_editable (columns "date_joined")) || true) false
       (negb (negb (column_editable (columns "date_joined")) || true)
        && column_required (columns "date_joined"))
       (column_char (columns "date_joined"))].
Proof. reflexivity. Qed.

Lemma user_create_writable f :
  f ∈ UserSerializerCreate.fields → read_only f = false →
  field_name f ∈ ["name"; "email"].
Proof.
  rewrite user_create_fields. rewrite !elem_of_cons, elem_of_nil.
  intros [->|[->|[->|[->|[]]]]]; simpl; rewrite ?orb_true_r;
    intros Hro; try done; auto.
Qed.

Lemma user_create_field_returns f primitive db :
  ∃ r, run_field UserSerializerCreate.validate_method f primitive db
       = (db, inr r).
Proof.
  unfold UserSerializerCreate.validate_method.
  destruct (decide (field_name f = "email")) as [He|He].
  - unfold run_field, catch_validation, bind, lift, get.
    rewrite decide_True by done.
    destruct (char_run_validation (char f) primitive) as [e|v] eqn:Hv.
    + apply char_run_validation_raises in Hv as (ms & _ & ->). eauto.
    + validate_email_body.
      destruct (get_by_natural_key db (lower v)); simpl; eauto.
  - apply run_field_pure. by rewrite decide_False.
Qed.

Lemma user_create_email_step f primitive v0 db :
  field_name f = "email" →
  char_run_validation (char f) primitive = inr v0 →
  get_by_natural_key db (lower v0) = None →
  run_field UserSerializerCreate.validate_method f primitive db
  = (db, inr (inr (lower v0))).
Proof.
  intros Hf Hv Hk. unfold run_field, catch_validation, bind, lift, get.
  unfold UserSerializerCreate.validate_method. rewrite Hf.
  rewrite decide_True by done. rewrite Hv.
  validate_email_body. unfold bind, lift, get.
  cbv beta zeta. by rewrite Hk.
Qed.

(** X19. Creating a user through [UserSerializerCreate] with a name and an
    email the fields of the model accept, when no account exists under the
    lowercased email, adds an account with the accepted name and the
    lowercase form of the accepted email; its password, its date of
    joining and its verification flag are those the model starts an
    account with, whatever else was submitted (a [date_joined], a [url], a
    [password]). *)
Theorem user_create_save
  (data : gmap string string) (db : DB) (n n' E e' : string) :
  column_editable (columns "name") = true →
  column_editable (columns "email") = true →
  data !! "name" = Some n →
  char_run_validation (column_char (columns "name")) n = inr n' →
  data !! "email" = Some E →
  char_run_validation (column_char (columns "email")) E = inr e' →
  get_by_natural_key db (lower e') = None →
  UserSerializerCreate.save data db
  = (<[lower e' :=
         mkAccount n' (lower e') (password defaults) (date_joined defaults)
           (email_verification_required defaults)]> db,
     inr (mkAccount n' (lower e') (password defaults) (date_joined defaults)
            (email_verification_required defaults))).
Proof.
  intros Hen Hee Hn Hn' HE He' Hfree.
  set (kwargs := <["email" := lower e']> (<["name" := n']> ∅)
                 : gmap string string).
  assert (to_internal_value_loop UserSerializerCreate.validate_method
            false UserSerializerCreate.fields data ∅ ∅ db
          = (db, inr (kwargs, ∅))) as Hloop.
  { rewrite user_create_fields.
    rewrite loop_cons_read_only by done.
    rewrite (loop_cons_accepted _ _ _ _ _ _ _ _ n n'); [| |done|].
    2:{ simpl. by rewrite Hen. }
    2:{ by apply run_field_accepts. }
    rewrite (loop_cons_accepted _ _ _ _ _ _ _ _ E (lower e')); [| |done|].
    2:{ simpl. by rewrite Hee. }
    2:{ by apply user_create_email_step. }
    rewrite loop_cons_read_only by (simpl; by rewrite orb_true_r).
    apply loop_nil. }
  set (a := mkAccount n' (lower e') (password defaults) (date_joined defaults)
              (email_verification_required defaults)).
  assert (init defaults kwargs = inr a) as Hinit.
  { rewrite init_cases.
    - unfold a. destruct defaults. reflexivity.
    - intros k. unfold kwargs, model_fields.
      rewrite !lookup_insert_is_Some', lookup_empty.
      rewrite !elem_of_cons.
      intros [<-|[<-|[? Habs]]]; [auto..|done]. }
  assert (email a = lower e') as Hemail by reflexivity.
  clearbody kwargs a.
  unfold UserSerializerCreate.save, save, bind.
  unfold UserSerializerCreate.run_validation, run_validation,
    to_internal_value, bind.
  rewrite Hloop. cbn [fst snd]. rewrite decide_True by reflexivity.
  unfold ret, catch_validation. cbv beta iota.
  unfold model_create, Models.create, bind, lift, get, modify, ret.
  rewrite Hinit. cbv beta iota. unfold get_by_natural_key in Hfree.
  rewrite Hemail. by rewrite Hfree.
Qed.

(** X20. [UserSerializerCreate] never takes the password, the date of
    joining or the verification flag of the new account from what was
    submitted, and never touches an existing account: when saving raises,
    the table is as it was; when it returns the account, those three
    attributes are the ones the model starts an account with, and the
    table is the old one with the account added under its email, a key
    that was free. *)
Theorem user_create_frame
  (data : gmap string string) (db db' : DB) (r : result Account) :
  UserSerializerCreate.save data db = (db', r) →
  (∀ e, r = inl e → db' = db)
  ∧ (∀ a, r = inr a →
          password a = password defaults
          ∧ date_joined a = date_joined defaults
          ∧ email_verification_required a
            = email_verification_required defaults
          ∧ db !! email a = None
          ∧ db' = <[email a := a]> db).
Proof.
  unfold UserSerializerCreate.save, save, bind.
  unfold UserSerializerCreate.run_validation.
  destruct (run_validation_cases UserSerializerCreate.fields
              UserSerializerCreate.validate_method ret false data db)
    as (r0 & -> & Hr).
  { intros f primitive _. apply user_create_field_returns. }
  { intros attrs. unfold ret. eauto. }
  destruct r0 as [e|validated].
  { intros [= <- <-]. split; [done|]. by intros a [=]. }
  destruct (Hr validated eq_refl) as (acc & [= <-] & Hloop).
  unfold model_create.
  destruct (create_cases defaults acc db)
    as [[e ->]|(a & Hinit & Hfree & ->)].
  { intros [= <- <-]. split; [done|]. by intros a [=]. }
  intros [= <- <-]. split; [by intros e [=]|].
  intros a' [= <-].
  assert (∀ k, k ∉ ["name"; "email"] → acc !! k = None) as Hkeys.
  { intros k Hk. destruct (acc !! k) eqn:Hacc; [|done]. exfalso.
    destruct (loop_keys _ _ _ _ _ _ _ _ _ _ k Hloop)
      as [[? Habs]|(f & Hf & Hro & <-)]; [eauto| |].
    - by rewrite lookup_empty in Habs.
    - by apply Hk, user_create_writable. }
  apply init_inv in Hinit as ->.
  destruct (setattr_fold_attrs acc defaults)
    as (_ & _ & -> & -> & Hflag).
  assert (∀ k, k ≠ "name" → k ≠ "email" → acc !! k = None) as Hother.
  { intros k ? ?. apply Hkeys. rewrite !elem_of_cons, elem_of_nil.
    by intros [?|[?|[]]]. }
  rewrite Hflag by (by apply Hother).
  rewrite !Hother by done. done.
Qed.

End UserCreate.

Lemma user_create_save_witness :
  UserSerializerCreate.save (H := Examples.user_model)
    {[ "name" := "Dora"; "email" := "Dora@Example.com";
       "date_joined" := "1999-12-31T23:59:59Z"; "password" := "Passw0rd1" ]}
    Examples.db
  = (<["dora@example.com" :=
         mkAccount "Dora" "dora@example.com" EmptyString
           "2015-06-01T12:00:00Z" true]> Examples.db,
     inr (mkAccount "Dora" "dora@example.com" EmptyString
            "2015-06-01T12:00:00Z" true)).
Proof.
  apply (user_create_save (model := Examples.user_model)
           {[ "name" := "Dora"; "email" := "Dora@Example.com";
              "date_joined" := "1999-12-31T23:59:59Z";
              "password" := "Passw0rd1" ]}
           Examples.db "Dora" "Dora" "Dora@Example.com" "Dora@Example.com").
  - vm_compute. reflexivity.
  - vm_compute. reflexivity.
  - vm_compute. reflexivity.
  - vm_compute. reflexivity.
  - vm_compute. reflexivity.
  - vm_compute. reflexivity.
  - vm_compute. reflexivity.
Defined.

Lemma user_create_frame_witness :
  Examples.db = Examples.db.
Proof.
  refine (proj1 (user_create_frame (model := Examples.user_model)
                   {[ "name" := "Alice"; "email" := "ALICE@example.com" ]}
                   Examples.db Examples.db
                   (inl (ValidationError
                           (DetailDict
                              {[ "email" :=
                                   DetailList
                                     [Text
                                        "That email address has already been registered."
                                     ] ]}))) _) _ eq_refl).
  vm_compute. reflexivity.
Defined.

(** ** What a saved registration went through *)

Lemma registration_validate_inv (attrs validated : gmap string string) :
  RegistrationSerializer.validate attrs = inr validated →
  validated = delete "password2" attrs
  ∧ ∃ q, attrs !! "password2" = Some q ∧ attrs !! "password" = Some q.
Proof.
  unfold RegistrationSerializer.validate, pop.
  destruct (attrs !! "password2") as [q|]; simpl; [|done].
  rewrite lookup_delete_ne by done.
  case_decide as Hd; [done|]. intros [= <-]. eauto.
Qed.

Section RegistrationOnlyIf.
Context {policy : StrengthPolicy} {model : UserModel}.

Lemma registration_field_of_name f :
  f ∈ RegistrationSerializer.fields →
  (field_name f = "password" → f = RegistrationSerializer.password)
  ∧ (field_name f = "password2" → f = RegistrationSerializer.password2).
Proof.
  rewrite registration_fields. simpl.
  rewrite !elem_of_cons, elem_of_nil.
  intros [->|[->|[->|[->|[]]]]]; by split.
Qed.

(** X21. A registration is saved only when [password] and [password2]
    were both submitted, are equal once trimmed, have at least 8
    characters and pass the strength policy; the password attribute of the
    account it creates is then the trimmed password as it was submitted. *)
Theorem registration_save_only_if
  (data : gmap string string) (db db' : DB) (a : Account) :
  RegistrationSerializer.save data db = (db', inr a) →
  ∃ p p2,
    data !! "password" = Some p
    ∧ data !! "password2" = Some p2
    ∧ strip p = strip p2
    ∧ 8 ≤ len (strip p)
    ∧ validate_password_strength (strip p) = []
    ∧ password a = strip p.
Proof.
  unfold RegistrationSerializer.save, save, bind.
  unfold RegistrationSerializer.run_validation.
  destruct (run_validation_cases RegistrationSerializer.fields
              RegistrationSerializer.validate_method
              (λ attrs, lift (RegistrationSerializer.validate attrs))
              false data db) as (r & -> & Hr).
  { intros f primitive _. apply registration_field_returns. }
  { intros attrs. unfold lift. eauto. }
  destruct r as [e|validated]; [done|].
  destruct (Hr validated eq_refl) as (acc & Hv & Hloop).
  unfold lift in Hv. injection Hv as Hv.
  apply registration_validate_inv in Hv as (-> & q & Hq2 & Hq1).
  unfold RegistrationSerializer.create.
  destruct (create_cases defaults (delete "password2" acc) db)
    as [[e ->]|(a' & Hinit & _ & ->)]; [done|].
  intros [= _ <-]. apply init_inv in Hinit.
  destruct (loop_values _ _ _ _ _ _ _ _ _ _ "password" q Hloop Hq1)
    as [Habs|(f & p & s0 & s1 & Hf & _ & Hname & Hp & Hstep)];
    [by rewrite lookup_empty in Habs|].
  destruct (loop_values _ _ _ _ _ _ _ _ _ _ "password2" q Hloop Hq2)
    as [Habs|(f2 & p2 & s2 & s3 & Hf2 & _ & Hname2 & Hp2 & Hstep2)];
    [by rewrite lookup_empty in Habs|].
  apply registration_field_of_name in Hf as [Hf _].
  specialize (Hf Hname) as ->.
  apply registration_field_of_name in Hf2 as [_ Hf2].
  specialize (Hf2 Hname2) as ->.
  apply run_field_accepts_inv in Hstep as [Hstep _]; [|done].
  apply run_field_accepts_inv in Hstep2 as [Hstep2 _]; [|done].
  apply char_field_accepts_inv in Hstep as (-> & _ & Hvs & Hlen).
  apply char_field_accepts_inv in Hstep2 as (Heq & _).
  exists p, p2. repeat split; try done.
  - apply Hvs. constructor.
  - rewrite Hinit.
    destruct (setattr_fold_attrs (delete "password2" acc) defaults)
      as (_ & _ & -> & _).
    rewrite lookup_delete_ne by done. by rewrite Hq1.
Qed.

End RegistrationOnlyIf.

Lemma registration_save_only_if_witness :
  ∃ p p2,
    Examples.registration !! "password" = Some p
    ∧ Examples.registration !! "password2" = Some p2
    ∧ strip p = strip p2
    ∧ 8 ≤ len (strip p)
    ∧ Examples.policy (strip p) = []
    ∧ password Examples.dora = strip p.
Proof.
  apply (registration_save_only_if (policy := Examples.policy)
           (model := Examples.user_model) Examples.registration Examples.db
           (<["dora@example.com" := Examples.dora]> Examples.db)
           Examples.dora).
  vm_compute. reflexivity.
Defined.

(** ** The key of the lookups *)


Section LookupKeys.
Context {policy : StrengthPolicy} {model : UserModel}
  {email_policy : EmailPolicy}.








End LookupKeys.


